(** * Team-formation algorithms: a shallow embedding of
      [algorithm/algorithms.py] and [ai/priority_algorithm/priority_teamset.py]

    Python objects that are mutated in place (students, teams, option
    objects) live in explicit stores and are passed around by reference
    (an index or a key of the store).  Code that may raise returns an
    [outcome]; loops whose termination is not evident from the source take
    a fuel argument and answer [OutOfFuel] when it is exhausted. *)

From Stdlib Require Import ZArith QArith.QArith_base Bool Lia.
From stdpp Require Import base list gmap strings.

Local Open Scope Z_scope.
Local Open Scope string_scope.

(** ** Outcomes of Python code *)

Inductive exn : Type :=
  | AlgorithmException (msg : string)
  | TypeError
  | IndexError
  | KeyError
  | AttributeError.

Inductive outcome (A : Type) : Type :=
  | Returns (a : A)
  | Raises (e : exn)
  | OutOfFuel.

Arguments Returns {A} a.
Arguments Raises {A} e.
Arguments OutOfFuel {A}.

Definition bind {A B : Type} (m : outcome A) (k : A -> outcome B) : outcome B :=
  match m with
  | Returns a => k a
  | Raises e => Raises e
  | OutOfFuel => OutOfFuel
  end.

Notation "'let!' x ':=' m 'in' k" := (bind m (fun x => k))
  (at level 10, x name, m at level 100, k at level 200).
Notation "m '>>' k" := (bind m (fun _ => k))
  (at level 100, k at level 200, right associativity).

(** ** Python values, as far as the option object stores them *)

#[warnings="-register-all"]
Inductive pyval : Type :=
  | PNone
  | PBool (b : bool)
  | PInt (z : Z)
  | PFloat (q : Q)
  | PStr (s : string)
  | PList (l : list pyval)
  | PDict (d : list (pyval * pyval)).

(** [bool(v)] *)
Definition truthy (v : pyval) : bool :=
  match v with
  | PNone => false
  | PBool b => b
  | PInt z => negb (Z.eqb z 0)
  | PFloat q => negb (Z.eqb (Qnum q) 0)
  | PStr s => negb (String.eqb s "")
  | PList l => match l with [] => false | _ => true end
  | PDict d => match d with [] => false | _ => true end
  end.

(** [a or b] *)
Definition py_or (a b : pyval) : pyval := if truthy a then a else b.

(** [isinstance(v, int)]: [bool] is a subclass of [int]. *)
Definition isinstance_int (v : pyval) : bool :=
  match v with PInt _ | PBool _ => true | _ => false end.

(** [isinstance(v, str)] *)
Definition isinstance_str (v : pyval) : bool :=
  match v with PStr _ => true | _ => false end.

(** [v == z] for an integer literal [z]. *)
Definition py_eq_int (v : pyval) (z : Z) : bool :=
  match v with
  | PInt x => Z.eqb x z
  | PBool b => Z.eqb (if b then 1 else 0) z
  | PFloat q => Qeq_bool q (inject_Z z)
  | _ => false
  end.

(** [v == s] for a string literal [s]. *)
Definition py_eq_str (v : pyval) (s : string) : bool :=
  match v with PStr s' => String.eqb s' s | _ => false end.

(** [d[k]] for a string literal [k]. *)
Fixpoint dict_get (d : list (pyval * pyval)) (k : string) : outcome pyval :=
  match d with
  | [] => Raises KeyError
  | (k', v) :: d' => if py_eq_str k' k then Returns v else dict_get d' k
  end.

Definition py_getitem (v : pyval) (k : string) : outcome pyval :=
  match v with
  | PDict d => dict_get d k
  | _ => Raises TypeError
  end.

(** ** The [schema] library, as far as [validate] uses it

    [Schema(int)] accepts instances of [int]; releases of the library differ
    on whether a [bool] counts, which is left as a parameter.
    [Schema([s])] accepts a list whose elements all satisfy [s];
    [Schema({'k': s, ...})] accepts a dict that has every listed key, no
    other key, and values satisfying the schema of their key. *)

Section Schema.
Variable bool_is_schema_int : bool.

Definition schema_int (v : pyval) : bool :=
  match v with
  | PInt _ => true
  | PBool _ => bool_is_schema_int
  | _ => false
  end.

Definition schema_str (v : pyval) : bool := isinstance_str v.

Definition schema_list (elem : pyval -> bool) (v : pyval) : bool :=
  match v with
  | PList l => forallb elem l
  | _ => false
  end.

Definition schema_dict (fields : list (string * (pyval -> bool))) (v : pyval) : bool :=
  match v with
  | PDict d =>
      forallb (fun kv : pyval * pyval =>
                 existsb (fun f : string * (pyval -> bool) =>
                            py_eq_str (fst kv) (fst f) && snd f (snd kv)) fields) d
      && forallb (fun f : string * (pyval -> bool) =>
                    existsb (fun kv : pyval * pyval => py_eq_str (fst kv) (fst f)) d) fields
  | _ => false
  end.

(** ** [AlgorithmOptions] *)

Record AlgorithmOptions : Type := mkOptions {
  diversity_weight : pyval;
  preference_weight : pyval;
  requirement_weight : pyval;
  social_weight : pyval;
  max_project_preferences : pyval;
  blacklist_behaviour : pyval;
  whitelist_behaviour : pyval;
  diversify_options : pyval;
  concentrate_options : pyval;
  priorities : pyval
}.

Definition ENFORCE_value : string := "enforce".
Definition INVERT_value : string := "invert".
Definition IGNORE_value : string := "ignore".

(** [BEHAVIOUR_OPTIONS.values()] *)
Definition BEHAVIOUR_OPTIONS_values : list string :=
  [ENFORCE_value; INVERT_value; IGNORE_value].

Definition msg_not_integer : string :=
  "One or more of diversity weight, preference weight, requirement weight, social weight, max preferences is not an integer.".
Definition msg_not_string : string :=
  "One or more of blacklist behaviour, whitelist behaviour is not a string.".
Definition msg_invalid_behaviour : string := "Invalid behaviour option.".
Definition msg_options_format : string :=
  "Invalid format for concentrate/diversify options".
Definition msg_both_limits : string :=
  "Only one of max_of, min_of in each priority option can be set.".
Definition msg_limit_without_value : string :=
  "One or more of max_of, min_of is given while value is not.".
Definition msg_priorities_format : string := "Invalid format for priorities".

(** First loop of [validate]. *)
Fixpoint validate_ints (items : list pyval) : outcome unit :=
  match items with
  | [] => Returns tt
  | item :: rest =>
      if truthy item && negb (isinstance_int item)
      then Raises (AlgorithmException msg_not_integer)
      else validate_ints rest
  end.

(** [item not in self.BEHAVIOUR_OPTIONS.values()] *)
Definition in_behaviour_values (item : pyval) : bool :=
  existsb (py_eq_str item) BEHAVIOUR_OPTIONS_values.

(** Second loop of [validate]. *)
Fixpoint validate_strs (items : list pyval) : outcome unit :=
  match items with
  | [] => Returns tt
  | item :: rest =>
      if negb (isinstance_str item)
      then Raises (AlgorithmException msg_not_string)
      else if negb (in_behaviour_values item)
      then Raises (AlgorithmException msg_invalid_behaviour)
      else validate_strs rest
  end.

(** [Schema([[{'id': int}]])] *)
Definition options_list_schema : pyval -> bool :=
  schema_list (schema_list (schema_dict [("id", schema_int)])).

(** [priorities_schema] *)
Definition priorities_schema : pyval -> bool :=
  schema_list (schema_dict [("order", schema_int); ("type", schema_str);
                            ("id", schema_int); ("max_of", schema_int);
                            ("min_of", schema_int); ("value", schema_int)]).

Definition conf_inner (d : pyval) : outcome unit :=
  let! max_of := py_getitem d "max_of" in
  let! min_of := py_getitem d "min_of" in
  if negb (py_eq_int max_of (-1)) && negb (py_eq_int min_of (-1))
  then Raises (AlgorithmException msg_both_limits)
  else
    let! value := py_getitem d "value" in
    if py_eq_int value (-1)
       && (negb (py_eq_int max_of (-1)) || negb (py_eq_int min_of (-1)))
    then Raises (AlgorithmException msg_limit_without_value)
    else Returns tt.

Fixpoint conf_inner_all (ps : list pyval) : outcome unit :=
  match ps with
  | [] => Returns tt
  | p :: rest => conf_inner p >> conf_inner_all rest
  end.

Definition validate (self : AlgorithmOptions) : outcome unit :=
  validate_ints [diversity_weight self; preference_weight self;
                 requirement_weight self; social_weight self;
                 max_project_preferences self] >>
  validate_strs [blacklist_behaviour self; whitelist_behaviour self] >>
  (if options_list_schema (PList [concentrate_options self; diversify_options self])
   then Returns tt
   else Raises (AlgorithmException msg_options_format)) >>
  (if priorities_schema (priorities self)
   then match priorities self with
        | PList ps => conf_inner_all ps
        | _ => Returns tt
        end
   else Raises (AlgorithmException msg_priorities_format)).

(** [AlgorithmOptions.__init__]; an omitted argument is [PNone]. *)
Definition AlgorithmOptions_init
    (requirement_weight0 social_weight0 diversity_weight0 preference_weight0
     max_project_preferences0 blacklist_behaviour0 whitelist_behaviour0
     diversify_options0 concentrate_options0 priorities0 : pyval)
  : outcome AlgorithmOptions :=
  let self := {|
    diversity_weight := diversity_weight0;
    preference_weight := preference_weight0;
    requirement_weight := requirement_weight0;
    social_weight := social_weight0;
    max_project_preferences := max_project_preferences0;
    blacklist_behaviour := py_or blacklist_behaviour0 (PStr IGNORE_value);
    whitelist_behaviour := py_or whitelist_behaviour0 (PStr IGNORE_value);
    diversify_options := py_or diversify_options0 (PList []);
    concentrate_options := py_or concentrate_options0 (PList []);
    priorities := py_or priorities0 (PList [])
  |} in
  validate self >> Returns self.

End Schema.

Arguments AlgorithmOptions_init bool_is_schema_int
  requirement_weight0 social_weight0 diversity_weight0 preference_weight0
  max_project_preferences0 blacklist_behaviour0 whitelist_behaviour0
  diversify_options0 concentrate_options0 priorities0 : rename.

(** ** Relationships and their adjustment *)

(** Modelled from the spec: the constants [FRIEND], [DEFAULT], [ENEMY] of
    [consts.py], which is not part of the sources; the spec gives
    Relationship as the three-valued enumeration FRIEND, DEFAULT, ENEMY. *)
Inductive Relationship : Type := FRIEND | DEFAULT | ENEMY.

#[global] Instance Relationship_eq_dec : EqDecision Relationship.
Proof. solve_decision. Defined.

(** A Python dict from relationships to relationships, in insertion order. *)
Definition rel_dict : Type := list (Relationship * Relationship).

Fixpoint rel_dict_set (d : rel_dict) (k v : Relationship) : rel_dict :=
  match d with
  | [] => [(k, v)]
  | (k', v') :: d' =>
      if decide (k' = k) then (k', v) :: d' else (k', v') :: rel_dict_set d' k v
  end.

Fixpoint rel_dict_get (d : rel_dict) (k : Relationship) : option Relationship :=
  match d with
  | [] => None
  | (k', v') :: d' => if decide (k' = k) then Some v' else rel_dict_get d' k
  end.

Definition get_adjusted_relationships (self : AlgorithmOptions) : rel_dict * bool :=
  let adjusted_relationships := [(FRIEND, FRIEND); (DEFAULT, DEFAULT); (ENEMY, ENEMY)] in
  let adjusted_relationships :=
    if py_eq_str (whitelist_behaviour self) INVERT_value
    then rel_dict_set adjusted_relationships FRIEND ENEMY
    else if py_eq_str (whitelist_behaviour self) IGNORE_value
    then rel_dict_set adjusted_relationships FRIEND DEFAULT
    else adjusted_relationships in
  let adjusted_relationships :=
    if py_eq_str (blacklist_behaviour self) INVERT_value
    then rel_dict_set adjusted_relationships ENEMY FRIEND
    else if py_eq_str (blacklist_behaviour self) IGNORE_value
    then rel_dict_set adjusted_relationships ENEMY DEFAULT
    else adjusted_relationships in
  let is_modified :=
    existsb (fun ra : Relationship * Relationship =>
               negb (bool_decide (fst ra = snd ra))) adjusted_relationships in
  (adjusted_relationships, is_modified).

(** The behaviour settings, and the table the specification gives for them. *)
Inductive RelationshipBehaviour : Type := ENFORCE | INVERT | IGNORE.

Definition behaviour_value (b : RelationshipBehaviour) : string :=
  match b with
  | ENFORCE => ENFORCE_value
  | INVERT => INVERT_value
  | IGNORE => IGNORE_value
  end.

Definition spec_adjusted (whitelist blacklist : RelationshipBehaviour)
    (r : Relationship) : Relationship :=
  match r with
  | FRIEND => match whitelist with
              | ENFORCE => FRIEND | INVERT => ENEMY | IGNORE => DEFAULT
              end
  | ENEMY => match blacklist with
             | ENFORCE => ENEMY | INVERT => FRIEND | IGNORE => DEFAULT
             end
  | DEFAULT => DEFAULT
  end.

Definition with_behaviours (o : AlgorithmOptions)
    (whitelist blacklist : RelationshipBehaviour) : AlgorithmOptions :=
  {| diversity_weight := diversity_weight o;
     preference_weight := preference_weight o;
     requirement_weight := requirement_weight o;
     social_weight := social_weight o;
     max_project_preferences := max_project_preferences o;
     blacklist_behaviour := PStr (behaviour_value blacklist);
     whitelist_behaviour := PStr (behaviour_value whitelist);
     diversify_options := diversify_options o;
     concentrate_options := concentrate_options o;
     priorities := priorities o |}.

(** ** The option objects on the heap, and the algorithm objects that hold
       a reference to one *)

Abbreviation loc := nat (only parsing).

Record Algorithm : Type := mkAlgorithm {
  options : loc;
  teams : list nat
}.

(** [Algorithm.__init__]: [Schema(AlgorithmOptions).validate(options)] lets
    an instance of the class through unchanged (the same object) and turns
    anything else into an [AlgorithmException]. *)
Definition Algorithm_init (h : gmap loc AlgorithmOptions) (options0 : loc)
  : outcome Algorithm :=
  match h !! options0 with
  | Some _ => Returns {| options := options0; teams := [] |}
  | None => Raises (AlgorithmException "Error while initializing class")
  end.

Definition set_social_weight (v : pyval) (o : AlgorithmOptions) : AlgorithmOptions :=
  {| diversity_weight := diversity_weight o;
     preference_weight := preference_weight o;
     requirement_weight := requirement_weight o;
     social_weight := v;
     max_project_preferences := max_project_preferences o;
     blacklist_behaviour := blacklist_behaviour o;
     whitelist_behaviour := whitelist_behaviour o;
     diversify_options := diversify_options o;
     concentrate_options := concentrate_options o;
     priorities := priorities o |}.

Definition set_diversity_weight (v : pyval) (o : AlgorithmOptions) : AlgorithmOptions :=
  {| diversity_weight := v;
     preference_weight := preference_weight o;
     requirement_weight := requirement_weight o;
     social_weight := social_weight o;
     max_project_preferences := max_project_preferences o;
     blacklist_behaviour := blacklist_behaviour o;
     whitelist_behaviour := whitelist_behaviour o;
     diversify_options := diversify_options o;
     concentrate_options := concentrate_options o;
     priorities := priorities o |}.

Definition set_requirement_weight (v : pyval) (o : AlgorithmOptions) : AlgorithmOptions :=
  {| diversity_weight := diversity_weight o;
     preference_weight := preference_weight o;
     requirement_weight := v;
     social_weight := social_weight o;
     max_project_preferences := max_project_preferences o;
     blacklist_behaviour := blacklist_behaviour o;
     whitelist_behaviour := whitelist_behaviour o;
     diversify_options := diversify_options o;
     concentrate_options := concentrate_options o;
     priorities := priorities o |}.

Definition set_preference_weight (v : pyval) (o : AlgorithmOptions) : AlgorithmOptions :=
  {| diversity_weight := diversity_weight o;
     preference_weight := v;
     requirement_weight := requirement_weight o;
     social_weight := social_weight o;
     max_project_preferences := max_project_preferences o;
     blacklist_behaviour := blacklist_behaviour o;
     whitelist_behaviour := whitelist_behaviour o;
     diversify_options := diversify_options o;
     concentrate_options := concentrate_options o;
     priorities := priorities o |}.

(** [PriorityAlgorithm.set_default_weights]: four attribute assignments on
    the object [self.options] refers to. *)
Definition set_default_weights (h : gmap loc AlgorithmOptions) (self : Algorithm)
  : gmap loc AlgorithmOptions :=
  let h := alter (set_social_weight (PInt 1)) (options self) h in
  let h := alter (set_diversity_weight (PInt 1)) (options self) h in
  let h := alter (set_requirement_weight (PInt 1)) (options self) h in
  alter (set_preference_weight (PInt 1)) (options self) h.

(** [PriorityAlgorithm.__init__] *)
Definition PriorityAlgorithm_init (h : gmap loc AlgorithmOptions) (options0 : loc)
  : outcome (gmap loc AlgorithmOptions * Algorithm) :=
  let! self := Algorithm_init h options0 in
  Returns (set_default_weights h self, self).

(** The option object after default-weight injection. *)
Definition default_weighted (o : AlgorithmOptions) : AlgorithmOptions :=
  {| diversity_weight := PInt 1;
     preference_weight := PInt 1;
     requirement_weight := PInt 1;
     social_weight := PInt 1;
     max_project_preferences := max_project_preferences o;
     blacklist_behaviour := blacklist_behaviour o;
     whitelist_behaviour := whitelist_behaviour o;
     diversify_options := diversify_options o;
     concentrate_options := concentrate_options o;
     priorities := priorities o |}.

Definition sample_options : AlgorithmOptions :=
  mkOptions (PInt 7) PNone (PInt (-3)) (PInt 0) (PInt 4)
            (PStr "ignore") (PStr "enforce") (PList []) (PList []) (PList []).

(** ** Students, teams and the store they live in *)

(** Modelled from the spec: the classes [Student] and [Team] ([student.py],
    [team.py]) are not part of the sources.  The spec gives a student an
    identifier, a map from other students' identifiers to relationships and
    a back-reference to at most one team; a team a locked flag and an
    ordered list of members, its size being the number of members.  Neither
    class is given a truth value of its own, so an instance is truthy. *)
Module Student.
Record t : Type := mk {
  id : Z;
  relationships : list (Z * Relationship);
  team : option nat
}.
End Student.

Module Team.
Record t : Type := mk {
  students : list nat;
  is_locked : bool
}.
End Team.

(** Students and teams are mutated in place; a reference to one is its
    index in the store. *)
Record Store : Type := mkStore {
  student_objs : list Student.t;
  team_objs : list Team.t
}.

Record TeamGenerationOption : Type := mkTeamGenerationOption {
  max_teams_size : Z;
  min_team_size : Z
}.

Section StoreOps.
Variable st : Store.

(** [team.size] *)
Definition size (team : nat) : Z :=
  match team_objs st !! team with
  | Some tm => Z.of_nat (length (Team.students tm))
  | None => 0
  end.

(** [team.is_locked] *)
Definition is_locked (team : nat) : bool :=
  match team_objs st !! team with
  | Some tm => Team.is_locked tm
  | None => false
  end.

(** [team.get_students()] *)
Definition get_students (team : nat) : list nat :=
  match team_objs st !! team with
  | Some tm => Team.students tm
  | None => []
  end.

(** Modelled from the spec: [student.is_added()], true once the
    back-reference to a team is set. *)
Definition is_added (student : nat) : bool :=
  match student_objs st !! student with
  | Some s => bool_decide (is_Some (Student.team s))
  | None => false
  end.

(** [student.id] *)
Definition student_id (student : nat) : Z :=
  match student_objs st !! student with
  | Some s => Student.id s
  | None => 0
  end.

(** Modelled from the spec: [team.add_student(student)] appends to the
    member list. *)
Definition add_student (team student : nat) : Store :=
  {| student_objs := student_objs st;
     team_objs :=
       alter (fun tm => {| Team.students := Team.students tm ++ [student];
                           Team.is_locked := Team.is_locked tm |})
             team (team_objs st) |}.

(** Modelled from the spec: [student.add_team(team)] sets the
    back-reference. *)
Definition add_team (student team : nat) : Store :=
  {| student_objs :=
       alter (fun s => {| Student.id := Student.id s;
                          Student.relationships := Student.relationships s;
                          Student.team := Some team |})
             student (student_objs st);
     team_objs := team_objs st |}.

(** [Algorithm.get_remaining_students] *)
Definition get_remaining_students (all_students : list nat) : list nat :=
  filter (fun student => is_added student = false) all_students.

(** [Algorithm.student_permitted_in_team] *)
Definition student_permitted_in_team (student team : nat) : bool := true.

(** [Algorithm.get_available_teams] *)
Definition get_available_teams (all_teams : list nat)
    (team_generation_option : TeamGenerationOption) (student : option nat)
  : list nat :=
  filter (fun team =>
            (Z.ltb (size team) (max_teams_size team_generation_option)
             && negb (is_locked team)
             && match student with
                | None => true
                | Some s => student_permitted_in_team s team
                end) = true)
         all_teams.

(** The first team of smallest size, as both [choose] methods find it. *)
Fixpoint smallest_team_from (smallest_team : option nat) (teams0 : list nat)
  : option nat :=
  match teams0 with
  | [] => smallest_team
  | team :: rest =>
      smallest_team_from
        (match smallest_team with
         | None => Some team
         | Some sm => if Z.ltb (size team) (size sm) then Some team else Some sm
         end)
        rest
  end.
End StoreOps.

(** [team.add_student(student); student.add_team(team)] *)
Definition assign (st : Store) (team student : nat) : Store :=
  add_team (add_student st team student) student team.

(** ** The weight strategy *)

Section Weight.
(** Utility values and the four utility functions of [utility.py], which
    is not part of the sources: Python numbers with their addition,
    comparison and product by an integer or a float. *)
Variable U : Type.
Variable U_zero : U.
Variable U_add : U -> U -> U.
Variable U_gt : U -> U -> bool.
Variable U_mul_int : U -> Z -> U.
Variable U_mul_float : U -> Q -> U.
Variable get_requirement_utility : Store -> nat -> nat -> U.
Variable get_social_utility : Store -> nat -> nat -> U.
Variable get_diversity_utility : Store -> nat -> nat -> pyval -> pyval -> U.
Variable get_preference_utility : Store -> nat -> nat -> pyval -> U.

(** [u * w] for a number [u] and a stored weight [w]: a [TypeError] unless
    the weight is a number. *)
Definition py_mul (u : U) (w : pyval) : outcome U :=
  match w with
  | PInt z => Returns (U_mul_int u z)
  | PBool b => Returns (U_mul_int u (if b then 1 else 0))
  | PFloat q => Returns (U_mul_float u q)
  | _ => Raises TypeError
  end.

(** [WeightAlgorithm._get_utility] *)
Definition _get_utility (self : AlgorithmOptions) (st : Store) (team student : nat)
  : outcome U :=
  if bool_decide (student ∈ get_students st team) then Returns U_zero
  else
    let! requirement_utility :=
      py_mul (get_requirement_utility st team student) (requirement_weight self) in
    let! social_utility :=
      py_mul (get_social_utility st team student) (social_weight self) in
    let! diversity_utility :=
      py_mul (get_diversity_utility st team student
                (diversify_options self) (concentrate_options self))
             (diversity_weight self) in
    let! preference_utility :=
      py_mul (get_preference_utility st team student (max_project_preferences self))
             (preference_weight self) in
    Returns (U_add (U_add (U_add requirement_utility social_utility)
                          diversity_utility) preference_utility).

(** The second loop of [WeightAlgorithm.choose]. *)
Fixpoint greatest_utility_from (self : AlgorithmOptions) (st : Store)
    (smallest_team : nat) (greatest_utility : U)
    (greatest_utility_student : option nat) (students0 : list nat)
  : outcome (option nat) :=
  match students0 with
  | [] => Returns greatest_utility_student
  | student :: rest =>
      let! utility := _get_utility self st smallest_team student in
      if match greatest_utility_student with None => true | Some _ => false end
         || U_gt utility greatest_utility
      then greatest_utility_from self st smallest_team utility (Some student) rest
      else greatest_utility_from self st smallest_team greatest_utility
             greatest_utility_student rest
  end.

(** [WeightAlgorithm.choose] *)
Definition WeightAlgorithm_choose (self : AlgorithmOptions) (st : Store)
    (teams0 students0 : list nat) : outcome (option nat * option nat) :=
  match smallest_team_from st None teams0 with
  | None => Returns (None, None)
  | Some smallest_team =>
      let! greatest_utility_student :=
        greatest_utility_from self st smallest_team U_zero None students0 in
      Returns (Some smallest_team, greatest_utility_student)
  end.
End Weight.

(** ** The random strategy *)

(** [RandomAlgorithm.choose]; [draw] stands for the number
    [random.randint(0, student_size - 1)] returns, reduced into that range. *)
Definition RandomAlgorithm_choose (draw : nat) (st : Store)
    (teams0 students0 : list nat) : outcome (option nat * option nat) :=
  let smallest_team := smallest_team_from st None teams0 in
  let student_size := length students0 in
  match smallest_team with
  | None => Returns (None, None)
  | Some team =>
      if Nat.eqb student_size 0 then Returns (None, None)
      else match students0 !! (draw mod student_size)%nat with
           | Some random_student => Returns (Some team, Some random_student)
           | None => Raises IndexError
           end
  end.

(** ** The choose-loop shared by the weight and random strategies *)

Section ChooseLoop.
(** The strategy: its own state (the random source, for one) and its
    [choose] method. *)
Variable R : Type.
Variable choose : R -> Store -> list nat -> list nat
                  -> outcome (R * (option nat * option nat)).

Fixpoint _generate_with_choose (fuel : nat) (r : R) (st : Store)
    (students0 teams0 : list nat) (team_generation_option : TeamGenerationOption)
  : outcome (R * Store) :=
  match fuel with
  | O => OutOfFuel
  | S fuel' =>
      let available_teams := get_available_teams st teams0 team_generation_option None in
      let remaining_students := get_remaining_students st students0 in
      let! chosen := choose r st available_teams remaining_students in
      match chosen with
      | (r', (Some team, Some student)) =>
          _generate_with_choose fuel' r' (assign st team student)
            students0 teams0 team_generation_option
      | (r', _) => Returns (r', st)
      end
  end.
End ChooseLoop.

Section Strategies.
Variable U : Type.
Variable U_zero : U.
Variable U_add : U -> U -> U.
Variable U_gt : U -> U -> bool.
Variable U_mul_int : U -> Z -> U.
Variable U_mul_float : U -> Q -> U.
Variable get_requirement_utility : Store -> nat -> nat -> U.
Variable get_social_utility : Store -> nat -> nat -> U.
Variable get_diversity_utility : Store -> nat -> nat -> pyval -> pyval -> U.
Variable get_preference_utility : Store -> nat -> nat -> pyval -> U.

Definition weight_choose (self : AlgorithmOptions) (r : unit) (st : Store)
    (teams0 students0 : list nat) : outcome (unit * (option nat * option nat)) :=
  let! chosen :=
    WeightAlgorithm_choose U U_zero U_add U_gt U_mul_int U_mul_float
      get_requirement_utility get_social_utility get_diversity_utility
      get_preference_utility self st teams0 students0 in
  Returns (r, chosen).

(** [WeightAlgorithm.generate] *)
Definition WeightAlgorithm_generate (self : AlgorithmOptions) (fuel : nat)
    (st : Store) (students0 teams0 : list nat)
    (team_generation_option : TeamGenerationOption) : outcome Store :=
  let! res := _generate_with_choose unit (weight_choose self) fuel tt st
                students0 teams0 team_generation_option in
  Returns (snd res).
End Strategies.

(** The random source: the stream of numbers still to be drawn. *)
Definition random_choose (r : nat -> nat) (st : Store)
    (teams0 students0 : list nat)
  : outcome ((nat -> nat) * (option nat * option nat)) :=
  let! chosen := RandomAlgorithm_choose (r O) st teams0 students0 in
  Returns (fun k => r (S k), chosen).

(** [RandomAlgorithm.generate] *)
Definition RandomAlgorithm_generate (fuel : nat) (r : nat -> nat)
    (st : Store) (students0 teams0 : list nat)
    (team_generation_option : TeamGenerationOption) : outcome Store :=
  let! res := _generate_with_choose (nat -> nat) random_choose fuel r st
                students0 teams0 team_generation_option in
  Returns (snd res).

(** ** The social strategy *)

Section Social.
(** The social graph and the clique finder ([social_graph.py],
    [clique_finder.py]) are not part of the sources; the strategy is
    written over any implementation of them.  [SocialGraph_init st students]
    is [SocialGraph(students, FRIEND * 2)]; [get_cliques g st students size]
    is [CliqueFinder(students, g).get_cliques(size)], a list of collections
    of student ids; likewise [find_cliques_lte_size]. *)
Variable G : Type.
Variable SocialGraph_init : Store -> list nat -> G.
Variable get_cliques : G -> Store -> list nat -> Z -> list (list Z).
Variable find_cliques_lte_size : G -> Store -> list nat -> Z -> list (list Z).

(** [SocialAlgorithm.clique_ids_to_student_list] *)
Definition clique_ids_to_student_list (st : Store) (students0 : list nat)
    (clique_ids : list (list Z)) : list (list nat) :=
  map (fun clique => filter (fun student => student_id st student ∈ clique) students0)
      clique_ids.

(** [SocialAlgorithm.find_clique_teams] *)
Definition find_clique_teams (st : Store) (students0 : list nat) (size0 : Z)
    (social_graph : G) : list (list nat) :=
  clique_ids_to_student_list st students0 (get_cliques social_graph st students0 size0).

(** [SocialAlgorithm.find_lte_cliques] *)
Definition find_lte_cliques (st : Store) (students0 : list nat) (size0 : Z)
    (social_graph : G) : list (list nat) :=
  clique_ids_to_student_list st students0
    (find_cliques_lte_size social_graph st students0 size0).

(** [SocialAlgorithm.save_students_to_team] *)
Definition save_students_to_team (st : Store) (team : nat) (student_list : list nat)
  : Store :=
  fold_left (fun st' student => assign st' team student) student_list st.

(** [SocialAlgorithm.next_empty_team]; falling off the loop returns [None]. *)
Fixpoint next_empty_team (st : Store) (teams0 : list nat) : option nat :=
  match teams0 with
  | [] => None
  | team :: rest => if Z.eqb (size st team) 0 then Some team else next_empty_team st rest
  end.

(** [SocialAlgorithm.has_empty_teams] *)
Definition has_empty_teams (st : Store) (teams0 : list nat) : bool :=
  match next_empty_team st teams0 with Some _ => true | None => false end.

(** The loop of [SocialAlgorithm.get_largest_fragment_team]. *)
Fixpoint largest_fragment_from (st : Store) (tgo : TeamGenerationOption)
    (largest_size : Z) (largest_fragment : option nat) (teams0 : list nat)
  : option nat :=
  match teams0 with
  | [] => largest_fragment
  | team :: rest =>
      if Z.geb (size st team) (min_team_size tgo)
      then largest_fragment_from st tgo largest_size largest_fragment rest
      else if Z.gtb (size st team) largest_size
      then largest_fragment_from st tgo (size st team) (Some team) rest
      else largest_fragment_from st tgo largest_size largest_fragment rest
  end.

Definition get_largest_fragment_team (st : Store) (teams0 : list nat)
    (tgo : TeamGenerationOption) : option nat :=
  largest_fragment_from st tgo 0 None teams0.

Section Phases.
Variable students0 teams0 : list nat.
Variable tgo : TeamGenerationOption.
Variable social_graph : G.

(** Step 1: the loop over the cliques of size [max_teams_size]. *)
Fixpoint phase1 (st : Store) (clique_student_lists : list (list nat)) : Store :=
  match clique_student_lists with
  | [] => st
  | student_list :: rest =>
      match next_empty_team st teams0 with
      | None => st
      | Some empty_team => phase1 (save_students_to_team st empty_team student_list) rest
      end
  end.

(** Step 2: [while self.has_empty_teams(teams)].  [k] is set anew in
    every round, and a round that finds no clique goes straight back to
    the loop test. *)
Fixpoint phase2 (fuel : nat) (st : Store) : outcome Store :=
  match fuel with
  | O => OutOfFuel
  | S fuel' =>
      if has_empty_teams st teams0 then
        let k := min_team_size tgo - 1 in
        let clique_student_lists :=
          find_clique_teams st (get_remaining_students st students0) k social_graph in
        match clique_student_lists with
        | [] => phase2 fuel' st
        | first :: _ =>
            match next_empty_team st teams0 with
            | Some empty_team => phase2 fuel' (save_students_to_team st empty_team first)
            | None =>
                match first with
                | [] => phase2 fuel' st
                | _ :: _ => Raises AttributeError
                end
            end
        end
      else Returns st
  end.

(** Step 3, inner loop:
    [while largest_fragment_team.size < min_team_size]. *)
Fixpoint phase3_inner (fuel : nat) (st : Store) (largest_fragment_team : nat)
  : outcome Store :=
  match fuel with
  | O => OutOfFuel
  | S fuel' =>
      if Z.ltb (size st largest_fragment_team) (min_team_size tgo) then
        let k := min_team_size tgo - size st largest_fragment_team in
        let all_cliques :=
          find_lte_cliques st (get_remaining_students st students0) k social_graph in
        match all_cliques with
        | [] => Raises IndexError
        | best_clique :: _ =>
            phase3_inner fuel' (save_students_to_team st largest_fragment_team best_clique)
              largest_fragment_team
        end
      else Returns st
  end.

(** Step 3: [while self.get_remaining_students(students)]. *)
Fixpoint phase3 (fuel : nat) (st : Store) : outcome Store :=
  match fuel with
  | O => OutOfFuel
  | S fuel' =>
      match get_remaining_students st students0 with
      | [] => Returns st
      | _ :: _ =>
          match get_largest_fragment_team st teams0 tgo with
          | None => Returns st
          | Some largest_fragment_team =>
              let! st' := phase3_inner fuel' st largest_fragment_team in
              phase3 fuel' st'
          end
      end
  end.

(** Step 4: every remaining student is saved to each team that
    [get_available_teams] returns. *)
Definition place_single (st : Store) (student : nat) : Store :=
  fold_left (fun st' team => save_students_to_team st' team [student])
            (get_available_teams st teams0 tgo None) st.

Definition phase4 (st : Store) : Store :=
  fold_left place_single (get_remaining_students st students0) st.
End Phases.

(** [SocialAlgorithm.generate] *)
Definition SocialAlgorithm_generate (fuel : nat) (st : Store)
    (students0 teams0 : list nat) (tgo : TeamGenerationOption) : outcome Store :=
  let social_graph := SocialGraph_init st students0 in
  let clique_student_lists :=
    find_clique_teams st (get_remaining_students st students0)
      (max_teams_size tgo) social_graph in
  let st := phase1 teams0 st clique_student_lists in
  let! st := phase2 students0 teams0 tgo social_graph fuel st in
  let! st := phase3 students0 teams0 tgo social_graph fuel st in
  Returns (phase4 students0 teams0 tgo st).
End Social.

(** ** A clique finder after the specification *)

(** Modelled from the spec: the social graph has an edge between two
    students exactly when each names the other as FRIEND. *)
Definition relationship_to (st : Store) (a b : nat) : Relationship :=
  match student_objs st !! a with
  | Some s =>
      match list_find (fun kv : Z * Relationship => fst kv = student_id st b)
                      (Student.relationships s) with
      | Some (_, kv) => snd kv
      | None => DEFAULT
      end
  | None => DEFAULT
  end.

Definition mutual_friends (st : Store) (a b : nat) : bool :=
  bool_decide (relationship_to st a b = FRIEND)
  && bool_decide (relationship_to st b a = FRIEND).

Definition spec_SocialGraph (st : Store) (students0 : list nat) : list (Z * Z) :=
  flat_map (fun a =>
    flat_map (fun b =>
      if negb (Z.eqb (student_id st a) (student_id st b)) && mutual_friends st a b
      then [(student_id st a, student_id st b)] else [])
      students0) students0.

Fixpoint sublists_of_length {A : Type} (k : nat) (l : list A) : list (list A) :=
  match k with
  | O => [[]]
  | S k' =>
      match l with
      | [] => []
      | x :: l' => map (cons x) (sublists_of_length k' l') ++ sublists_of_length k l'
      end
  end.

Definition all_pairs_linked (g : list (Z * Z)) (ids : list Z) : bool :=
  forallb (fun a => forallb (fun b => Z.eqb a b || bool_decide ((a, b) ∈ g)) ids) ids.

(** Modelled from the spec: [get_cliques(size)] returns the sets of exactly
    [size] of the given students in which every pair is linked.  (In the
    rosters used below no such set is contained in a larger one, so reading
    the spec's "maximal" either way gives the same cliques.) *)
Definition spec_get_cliques (g : list (Z * Z)) (st : Store) (students0 : list nat)
    (size0 : Z) : list (list Z) :=
  if Z.leb size0 0 then []
  else filter (fun ids => all_pairs_linked g ids = true)
         (sublists_of_length (Z.to_nat size0) (map (student_id st) students0)).

(** Modelled from the spec: [find_cliques_lte_size(size)] returns the
    cliques of every size from [size] down to 1. *)
Definition spec_find_cliques_lte_size (g : list (Z * Z)) (st : Store)
    (students0 : list nat) (size0 : Z) : list (list Z) :=
  flat_map (fun k => spec_get_cliques g st students0 (Z.of_nat k))
           (rev (seq 1 (Z.to_nat size0))).

Definition spec_SocialAlgorithm_generate :=
  SocialAlgorithm_generate (list (Z * Z)) spec_SocialGraph
    spec_get_cliques spec_find_cliques_lte_size.

(** ** The priority search *)

Section PrioritySearch.
(** [algorithms.py] takes its team-sets from a module [teamset] that is
    not part of the sources: the class is abstract here, with its
    constructor, its [teams] attribute and its [clone] method as
    parameters. *)
Variable TeamSet : Type.
Variable Score : Type.
Variable score : TeamSet -> Score.
Variable score_lt : Score -> Score -> bool.
Variable clone : TeamSet -> TeamSet.

(** Modelled from the spec: the order [team_sets.sort] compares team-sets
    by is the order of their fitness; [teamset.PriorityTeamSet.__lt__] is
    not part of the sources. *)
Definition teamset_lt (a b : TeamSet) : bool := score_lt (score a) (score b).

(** [list.sort(reverse=True)]: descending, and stable. *)
Fixpoint insert_reverse (x : TeamSet) (l : list TeamSet) : list TeamSet :=
  match l with
  | [] => [x]
  | y :: l' => if teamset_lt x y then y :: insert_reverse x l' else x :: y :: l'
  end.

Definition sort_reverse (l : list TeamSet) : list TeamSet :=
  foldr insert_reverse [] l.

Definition NUM_KEPT_TEAM_SETS : nat := 3.

(** [PriorityAlgorithm.mutate] *)
Definition mutate (teamset : TeamSet) : list TeamSet :=
  let cloned_teamset := clone teamset in
  [cloned_teamset].

(** One round of the [while] loop of [PriorityAlgorithm.generate]. *)
Definition search_round (team_sets : list TeamSet) : list TeamSet :=
  let new_team_sets := flat_map mutate team_sets in
  let team_sets := (team_sets ++ new_team_sets)%list in
  let team_sets := sort_reverse team_sets in
  take NUM_KEPT_TEAM_SETS team_sets.

(** The loop, for a time budget that lets [rounds] rounds start. *)
Fixpoint search_rounds (rounds : nat) (team_sets : list TeamSet) : list TeamSet :=
  match rounds with
  | O => team_sets
  | S rounds' => search_rounds rounds' (search_round team_sets)
  end.

(** [PriorityAlgorithm.generate], from the seed on: the team-set whose
    teams are returned. *)
Definition priority_search (rounds : nat) (seed : TeamSet) : outcome TeamSet :=
  match search_rounds rounds [seed] with
  | best :: _ => Returns best
  | [] => Raises IndexError
  end.

(** [x] is at least as fit as [y]. *)
Definition at_least (x y : TeamSet) : Prop := score_lt (score x) (score y) = false.

(** A list led by an element that is at least as fit as every member of
    [members]. *)
Definition led_by_best (l : list TeamSet) (members : list TeamSet) : Prop :=
  exists (h : TeamSet) (t : list TeamSet),
    l = h :: t /\ forall z : TeamSet, z ∈ members -> at_least h z.

Variable PriorityTeamSet_init : Store -> list nat -> pyval -> TeamSet.
Variable teamset_teams : TeamSet -> list nat.
Variable U : Type.
Variable U_zero : U.
Variable U_add : U -> U -> U.
Variable U_gt : U -> U -> bool.
Variable U_mul_int : U -> Z -> U.
Variable U_mul_float : U -> Q -> U.
Variable get_requirement_utility : Store -> nat -> nat -> U.
Variable get_social_utility : Store -> nat -> nat -> U.
Variable get_diversity_utility : Store -> nat -> nat -> pyval -> pyval -> U.
Variable get_preference_utility : Store -> nat -> nat -> pyval -> U.

(** [PriorityAlgorithm.generate_initial_teams] *)
Definition generate_initial_teams (self : AlgorithmOptions) (fuel : nat)
    (st : Store) (students0 teams0 : list nat) (tgo : TeamGenerationOption)
  : outcome (Store * TeamSet) :=
  let! st' :=
    WeightAlgorithm_generate U U_zero U_add U_gt U_mul_int U_mul_float
      get_requirement_utility get_social_utility get_diversity_utility
      get_preference_utility self fuel st students0 teams0 tgo in
  Returns (st', PriorityTeamSet_init st' teams0 (priorities self)).

(** [PriorityAlgorithm.generate] *)
Definition PriorityAlgorithm_generate (self : AlgorithmOptions) (fuel rounds : nat)
    (st : Store) (students0 teams0 : list nat) (tgo : TeamGenerationOption)
  : outcome (Store * list nat) :=
  let! seeded := generate_initial_teams self fuel st students0 teams0 tgo in
  let! best := priority_search rounds (snd seeded) in
  Returns (fst seeded, teamset_teams best).
End PrioritySearch.

(** ** [PriorityTeamSet] of [priority_teamset.py] *)

Module PriorityTeam.
Record t : Type := mk {
  team : Team.t;
  student_ids : list Z
}.
End PriorityTeam.

Module PriorityTeamSet.
(** An instance has the attributes that were assigned to it: the class
    defines [__init__] itself, so the dataclass decorator generates none,
    and the field default is a factory, so the class has no attribute
    [priority_teams] to fall back on.  [None] in [priority_teams] is the
    attribute missing; [None] in [score] is Python's [None]. *)
Record t : Type := mk {
  priority_teams : option (list PriorityTeam.t);
  score : option Q
}.

(** [__init__(self, *args, **kwargs)]: the arguments are not looked at. *)
Definition init (args : list (list PriorityTeam.t))
    (kwargs : list (string * list PriorityTeam.t)) : t :=
  {| priority_teams := None; score := None |}.

(** [copy.deepcopy] of a list of priority teams: an equal value that
    shares nothing with the original. *)
Definition deepcopy (pts : list PriorityTeam.t) : list PriorityTeam.t :=
  map (fun pt => {| PriorityTeam.team :=
                      {| Team.students := Team.students (PriorityTeam.team pt);
                         Team.is_locked := Team.is_locked (PriorityTeam.team pt) |};
                    PriorityTeam.student_ids := PriorityTeam.student_ids pt |}) pts.

(** [self.priority_teams] *)
Definition get_priority_teams (self : t) : outcome (list PriorityTeam.t) :=
  match priority_teams self with
  | Some pts => Returns pts
  | None => Raises AttributeError
  end.

(** [clone] *)
Definition clone (self : t) : outcome t :=
  let! pts := get_priority_teams self in
  let cloned_priority_teams := deepcopy pts in
  Returns (init [] [("priority_teams", cloned_priority_teams)]).
End PriorityTeamSet.

(** ** Inputs used in the examples *)

Definition unassigned (i : Z) (rel : list (Z * Relationship)) : Student.t :=
  Student.mk i rel None.

(** One student without friends, one empty team, teams of three. *)
Definition lonely_store : Store :=
  mkStore [unassigned 1 []] [Team.mk [] false].
Definition teams_of_three : TeamGenerationOption := mkTeamGenerationOption 3 3.

(** A team that already holds student 1, and student 2 still to be placed. *)
Definition fragment_store : Store :=
  mkStore [Student.mk 1 [] (Some 0%nat); unassigned 2 []] [Team.mk [0%nat] false].

(** Five students without friends and two empty teams of two to three. *)
Definition five_store : Store :=
  mkStore [unassigned 1 []; unassigned 2 []; unassigned 3 []; unassigned 4 [];
           unassigned 5 []]
          [Team.mk [] false; Team.mk [] false].
Definition two_to_three : TeamGenerationOption := mkTeamGenerationOption 3 2.

(** Two students who name each other as friends, and one empty team that is
    locked. *)
Definition locked_store : Store :=
  mkStore [unassigned 1 [(2, FRIEND)]; unassigned 2 [(1, FRIEND)]] [Team.mk [] true].
Definition pairs : TeamGenerationOption := mkTeamGenerationOption 2 2.

(** A team-set whose [priority_teams] was assigned after construction. *)
Definition filled_teamset : PriorityTeamSet.t :=
  PriorityTeamSet.mk
    (Some [PriorityTeam.mk (Team.mk [] false) [1; 2]; PriorityTeam.mk (Team.mk [] false) [3]])
    None.

(** A team that is locked and already holds student 1; student 2 is still
    to be placed. *)
Definition locked_fragment_store : Store :=
  mkStore [Student.mk 1 [] (Some 0%nat); unassigned 2 []] [Team.mk [0%nat] true].

(** ** Notions used to state what the choose-loop achieves *)

(** How often a student is listed as a member among the teams of a roster. *)
Definition memberships (st : Store) (teams0 : list nat) (student : nat) : nat :=
  sum_list (map (fun team => length (filter (fun x => x = student) (get_students st team)))
                teams0).

(** The places a team still has: [max_teams_size - size] where positive. *)
Definition spare (st : Store) (tgo : TeamGenerationOption) (team : nat) : nat :=
  Z.to_nat (max_teams_size tgo - size st team).

Definition total_spare (st : Store) (tgo : TeamGenerationOption) (teams0 : list nat)
  : nat :=
  sum_list (map (spare st tgo) teams0).

(** The references of a call are references to objects of the store. *)
Definition valid_refs (st : Store) (students0 teams0 : list nat) : Prop :=
  Forall (fun student => (student < length (student_objs st))%nat) students0
  /\ Forall (fun team => (team < length (team_objs st))%nat) teams0.

(** Back-references and member lists agree: a student without a team is a
    member of no team of the roster, a student with a team of exactly one. *)
Definition consistent (st : Store) (students0 teams0 : list nat) : Prop :=
  forall student : nat,
    student ∈ students0 ->
    memberships st teams0 student = if is_added st student then 1%nat else 0%nat.

(** Every student of the list has a team and is a member of exactly one team
    of the roster. *)
Definition all_assigned_once (st : Store) (students0 teams0 : list nat) : Prop :=
  forall student : nat,
    student ∈ students0 ->
    is_added st student = true /\ memberships st teams0 student = 1%nat.

(** [isinstance(w, (int, float))] *)
Definition is_number (w : pyval) : bool :=
  match w with
  | PInt _ | PBool _ | PFloat _ => true
  | _ => false
  end.

Definition numeric_weights (self : AlgorithmOptions) : bool :=
  is_number (requirement_weight self) && is_number (social_weight self)
  && is_number (diversity_weight self) && is_number (preference_weight self).

(** What the loop needs of a strategy to place every student: [choose]
    returns, with a team and a student from the lists it was given, unless
    one of the lists is empty. *)
Definition chooses_from_lists (R : Type)
    (choose : R -> Store -> list nat -> list nat
              -> outcome (R * (option nat * option nat))) : Prop :=
  forall (r : R) (st : Store) (teams0 students0 : list nat),
    exists (r' : R) (team : option nat) (student : option nat),
      choose r st teams0 students0 = Returns (r', (team, student))
      /\ match team, student with
         | Some t, Some s => t ∈ teams0 /\ s ∈ students0
         | _, _ => teams0 = [] \/ students0 = []
         end.

(** What the loop needs of a strategy to respect locks and sizes: a chosen
    team is one of the teams it was given. *)
Definition chooses_given_team (R : Type)
    (choose : R -> Store -> list nat -> list nat
              -> outcome (R * (option nat * option nat))) : Prop :=
  forall (r r' : R) (st : Store) (teams0 students0 : list nat) (t s : nat),
    choose r st teams0 students0 = Returns (r', (Some t, Some s)) -> t ∈ teams0.

(** Utilities for the examples: rationals, every utility being 1. *)
Definition example_generate (self : AlgorithmOptions) : nat -> Store -> list nat ->
    list nat -> TeamGenerationOption -> outcome Store :=
  WeightAlgorithm_generate Q (inject_Z 0) Qplus (fun a b => negb (Qle_bool a b))
    (fun u z => Qmult u (inject_Z z)) Qmult
    (fun _ _ _ => inject_Z 1) (fun _ _ _ => inject_Z 1)
    (fun _ _ _ _ _ => inject_Z 1) (fun _ _ _ _ => inject_Z 1) self.

(** [AlgorithmOptions()] with every argument left out. *)
Definition default_options : AlgorithmOptions :=
  mkOptions PNone PNone PNone PNone PNone (PStr IGNORE_value) (PStr IGNORE_value)
            (PList []) (PList []) (PList []).

(** [AlgorithmOptions] with the four weights set to 1. *)
Definition unit_weight_options : AlgorithmOptions := default_weighted default_options.

(** One team with room for one member, which it already has (student 1);
    student 2 is to be placed. *)
Definition full_store : Store :=
  mkStore [Student.mk 1 [] (Some 0%nat); unassigned 2 []] [Team.mk [0%nat] false].
Definition singles : TeamGenerationOption := mkTeamGenerationOption 1 1.

(** One empty team and one student to be placed. *)
Definition fresh_store : Store :=
  mkStore [unassigned 1 []] [Team.mk [] false].

(** The rosters on which the choose-loop places every student: distinct,
    unlocked teams, a consistent state, and at least as many spare places as
    there are students still to be placed. *)
Definition placeable (st : Store) (students0 teams0 : list nat)
    (tgo : TeamGenerationOption) : Prop :=
  valid_refs st students0 teams0
  /\ NoDup teams0
  /\ (forall t : nat, t ∈ teams0 -> is_locked st t = false)
  /\ consistent st students0 teams0
  /\ (length (get_remaining_students st students0) <= total_spare st tgo teams0)%nat.

(** The capacity of a roster as the sum of the maximum sizes of its teams;
    every team has the maximum size [max_teams_size]. *)
Definition total_capacity (tgo : TeamGenerationOption) (teams0 : list nat) : Z :=
  Z.of_nat (length teams0) * max_teams_size tgo.

(** Three students to be placed into two empty teams of at most two. *)
Definition three_store : Store :=
  mkStore [unassigned 1 []; unassigned 2 []; unassigned 3 []]
          [Team.mk [] false; Team.mk [] false].

(** ** Invalid configurations *)

Section InvalidConfiguration.
Variable bool_is_schema_int : bool.

(** A weight or [max_project_preferences] that is set (truthy) and is not an
    integer. *)
Definition bad_number (v : pyval) : bool := truthy v && negb (isinstance_int v).

(** A behaviour that, once a missing (falsy) one is read as IGNORE, is not
    one of the three behaviour strings. *)
Definition bad_behaviour (v : pyval) : bool :=
  negb (in_behaviour_values (py_or v (PStr IGNORE_value))).

(** A diversify or concentrate option list that, once a missing one is read
    as empty, is not a list of dicts with the single key [id] holding an
    integer. *)
Definition bad_options_list (v : pyval) : bool :=
  negb (schema_list (schema_dict [("id", schema_int bool_is_schema_int)])
          (py_or v (PList []))).

(** The entry [k] of a priority. *)
Definition field (p : pyval) (k : string) : pyval :=
  match py_getitem p k with
  | Returns v => v
  | _ => PNone
  end.

Definition limit_set (p : pyval) (k : string) : bool := negb (py_eq_int (field p k) (-1)).

(** Both [max_of] and [min_of] set. *)
Definition both_limits (p : pyval) : bool :=
  limit_set p "max_of" && limit_set p "min_of".

(** A limit set, and no [value]. *)
Definition limit_without_value (p : pyval) : bool :=
  py_eq_int (field p "value") (-1) && (limit_set p "max_of" || limit_set p "min_of").

Definition items (v : pyval) : list pyval :=
  match v with PList l => l | _ => [] end.

Definition config_invalid
    (requirement_weight0 social_weight0 diversity_weight0 preference_weight0
     max_project_preferences0 blacklist_behaviour0 whitelist_behaviour0
     diversify_options0 concentrate_options0 priorities0 : pyval) : bool :=
  existsb bad_number [diversity_weight0; preference_weight0; requirement_weight0;
                      social_weight0; max_project_preferences0]
  || bad_behaviour blacklist_behaviour0
  || bad_behaviour whitelist_behaviour0
  || bad_options_list concentrate_options0
  || bad_options_list diversify_options0
  || negb (priorities_schema bool_is_schema_int (py_or priorities0 (PList [])))
  || existsb (fun p => both_limits p || limit_without_value p)
       (items (py_or priorities0 (PList []))).

(** The object a successful construction stores. *)
Definition stored_options
    (requirement_weight0 social_weight0 diversity_weight0 preference_weight0
     max_project_preferences0 blacklist_behaviour0 whitelist_behaviour0
     diversify_options0 concentrate_options0 priorities0 : pyval) : AlgorithmOptions :=
  {| diversity_weight := diversity_weight0;
     preference_weight := preference_weight0;
     requirement_weight := requirement_weight0;
     social_weight := social_weight0;
     max_project_preferences := max_project_preferences0;
     blacklist_behaviour := py_or blacklist_behaviour0 (PStr IGNORE_value);
     whitelist_behaviour := py_or whitelist_behaviour0 (PStr IGNORE_value);
     diversify_options := py_or diversify_options0 (PList []);
     concentrate_options := py_or concentrate_options0 (PList []);
     priorities := py_or priorities0 (PList []) |}.
End InvalidConfiguration.

(** A priority with [min_of = 2] and [max_of = 3]. *)
Definition two_limits_priority : pyval :=
  PDict [(PStr "order", PInt 1); (PStr "type", PStr "diversify"); (PStr "id", PInt 73);
         (PStr "max_of", PInt 3); (PStr "min_of", PInt 2); (PStr "value", PInt 3)].

(** A priority without limits that lacks the entry [order]. *)
Definition short_priority : pyval :=
  PDict [(PStr "type", PStr "diversify"); (PStr "id", PInt 73);
         (PStr "max_of", PInt (-1)); (PStr "min_of", PInt (-1)); (PStr "value", PInt 3)].

(** A computation that raises a configuration error exactly when [invalid]
    holds, and returns otherwise. *)
Definition settles {A : Type} (m : outcome A) (invalid : bool) : Prop :=
  match m with
  | Returns _ => invalid = false
  | Raises e => invalid = true /\ exists msg : string, e = AlgorithmException msg
  | OutOfFuel => False
  end.

(** A roster nobody has been placed in yet: the teams are empty and the
    students have no team. *)
Definition fresh (st : Store) (students0 teams0 : list nat) : Prop :=
  (forall t : nat, t ∈ teams0 -> get_students st t = [])
  /\ (forall s : nat, s ∈ students0 -> is_added st s = false).


(** * Further notions, for the properties beyond the claims *)

From Stdlib Require Import Sorting.Sorted.

(** The behaviour a stored behaviour string stands for. *)
Definition behaviour_of (v : pyval) : option RelationshipBehaviour :=
  if py_eq_str v ENFORCE_value then Some ENFORCE
  else if py_eq_str v INVERT_value then Some INVERT
  else if py_eq_str v IGNORE_value then Some IGNORE
  else None.

(** The keys a priority must have, and no other. *)
Definition priority_keys : list string :=
  ["order"; "type"; "id"; "max_of"; "min_of"; "value"].

(** A priority as [test_priority.py] and [scenario_1.py] write it. *)
Definition caller_priority (constraint skill_id limit_option limit value : pyval)
  : pyval :=
  PDict [(PStr "order", PInt 1); (PStr "constraint", constraint);
         (PStr "skill_id", skill_id); (PStr "limit_option", limit_option);
         (PStr "limit", limit); (PStr "value", value)].

(** The first team of least size in a list: no team of the list is smaller,
    and every team before it is larger. *)
Definition first_smallest (st : Store) (teams0 : list nat) (t : nat) : Prop :=
  exists i : nat,
    teams0 !! i = Some t
    /\ (forall t' : nat, t' ∈ teams0 -> (size st t <= size st t')%Z)
    /\ (forall (j t' : nat), (j < i)%nat -> teams0 !! j = Some t' ->
          (size st t < size st t')%Z).

(** The value [_get_utility] returns, where it returns. *)
Definition utility_value (U : Type) (m : outcome U) (default : U) : U :=
  match m with
  | Returns u => u
  | _ => default
  end.

(** The first element of greatest value in a list, for a comparison [gt]
    and a valuation [f]: no element is greater, and every element before it
    is less. *)
Definition first_greatest {A V : Type} (gt : V -> V -> bool) (f : A -> V)
    (l : list A) (x : A) : Prop :=
  exists i : nat,
    l !! i = Some x
    /\ (forall y : A, y ∈ l -> gt (f y) (f x) = false)
    /\ (forall (j : nat) (y : A), (j < i)%nat -> l !! j = Some y ->
          gt (f x) (f y) = true).

(** Utilities for an example: integers, the requirement utility of a student
    being the student's id and the other utilities 0. *)
Definition id_choose (self : AlgorithmOptions) (st : Store) (teams0 students0 : list nat)
  : outcome (option nat * option nat) :=
  WeightAlgorithm_choose Z 0 Z.add Z.gtb Z.mul (fun u q => u * Qnum q)
    (fun st' _ student => student_id st' student) (fun _ _ _ => 0)
    (fun _ _ _ _ _ => 0) (fun _ _ _ _ => 0) self st teams0 students0.

(** [student.team] *)
Definition team_of (st : Store) (student : nat) : option nat :=
  match student_objs st !! student with
  | Some s => Student.team s
  | None => None
  end.

(** The state in which the choose-loop stops: no team is available or no
    student remains. *)
Definition stopped (st : Store) (students0 teams0 : list nat)
    (tgo : TeamGenerationOption) : Prop :=
  get_available_teams st teams0 tgo None = []
  \/ get_remaining_students st students0 = [].

(** Locks and sizes are respected from [st] to [st']: locks are as before,
    a locked team has the members it had, and a team within the maximum size
    still is. *)
Definition respects_teams (st st' : Store) (tgo : TeamGenerationOption) : Prop :=
  forall t : nat,
    is_locked st' t = is_locked st t
    /\ (is_locked st t = true -> get_students st' t = get_students st t)
    /\ ((size st t <= max_teams_size tgo)%Z -> (size st' t <= max_teams_size tgo)%Z).

(** Nothing is taken back from [st] to [st']: every team keeps its members,
    in order, in front of the new ones; a student who had a team keeps it;
    and a student outside [students0] is as before. *)
Definition only_adds (st st' : Store) (students0 : list nat) : Prop :=
  (forall t : nat, get_students st t `prefix_of` get_students st' t)
  /\ (forall s : nat, is_added st s = true -> team_of st' s = team_of st s)
  /\ (forall s : nat, s ∉ students0 -> team_of st' s = team_of st s).

(** A fragment: a team that has members and is below the minimum size. *)
Definition is_fragment (st : Store) (tgo : TeamGenerationOption) (t : nat) : Prop :=
  (0 < size st t < min_team_size tgo)%Z.

(** The first fragment of greatest size in a list of teams. *)
Definition first_largest_fragment (st : Store) (tgo : TeamGenerationOption)
    (teams0 : list nat) (t : nat) : Prop :=
  exists i : nat,
    teams0 !! i = Some t
    /\ is_fragment st tgo t
    /\ (forall t' : nat, t' ∈ teams0 -> is_fragment st tgo t' ->
          (size st t' <= size st t)%Z)
    /\ (forall (j t' : nat), (j < i)%nat -> teams0 !! j = Some t' ->
          is_fragment st tgo t' -> (size st t' < size st t)%Z).

(** A roster in which both teams have two members and one student is left. *)
Definition stragglers_store : Store :=
  mkStore [Student.mk 1 [] (Some 0%nat); Student.mk 2 [] (Some 0%nat);
           Student.mk 3 [] (Some 1%nat); Student.mk 4 [] (Some 1%nat);
           unassigned 5 []]
          [Team.mk [0; 1]%nat false; Team.mk [2; 3]%nat true].

(** One team of two members, both assigned, below a minimum of three. *)
Definition short_store : Store :=
  mkStore [Student.mk 1 [] (Some 0%nat); Student.mk 2 [] (Some 0%nat)]
          [Team.mk [0; 1]%nat false].

(** ** [PriorityTeamSet.calculate_score] *)

Section CalculateScore.
(** The scoring functions of [scoring.py] and the classes [Priority] and
    [Student] are not part of the sources: the two functions are parameters,
    over any type of priorities and of student dictionaries.  Scores are
    rationals. *)
Variable Priorities : Type.
Variable StudentDict : Type.
Variable get_priority_satisfaction_array :
  list PriorityTeam.t -> Priorities -> StudentDict -> list Q.
Variable get_multipliers : Priorities -> list Q.

(** [bool(q)] for a number *)
Definition number_truthy (q : Q) : bool := negb (Z.eqb (Qnum q) 0).

(** [sum([satisfaction * multiplier for ... in zip(...)])] *)
Definition weighted_sum (satisfactions multipliers : list Q) : Q :=
  fold_left Qplus (zip_with Qmult satisfactions multipliers) (inject_Z 0).

(** [self.score = score] *)
Definition set_score (self : PriorityTeamSet.t) (v : Q) : PriorityTeamSet.t :=
  {| PriorityTeamSet.priority_teams := PriorityTeamSet.priority_teams self;
     PriorityTeamSet.score := Some v |}.

(** The part of [calculate_score] after the test of the cached score. *)
Definition compute_score (self : PriorityTeamSet.t) (priorities0 : Priorities)
    (student_dict : StudentDict) : outcome (PriorityTeamSet.t * Q) :=
  let! pts := PriorityTeamSet.get_priority_teams self in
  let priority_satisfaction_array :=
    get_priority_satisfaction_array pts priorities0 student_dict in
  let multipliers := get_multipliers priorities0 in
  let score := weighted_sum priority_satisfaction_array multipliers in
  Returns (set_score self score, score).

(** [calculate_score]: the object after the call, and the score returned. *)
Definition calculate_score (self : PriorityTeamSet.t) (priorities0 : Priorities)
    (student_dict : StudentDict) : outcome (PriorityTeamSet.t * Q) :=
  match PriorityTeamSet.score self with
  | Some cached =>
      if number_truthy cached then Returns (self, cached)
      else compute_score self priorities0 student_dict
  | None => compute_score self priorities0 student_dict
  end.
End CalculateScore.

(** ** [ResponseWithMetadata] *)

(** The [data] attribute after [ResponseWithMetadata.__init__]:
    [Response.__init__] of the REST framework stores [data], and the
    constructor replaces it by the envelope, a dict literal whose later
    entries overwrite earlier ones with the same key.  [now] is what
    [time.time()] returns. *)
Definition ResponseWithMetadata_data (data_label : option string) (data : pyval)
    (timestamp error now : pyval) : gmap string pyval :=
  let data_label :=
    match data_label with
    | Some label => if String.eqb label "" then "data" else label
    | None => "data"
    end in
  <["error" := error]>
    (<["metadata" := PDict [(PStr "version", PStr "v0.1.0");
                            (PStr "timestamp", py_or timestamp now)]]>
       {[ data_label := data ]}).

(** The label the data goes under. *)
Definition effective_label (data_label : option string) : string :=
  match data_label with
  | Some label => if String.eqb label "" then "data" else label
  | None => "data"
  end.

(** * Properties *)

Local Close Scope string_scope.

(** ** Relationship adjustment *)

(** C8: for every pair of behaviour settings, the table returned by
    [get_adjusted_relationships] is the one the specification gives:
    ENFORCE keeps FRIEND (whitelist) and ENEMY (blacklist), INVERT swaps
    them, IGNORE sends the category to DEFAULT, and DEFAULT always stays
    DEFAULT. *)
Theorem get_adjusted_relationships_table :
  forall (o : AlgorithmOptions) (whitelist blacklist : RelationshipBehaviour)
         (r : Relationship),
    rel_dict_get (fst (get_adjusted_relationships (with_behaviours o whitelist blacklist))) r
    = Some (spec_adjusted whitelist blacklist r).
Proof.
  intros o whitelist blacklist r.
  destruct whitelist, blacklist, r; reflexivity.
Qed.

(** ** Default-weight injection *)

Lemma set_default_weights_lookup (h : gmap loc AlgorithmOptions) (self : Algorithm)
    (o : AlgorithmOptions) :
  h !! options self = Some o ->
  set_default_weights h self !! options self = Some (default_weighted o).
Proof.
  intros Ho. unfold set_default_weights.
  rewrite !lookup_alter_eq, Ho. reflexivity.
Qed.

Lemma set_default_weights_frame (h : gmap loc AlgorithmOptions) (self : Algorithm)
    (l : loc) :
  l <> options self -> set_default_weights h self !! l = h !! l.
Proof.
  intros Hne. unfold set_default_weights.
  rewrite !lookup_alter_ne by congruence. reflexivity.
Qed.

(** C10: constructing a [PriorityAlgorithm] on an option object succeeds,
    keeps a reference to that very object, and overwrites its four weights
    with 1 in place, whatever they were; its other fields and every other
    object are untouched. *)
Theorem PriorityAlgorithm_init_default_weights :
  forall (h : gmap loc AlgorithmOptions) (l : loc) (o : AlgorithmOptions),
    h !! l = Some o ->
    exists (h' : gmap loc AlgorithmOptions) (self : Algorithm),
      PriorityAlgorithm_init h l = Returns (h', self)
      /\ options self = l
      /\ h' !! l = Some (default_weighted o)
      /\ social_weight (default_weighted o) = PInt 1
      /\ diversity_weight (default_weighted o) = PInt 1
      /\ requirement_weight (default_weighted o) = PInt 1
      /\ preference_weight (default_weighted o) = PInt 1
      /\ forall l' : loc, l' <> l -> h' !! l' = h !! l'.
Proof.
  intros h l o Ho.
  unfold PriorityAlgorithm_init, Algorithm_init. rewrite Ho. cbn [bind].
  eexists _, _. split; [reflexivity|]. cbn [options].
  split; [reflexivity|].
  split; [apply (set_default_weights_lookup h (mkAlgorithm l [])); exact Ho|].
  repeat (split; [reflexivity|]).
  intros l' Hne. apply (set_default_weights_frame h (mkAlgorithm l [])). exact Hne.
Qed.

Lemma PriorityAlgorithm_init_default_weights_witness :
  exists (h' : gmap loc AlgorithmOptions) (self : Algorithm),
    PriorityAlgorithm_init {[ 5%nat := sample_options ]} 5%nat = Returns (h', self)
    /\ options self = 5%nat
    /\ h' !! 5%nat = Some (default_weighted sample_options)
    /\ social_weight (default_weighted sample_options) = PInt 1
    /\ diversity_weight (default_weighted sample_options) = PInt 1
    /\ requirement_weight (default_weighted sample_options) = PInt 1
    /\ preference_weight (default_weighted sample_options) = PInt 1
    /\ forall l' : loc, l' <> 5%nat ->
         h' !! l' = ({[ 5%nat := sample_options ]} : gmap loc AlgorithmOptions) !! l'.
Proof.
  apply (PriorityAlgorithm_init_default_weights {[ 5%nat := sample_options ]} 5%nat sample_options).
  reflexivity.
Defined.

(** ** The priority search never loses the seed's fitness *)

Section PrioritySearchFacts.
Variable TeamSet : Type.
Variable Score : Type.
Variable score : TeamSet -> Score.
Variable score_lt : Score -> Score -> bool.
Variable clone : TeamSet -> TeamSet.

(** The fitness order is a strict weak order, as [<] on numbers is. *)
Hypothesis score_lt_asym :
  forall a b : Score, score_lt a b = true -> score_lt b a = false.
Hypothesis score_ge_trans :
  forall a b c : Score,
    score_lt a b = false -> score_lt b c = false -> score_lt a c = false.

Local Abbreviation sorted := (sort_reverse TeamSet Score score score_lt).
Local Abbreviation round := (search_round TeamSet Score score score_lt clone).
Local Abbreviation rounds_of := (search_rounds TeamSet Score score score_lt clone).
Local Abbreviation at_least := (at_least TeamSet Score score score_lt).
Local Abbreviation led_by_best := (led_by_best TeamSet Score score score_lt).

Lemma at_least_refl (x : TeamSet) : at_least x x.
Proof.
  unfold at_least. destruct (score_lt (score x) (score x)) eqn:E; [|reflexivity].
  rewrite <- E. apply score_lt_asym. exact E.
Qed.

Lemma at_least_trans (x y z : TeamSet) :
  at_least x y -> at_least y z -> at_least x z.
Proof. unfold at_least. apply score_ge_trans. Qed.

Lemma insert_reverse_led (x : TeamSet) (l members : list TeamSet) :
  led_by_best l members ->
  led_by_best (insert_reverse TeamSet Score score score_lt x l) (x :: members).
Proof.
  intros (h & t & -> & Hbest). cbn [insert_reverse].
  destruct (teamset_lt TeamSet Score score score_lt x h) eqn:E.
  - exists h, (insert_reverse TeamSet Score score score_lt x t).
    split; [reflexivity|]. intros z Hz.
    apply elem_of_cons in Hz as [-> | Hz]; [|auto].
    apply score_lt_asym. exact E.
  - exists x, (h :: t). split; [reflexivity|]. intros z Hz.
    apply elem_of_cons in Hz as [-> | Hz]; [apply at_least_refl|].
    apply at_least_trans with h; [exact E | auto].
Qed.

Lemma sort_reverse_led (x : TeamSet) (l : list TeamSet) :
  led_by_best (sorted (x :: l)) (x :: l).
Proof.
  revert x. induction l as [|y l IH]; intros x.
  - exists x, []. split; [reflexivity|]. intros z Hz.
    apply list_elem_of_singleton in Hz as ->. apply at_least_refl.
  - apply (insert_reverse_led x (sorted (y :: l)) (y :: l)), IH.
Qed.

Lemma search_round_led (x : TeamSet) (l : list TeamSet) :
  led_by_best (round (x :: l)) (x :: l).
Proof.
  unfold search_round.
  destruct (sort_reverse_led x
              (l ++ flat_map (mutate TeamSet clone) (x :: l)))
    as (h & t & Heq & Hbest).
  change ((x :: l) ++ flat_map (mutate TeamSet clone) (x :: l))
    with (x :: (l ++ flat_map (mutate TeamSet clone) (x :: l))).
  rewrite Heq. cbn [NUM_KEPT_TEAM_SETS take].
  exists h, (take 2 t). split; [reflexivity|]. intros z Hz.
  apply Hbest. apply elem_of_cons in Hz as [-> | Hz].
  - apply list_elem_of_here.
  - apply list_elem_of_further, elem_of_app. left. exact Hz.
Qed.

Lemma search_rounds_keep (seed : TeamSet) (n : nat) :
  forall (h : TeamSet) (t : list TeamSet),
    at_least h seed ->
    exists (h' : TeamSet) (t' : list TeamSet),
      rounds_of n (h :: t) = h' :: t' /\ at_least h' seed.
Proof.
  induction n as [|n IH]; intros h t Hh.
  - exists h, t. split; [reflexivity | exact Hh].
  - cbn [search_rounds].
    destruct (search_round_led h t) as (h1 & t1 & Heq & Hbest).
    rewrite Heq.
    apply IH. apply at_least_trans with h; [|exact Hh].
    apply Hbest, list_elem_of_here.
Qed.

End PrioritySearchFacts.


(** ** [PriorityTeamSet.clone] *)

(** C9: [clone] deep-copies [priority_teams] and hands the copy to a
    constructor that ignores its arguments: the object it returns never has
    a [priority_teams] attribute, and on a freshly constructed team-set it
    raises.  The claim that the clone carries the same priority teams fails,
    for instance on [filled_teamset]. *)
Theorem clone_loses_priority_teams :
  (forall self : PriorityTeamSet.t,
     match PriorityTeamSet.clone self with
     | Returns cloned => PriorityTeamSet.priority_teams cloned = None
     | Raises e => e = AttributeError /\ PriorityTeamSet.priority_teams self = None
     | OutOfFuel => False
     end)
  /\ PriorityTeamSet.clone filled_teamset
     = Returns (PriorityTeamSet.mk None None)
  /\ PriorityTeamSet.priority_teams filled_teamset <> None
  /\ PriorityTeamSet.clone (PriorityTeamSet.init [] []) = Raises AttributeError.
Proof.
  split; [|split; [reflexivity | split; [discriminate | reflexivity]]].
  intros [[pts|] sc]; cbn; [reflexivity | split; reflexivity].
Qed.

(** ** The social strategy on particular rosters *)

Section SocialFacts.
Variable G : Type.
Variable SocialGraph_init : Store -> list nat -> G.
Variable get_cliques : G -> Store -> list nat -> Z -> list (list Z).
Variable find_cliques_lte_size : G -> Store -> list nat -> Z -> list (list Z).

(** Step 2 does not end when a team is empty and the finder has no clique
    of size [min_team_size - 1] among the remaining students: nothing
    changes from one round to the next. *)
Lemma phase2_spins (students0 teams0 : list nat) (tgo : TeamGenerationOption)
    (g : G) (st : Store) :
  has_empty_teams st teams0 = true ->
  get_cliques g st (get_remaining_students st students0) (min_team_size tgo - 1) = [] ->
  forall fuel : nat,
    phase2 G get_cliques students0 teams0 tgo g fuel st = OutOfFuel.
Proof.
  intros Hempty Hnone fuel. induction fuel as [|fuel IH]; [reflexivity|].
  cbn [phase2]. rewrite Hempty. unfold find_clique_teams.
  rewrite Hnone. cbn [clique_ids_to_student_list map]. exact IH.
Qed.

(** Step 3 raises as soon as the team it is growing is below the minimum
    and the finder returns no clique at all. *)
Lemma phase3_inner_raises (students0 : list nat) (tgo : TeamGenerationOption)
    (g : G) (st : Store) (team : nat) (fuel : nat) :
  (size st team < min_team_size tgo)%Z ->
  find_cliques_lte_size g st (get_remaining_students st students0)
    (min_team_size tgo - size st team) = [] ->
  phase3_inner G find_cliques_lte_size students0 tgo g (S fuel) st team
  = Raises IndexError.
Proof.
  intros Hlt Hnone. cbn [phase3_inner].
  apply Z.ltb_lt in Hlt. rewrite Hlt. unfold find_lte_cliques.
  rewrite Hnone. reflexivity.
Qed.
End SocialFacts.

(** C5: step 2 of the social strategy does not terminate on every input.
    With one student, one empty team and a minimum team size of three there
    is no clique of size two, the team stays empty, and the loop goes round
    for ever: no amount of fuel lets [generate] return. *)
Theorem social_phase2_diverges :
  forall fuel : nat,
    spec_SocialAlgorithm_generate fuel lonely_store [0%nat] [0%nat] teams_of_three
    = OutOfFuel.
Proof.
  intros fuel. unfold spec_SocialAlgorithm_generate, SocialAlgorithm_generate.
  change (phase1 [0%nat] lonely_store _) with lonely_store.
  rewrite phase2_spins; reflexivity.
Qed.

(** C6: step 3 of the social strategy raises [IndexError].  A team holding
    one member is grown with the only remaining student; it is still below
    the minimum of three, no student remains, the list of cliques is empty
    and its first element is taken. *)
Theorem social_phase3_raises :
  forall fuel : nat,
    spec_SocialAlgorithm_generate (3 + fuel) fragment_store [0%nat; 1%nat] [0%nat]
      teams_of_three
    = Raises IndexError.
Proof. intros fuel. reflexivity. Qed.

(** C4: step 4 saves a remaining student to every available team.  With five
    students without friends and two teams of two to three, the fifth
    student is still unassigned after the clique steps and ends up a member
    of both teams. *)
Theorem social_phase4_places_twice :
  forall fuel : nat,
    exists st' : Store,
      spec_SocialAlgorithm_generate (4 + fuel) five_store
        [0%nat; 1%nat; 2%nat; 3%nat; 4%nat] [0%nat; 1%nat] two_to_three
      = Returns st'
      /\ get_students st' 0%nat = [0%nat; 2%nat; 4%nat]
      /\ get_students st' 1%nat = [1%nat; 3%nat; 4%nat].
Proof.
  intros fuel. vm_compute. eexists. split; [reflexivity|]. split; reflexivity.
Qed.

(** C2: the social strategy adds students to locked teams.  Two mutual
    friends form a clique of the maximum size, and step 1 saves it to the
    next empty team without looking at its lock; a locked team that holds
    one member is below the minimum size, and step 3 grows it. *)
Theorem social_fills_locked_team :
  forall fuel : nat,
    (exists st' : Store,
       spec_SocialAlgorithm_generate (S fuel) locked_store [0%nat; 1%nat] [0%nat] pairs
       = Returns st'
       /\ is_locked locked_store 0%nat = true
       /\ get_students locked_store 0%nat = []
       /\ is_locked st' 0%nat = true
       /\ get_students st' 0%nat = [0%nat; 1%nat])
    /\ (exists st' : Store,
          spec_SocialAlgorithm_generate (3 + fuel) locked_fragment_store
            [0%nat; 1%nat] [0%nat] pairs
          = Returns st'
          /\ is_locked locked_fragment_store 0%nat = true
          /\ get_students locked_fragment_store 0%nat = [0%nat]
          /\ is_locked st' 0%nat = true
          /\ get_students st' 0%nat = [0%nat; 1%nat]).
Proof.
  intros fuel. split.
  - vm_compute. eexists. split; [reflexivity|]. repeat split; reflexivity.
  - vm_compute. eexists. split; [reflexivity|]. repeat split; reflexivity.
Qed.

(** ** What assigning a student to a team changes *)

Section AssignFacts.
Variable st : Store.
Variable team student : nat.

Lemma assign_team_objs_length :
  length (team_objs (assign st team student)) = length (team_objs st).
Proof. cbn. apply length_alter. Qed.

Lemma assign_student_objs_length :
  length (student_objs (assign st team student)) = length (student_objs st).
Proof. cbn. apply length_alter. Qed.

Lemma get_students_assign_same :
  (team < length (team_objs st))%nat ->
  get_students (assign st team student) team = get_students st team ++ [student].
Proof.
  intros Hlt. unfold get_students. cbn.
  rewrite list_lookup_alter_eq.
  destruct (lookup_lt_is_Some_2 _ _ Hlt) as [tm Htm]. rewrite Htm. reflexivity.
Qed.

Lemma get_students_assign_other (team' : nat) :
  team' <> team ->
  get_students (assign st team student) team' = get_students st team'.
Proof.
  intros Hne. unfold get_students. cbn.
  rewrite list_lookup_alter_ne by congruence. reflexivity.
Qed.

Lemma size_assign_same :
  (team < length (team_objs st))%nat ->
  size (assign st team student) team = (size st team + 1)%Z.
Proof.
  intros Hlt. unfold size. cbn.
  rewrite list_lookup_alter_eq.
  destruct (lookup_lt_is_Some_2 _ _ Hlt) as [tm Htm]. rewrite Htm. cbn.
  rewrite length_app. cbn. lia.
Qed.

Lemma size_assign_other (team' : nat) :
  team' <> team -> size (assign st team student) team' = size st team'.
Proof.
  intros Hne. unfold size. cbn.
  rewrite list_lookup_alter_ne by congruence. reflexivity.
Qed.

Lemma is_locked_assign (team' : nat) :
  is_locked (assign st team student) team' = is_locked st team'.
Proof.
  unfold is_locked. cbn. destruct (decide (team' = team)) as [->|Hne].
  - rewrite list_lookup_alter_eq. destruct (team_objs st !! team); reflexivity.
  - rewrite list_lookup_alter_ne by congruence. reflexivity.
Qed.

Lemma is_added_assign_same :
  (student < length (student_objs st))%nat ->
  is_added (assign st team student) student = true.
Proof.
  intros Hlt. unfold is_added. cbn.
  rewrite list_lookup_alter_eq.
  destruct (lookup_lt_is_Some_2 _ _ Hlt) as [s Hs]. rewrite Hs. reflexivity.
Qed.

Lemma is_added_assign_other (student' : nat) :
  student' <> student ->
  is_added (assign st team student) student' = is_added st student'.
Proof.
  intros Hne. unfold is_added. cbn.
  rewrite list_lookup_alter_ne by congruence. reflexivity.
Qed.
End AssignFacts.

(** Unfolds one step of a sum over a list. *)
Ltac sum_step :=
  cbn [map sum_list];
  repeat match goal with |- context [id ?n] => change (id n) with n end.

Section AssignCounts.
Variable st : Store.
Variable team student : nat.
Hypothesis team_valid : (team < length (team_objs st))%nat.
Hypothesis student_valid : (student < length (student_objs st))%nat.

Lemma remaining_assign_le (students0 : list nat) :
  (length (get_remaining_students (assign st team student) students0)
   <= length (get_remaining_students st students0))%nat.
Proof using All.
  unfold get_remaining_students.
  induction students0 as [|x l IH]; [reflexivity|].
  rewrite !filter_cons.
  destruct (decide (x = student)) as [Heq|Hne]; [subst x|].
  - rewrite is_added_assign_same by exact student_valid.
    destruct (decide (true = false)) as [Hd|_]; [discriminate|].
    destruct (decide (is_added st student = false)); cbn; lia.
  - rewrite is_added_assign_other by exact Hne.
    destruct (decide (is_added st x = false)); cbn; lia.
Qed.

Lemma remaining_assign_lt (students0 : list nat) :
  student ∈ get_remaining_students st students0 ->
  (length (get_remaining_students (assign st team student) students0)
   < length (get_remaining_students st students0))%nat.
Proof using All.
  induction students0 as [|x l IH]; intros Hin.
  - apply elem_of_nil in Hin. destruct Hin.
  - pose proof (remaining_assign_le l) as Hle.
    unfold get_remaining_students in *.
    rewrite filter_cons in Hin. rewrite !filter_cons.
    destruct (decide (x = student)) as [Heq|Hne]; [subst x|].
    + rewrite is_added_assign_same by exact student_valid.
      destruct (decide (true = false)) as [Hd|_]; [discriminate|].
      destruct (decide (is_added st student = false)) as [_|Hadded].
      * cbn. lia.
      * apply IH in Hin. lia.
    + rewrite is_added_assign_other by exact Hne.
      destruct (decide (is_added st x = false)) as [_|_].
      * apply elem_of_cons in Hin as [Heq|Hin]; [congruence|].
        apply IH in Hin. cbn. lia.
      * apply IH in Hin. lia.
Qed.

Lemma occurrences_snoc (l : list nat) (student' : nat) :
  length (filter (fun x => x = student') (l ++ [student]))
  = (length (filter (fun x => x = student') l)
     + if decide (student' = student) then 1 else 0)%nat.
Proof using All.
  rewrite filter_app, length_app, filter_cons, filter_nil.
  destruct (decide (student = student')) as [Heq|Hne];
    destruct (decide (student' = student)); try congruence; reflexivity.
Qed.

Lemma memberships_assign_outside (teams0 : list nat) (student' : nat) :
  team ∉ teams0 ->
  memberships (assign st team student) teams0 student' = memberships st teams0 student'.
Proof using All.
  unfold memberships. induction teams0 as [|t l IH]; intros Hnotin; [reflexivity|].
  apply not_elem_of_cons in Hnotin as [Hne Hnotin]. sum_step.
  rewrite get_students_assign_other by congruence.
  rewrite IH by exact Hnotin. reflexivity.
Qed.

Lemma memberships_assign (teams0 : list nat) (student' : nat) :
  NoDup teams0 -> team ∈ teams0 ->
  memberships (assign st team student) teams0 student'
  = (memberships st teams0 student' + if decide (student' = student) then 1 else 0)%nat.
Proof using All.
  induction teams0 as [|t l IH]; intros Hnd Hin.
  - apply elem_of_nil in Hin. destruct Hin.
  - apply NoDup_cons in Hnd as [Hnotin Hnd].
    unfold memberships in *. sum_step.
    destruct (decide (t = team)) as [Heq|Hne]; [subst t|].
    + rewrite get_students_assign_same by exact team_valid.
      rewrite occurrences_snoc.
      pose proof (memberships_assign_outside l student' Hnotin) as Hout.
      unfold memberships in Hout. rewrite Hout. lia.
    + apply elem_of_cons in Hin as [Heq|Hin]; [congruence|].
      rewrite get_students_assign_other by exact Hne.
      rewrite IH by assumption. lia.
Qed.

Lemma total_spare_assign_outside (tgo : TeamGenerationOption) (teams0 : list nat) :
  team ∉ teams0 ->
  total_spare (assign st team student) tgo teams0 = total_spare st tgo teams0.
Proof using All.
  unfold total_spare. induction teams0 as [|t l IH]; intros Hnotin; [reflexivity|].
  apply not_elem_of_cons in Hnotin as [Hne Hnotin]. sum_step.
  unfold spare at 1. rewrite size_assign_other by congruence.
  rewrite IH by exact Hnotin. reflexivity.
Qed.

Lemma total_spare_assign (tgo : TeamGenerationOption) (teams0 : list nat) :
  NoDup teams0 -> team ∈ teams0 ->
  (size st team < max_teams_size tgo)%Z ->
  S (total_spare (assign st team student) tgo teams0) = total_spare st tgo teams0.
Proof using All.
  intros Hnd Hin Hroom. induction teams0 as [|t l IH].
  - apply elem_of_nil in Hin. destruct Hin.
  - apply NoDup_cons in Hnd as [Hnotin Hnd].
    unfold total_spare in *. sum_step.
    destruct (decide (t = team)) as [Heq|Hne]; [subst t|].
    + pose proof (total_spare_assign_outside tgo l Hnotin) as Hout.
      unfold total_spare in Hout. rewrite Hout.
      unfold spare. rewrite size_assign_same by exact team_valid. lia.
    + apply elem_of_cons in Hin as [Heq|Hin]; [congruence|].
      unfold spare at 1. rewrite size_assign_other by exact Hne.
      fold (spare st tgo t). specialize (IH Hnd Hin). lia.
Qed.
End AssignCounts.

(** Without an available team among unlocked teams, no place is left. *)
Lemma no_available_no_spare (st : Store) (tgo : TeamGenerationOption)
    (teams0 : list nat) :
  (forall t : nat, t ∈ teams0 -> is_locked st t = false) ->
  get_available_teams st teams0 tgo None = [] ->
  total_spare st tgo teams0 = 0%nat.
Proof.
  unfold get_available_teams, total_spare.
  induction teams0 as [|t l IH]; intros Hunlocked Hnone; [reflexivity|].
  rewrite filter_cons in Hnone.
  rewrite (Hunlocked t) in Hnone by apply list_elem_of_here.
  sum_step.
  destruct (Z.ltb (size st t) (max_teams_size tgo)) eqn:Hlt; cbn in Hnone.
  - discriminate.
  - rewrite IH.
    + apply Z.ltb_ge in Hlt. unfold spare. lia.
    + intros t' Ht'. apply Hunlocked, list_elem_of_further, Ht'.
    + exact Hnone.
Qed.

Lemma available_is_open (st : Store) (tgo : TeamGenerationOption)
    (teams0 : list nat) (t : nat) :
  t ∈ get_available_teams st teams0 tgo None ->
  t ∈ teams0 /\ (size st t < max_teams_size tgo)%Z /\ is_locked st t = false.
Proof.
  unfold get_available_teams. intros Hin.
  apply list_elem_of_filter in Hin as [Hopen Hin].
  split; [exact Hin|].
  apply andb_true_iff in Hopen as [Hopen _].
  apply andb_true_iff in Hopen as [Hlt Hlock].
  apply Z.ltb_lt in Hlt. apply negb_true_iff in Hlock. split; assumption.
Qed.

Lemma remaining_is_unassigned (st : Store) (students0 : list nat) (s : nat) :
  s ∈ get_remaining_students st students0 ->
  s ∈ students0 /\ is_added st s = false.
Proof.
  unfold get_remaining_students. intros Hin.
  apply list_elem_of_filter in Hin as [Hno Hin]. split; assumption.
Qed.

Lemma no_remaining_all_added (st : Store) (students0 : list nat) :
  get_remaining_students st students0 = [] ->
  forall s : nat, s ∈ students0 -> is_added st s = true.
Proof.
  unfold get_remaining_students. intros Hnil s Hin.
  destruct (is_added st s) eqn:E; [reflexivity|].
  assert (s ∈ filter (fun student => is_added st student = false) students0) as Hs
    by (apply list_elem_of_filter; split; assumption).
  rewrite Hnil in Hs. apply elem_of_nil in Hs. destruct Hs.
Qed.

(** ** The choose-loop places every student *)

Lemma valid_refs_assign (st : Store) (students0 teams0 : list nat) (t s : nat) :
  valid_refs st students0 teams0 -> valid_refs (assign st t s) students0 teams0.
Proof.
  intros [Hs Ht]. split.
  - eapply Forall_impl; [exact Hs|]. intros x Hx. cbn beta.
    rewrite assign_student_objs_length. exact Hx.
  - eapply Forall_impl; [exact Ht|]. intros x Hx. cbn beta.
    rewrite assign_team_objs_length. exact Hx.
Qed.

Lemma placeable_assign (st : Store) (students0 teams0 : list nat)
    (tgo : TeamGenerationOption) (t s : nat) :
  placeable st students0 teams0 tgo ->
  t ∈ get_available_teams st teams0 tgo None ->
  s ∈ get_remaining_students st students0 ->
  placeable (assign st t s) students0 teams0 tgo.
Proof.
  intros (Hvalid & Hnd & Hunlocked & Hcons & Hcap) Ht Hs.
  pose proof (available_is_open _ _ _ _ Ht) as (Htin & Hroom & _).
  pose proof (remaining_is_unassigned _ _ _ Hs) as (Hsin & Hfree).
  assert (t < length (team_objs st))%nat as Htv.
  { destruct Hvalid as [_ Hv]. rewrite Forall_forall in Hv. apply Hv, Htin. }
  assert (s < length (student_objs st))%nat as Hsv.
  { destruct Hvalid as [Hv _]. rewrite Forall_forall in Hv. apply Hv, Hsin. }
  split; [apply valid_refs_assign, Hvalid|].
  split; [exact Hnd|].
  split; [intros t' Ht'; rewrite is_locked_assign; apply Hunlocked, Ht'|].
  split.
  - intros s' Hs'. rewrite memberships_assign by assumption.
    destruct (decide (s' = s)) as [->|Hne].
    + rewrite is_added_assign_same by exact Hsv.
      rewrite (Hcons s Hsin), Hfree. reflexivity.
    + rewrite is_added_assign_other by exact Hne.
      rewrite (Hcons s' Hs'). lia.
  - pose proof (remaining_assign_lt st t s Htv Hsv students0 Hs) as Hlt.
    pose proof (total_spare_assign st t s Htv Hsv tgo teams0 Hnd Htin Hroom) as Hsp.
    lia.
Qed.

Lemma placeable_done (st : Store) (students0 teams0 : list nat)
    (tgo : TeamGenerationOption) :
  placeable st students0 teams0 tgo ->
  get_available_teams st teams0 tgo None = []
  \/ get_remaining_students st students0 = [] ->
  all_assigned_once st students0 teams0.
Proof.
  intros (Hvalid & Hnd & Hunlocked & Hcons & Hcap) Hempty.
  assert (get_remaining_students st students0 = []) as Hnone.
  { destruct Hempty as [Hno|Hno]; [|exact Hno].
    rewrite (no_available_no_spare st tgo teams0 Hunlocked Hno) in Hcap.
    destruct (get_remaining_students st students0); [reflexivity|].
    cbn in Hcap. lia. }
  intros s Hs.
  pose proof (no_remaining_all_added st students0 Hnone s Hs) as Hadded.
  split; [exact Hadded|]. rewrite (Hcons s Hs), Hadded. reflexivity.
Qed.

Section ChooseLoopFacts.
Variable R : Type.
Variable choose : R -> Store -> list nat -> list nat
                  -> outcome (R * (option nat * option nat)).
Hypothesis choose_ok : chooses_from_lists R choose.

Variable students0 teams0 : list nat.
Variable tgo : TeamGenerationOption.

Lemma generate_with_choose_places_all (fuel : nat) :
  forall (r : R) (st : Store),
    placeable st students0 teams0 tgo ->
    (length (get_remaining_students st students0) < fuel)%nat ->
    exists (r' : R) (st' : Store),
      _generate_with_choose R choose fuel r st students0 teams0 tgo = Returns (r', st')
      /\ all_assigned_once st' students0 teams0.
Proof.
  induction fuel as [|fuel IH]; intros r st Hplace Hfuel; [lia|].
  cbn [_generate_with_choose].
  destruct (choose_ok r st (get_available_teams st teams0 tgo None)
              (get_remaining_students st students0))
    as (r' & team & student & Hchoose & Hpicked).
  rewrite Hchoose. cbn [bind].
  destruct team as [t|], student as [s|];
    try (exists r', st; split;
         [reflexivity | apply (placeable_done st students0 teams0 tgo Hplace Hpicked)]).
  destruct Hpicked as [Ht Hs].
  apply IH.
  - apply placeable_assign; assumption.
  - assert (s < length (student_objs st))%nat as Hsv.
    { destruct Hplace as ((Hv & _) & _). rewrite Forall_forall in Hv.
      apply Hv. apply (remaining_is_unassigned _ _ _ Hs). }
    assert (t < length (team_objs st))%nat as Htv.
    { destruct Hplace as ((_ & Hv) & _). rewrite Forall_forall in Hv.
      apply Hv. apply (available_is_open _ _ _ _ Ht). }
    pose proof (remaining_assign_lt st t s Htv Hsv students0 Hs). lia.
Qed.
End ChooseLoopFacts.

(** ** The weight strategy chooses from the lists it is given *)

Lemma smallest_team_from_spec (st : Store) (teams0 : list nat) :
  forall acc : option nat,
    match smallest_team_from st acc teams0 with
    | Some t => acc = Some t \/ t ∈ teams0
    | None => acc = None /\ teams0 = []
    end.
Proof.
  induction teams0 as [|team rest IH]; intros acc; cbn [smallest_team_from].
  - destruct acc; [left; reflexivity | split; reflexivity].
  - match goal with |- context [smallest_team_from st ?a rest] => specialize (IH a) end.
    destruct (smallest_team_from st _ rest) as [t|].
    + destruct IH as [Hacc|Hin]; [|right; apply list_elem_of_further, Hin].
      destruct acc as [sm|].
      * destruct (Z.ltb (size st team) (size st sm)); inversion Hacc; subst.
        -- right. apply list_elem_of_here.
        -- left. reflexivity.
      * inversion Hacc; subst. right. apply list_elem_of_here.
    + destruct IH as [Hacc _]. destruct acc as [sm|]; [|discriminate].
      destruct (Z.ltb (size st team) (size st sm)); discriminate.
Qed.

Section WeightFacts.
Variable U : Type.
Variable U_zero : U.
Variable U_add : U -> U -> U.
Variable U_gt : U -> U -> bool.
Variable U_mul_int : U -> Z -> U.
Variable U_mul_float : U -> Q -> U.
Variable get_requirement_utility : Store -> nat -> nat -> U.
Variable get_social_utility : Store -> nat -> nat -> U.
Variable get_diversity_utility : Store -> nat -> nat -> pyval -> pyval -> U.
Variable get_preference_utility : Store -> nat -> nat -> pyval -> U.
Variable self : AlgorithmOptions.
Hypothesis weights_ok : numeric_weights self = true.

Local Abbreviation utility :=
  (_get_utility U U_zero U_add U_mul_int U_mul_float get_requirement_utility
     get_social_utility get_diversity_utility get_preference_utility self).
Local Abbreviation greatest :=
  (greatest_utility_from U U_zero U_add U_gt U_mul_int U_mul_float
     get_requirement_utility get_social_utility get_diversity_utility
     get_preference_utility self).

Lemma py_mul_number (u : U) (w : pyval) :
  is_number w = true -> exists v : U, py_mul U U_mul_int U_mul_float u w = Returns v.
Proof. destruct w; intros Hw; try discriminate; eexists; reflexivity. Qed.

Lemma get_utility_returns (st : Store) (team student : nat) :
  exists u : U, utility st team student = Returns u.
Proof using weights_ok.
  unfold _get_utility, numeric_weights in *.
  apply andb_true_iff in weights_ok as [H123 Hp].
  apply andb_true_iff in H123 as [H12 Hd].
  apply andb_true_iff in H12 as [Hr Hs].
  destruct (bool_decide _); [eexists; reflexivity|].
  destruct (py_mul_number (get_requirement_utility st team student) _ Hr) as [a ->].
  destruct (py_mul_number (get_social_utility st team student) _ Hs) as [b ->].
  destruct (py_mul_number
              (get_diversity_utility st team student (diversify_options self)
                 (concentrate_options self)) _ Hd) as [c ->].
  destruct (py_mul_number
              (get_preference_utility st team student (max_project_preferences self))
              _ Hp) as [d ->].
  eexists. reflexivity.
Qed.

Lemma greatest_utility_from_spec (st : Store) (team : nat) (students0 : list nat) :
  forall (gu : U) (gus : option nat),
    exists o : option nat,
      greatest st team gu gus students0 = Returns o
      /\ match o with
         | Some s => gus = Some s \/ s ∈ students0
         | None => gus = None /\ students0 = []
         end.
Proof using weights_ok.
  induction students0 as [|student rest IH]; intros gu gus; cbn [greatest_utility_from].
  - exists gus. split; [reflexivity|].
    destruct gus; [left; reflexivity | split; reflexivity].
  - destruct (get_utility_returns st team student) as [u ->]. cbn [bind].
    destruct gus as [g|]; cbn [orb].
    + destruct (U_gt u gu).
      * destruct (IH u (Some student)) as (o & -> & Ho). exists o.
        split; [reflexivity|]. destruct o as [s|]; [|destruct Ho; discriminate].
        destruct Ho as [Ho|Ho]; [inversion Ho; subst|];
          right; [apply list_elem_of_here | apply list_elem_of_further, Ho].
      * destruct (IH gu (Some g)) as (o & -> & Ho). exists o.
        split; [reflexivity|]. destruct o as [s|]; [|destruct Ho; discriminate].
        destruct Ho as [Ho|Ho]; [left; exact Ho | right; apply list_elem_of_further, Ho].
    + destruct (IH u (Some student)) as (o & -> & Ho). exists o.
      split; [reflexivity|]. destruct o as [s|]; [|destruct Ho; discriminate].
      destruct Ho as [Ho|Ho]; [inversion Ho; subst|];
        right; [apply list_elem_of_here | apply list_elem_of_further, Ho].
Qed.

Lemma weight_choose_from_lists :
  chooses_from_lists unit
    (weight_choose U U_zero U_add U_gt U_mul_int U_mul_float get_requirement_utility
       get_social_utility get_diversity_utility get_preference_utility self).
Proof using weights_ok.
  intros r st teams0 students0. unfold weight_choose, WeightAlgorithm_choose.
  pose proof (smallest_team_from_spec st teams0 None) as Hsm.
  destruct (smallest_team_from st None teams0) as [t|].
  - destruct Hsm as [Hsm|Hsm]; [discriminate|].
    destruct (greatest_utility_from_spec st t students0 U_zero None) as (o & -> & Ho).
    cbn [bind]. exists r, (Some t), o. split; [reflexivity|].
    destruct o as [s|].
    + destruct Ho as [Ho|Ho]; [discriminate|]. split; assumption.
    + right. apply Ho.
  - destruct Hsm as [_ ->]. cbn [bind].
    exists r, None, None. split; [reflexivity|]. left. reflexivity.
Qed.

(** C1, as the code has it: on a roster of distinct, unlocked teams in a
    consistent state, with weights that are numbers and at least as many
    spare places (over the teams, [max_teams_size] minus the current size)
    as there are students still without a team, [WeightAlgorithm.generate]
    returns, and afterwards every student of the list has a team and is a
    member of exactly one team of the roster. *)
Theorem WeightAlgorithm_generate_places_all
    (st : Store) (students0 teams0 : list nat) (tgo : TeamGenerationOption) :
  placeable st students0 teams0 tgo ->
  exists st' : Store,
    WeightAlgorithm_generate U U_zero U_add U_gt U_mul_int U_mul_float
      get_requirement_utility get_social_utility get_diversity_utility
      get_preference_utility self (S (length students0)) st students0 teams0 tgo
    = Returns st'
    /\ all_assigned_once st' students0 teams0.
Proof using weights_ok.
  intros Hplace. unfold WeightAlgorithm_generate.
  destruct (generate_with_choose_places_all unit _ weight_choose_from_lists
              students0 teams0 tgo (S (length students0)) tt st Hplace)
    as (r' & st' & -> & Hall).
  - unfold get_remaining_students.
    pose proof (length_filter (fun student => is_added st student = false) students0).
    lia.
  - exists st'. split; [reflexivity | exact Hall].
Qed.
End WeightFacts.

Lemma WeightAlgorithm_generate_places_all_witness :
  numeric_weights unit_weight_options = true
  /\ placeable three_store [0; 1; 2]%nat [0; 1]%nat pairs
  /\ exists st' : Store,
       example_generate unit_weight_options 4 three_store [0; 1; 2]%nat [0; 1]%nat pairs
       = Returns st'
       /\ all_assigned_once st' [0; 1; 2]%nat [0; 1]%nat.
Proof.
  assert (placeable three_store [0; 1; 2]%nat [0; 1]%nat pairs) as Hplace.
  { split; [split; repeat constructor|].
    split; [apply NoDup_ListNoDup; repeat constructor; cbn; intuition congruence|].
    split.
    { intros t Ht. repeat (apply elem_of_cons in Ht as [->|Ht]; [reflexivity|]).
      apply elem_of_nil in Ht. destruct Ht. }
    split.
    { intros s Hs. repeat (apply elem_of_cons in Hs as [->|Hs]; [reflexivity|]).
      apply elem_of_nil in Hs. destruct Hs. }
    vm_compute. lia. }
  split; [reflexivity|]. split; [exact Hplace|].
  apply (WeightAlgorithm_generate_places_all Q (inject_Z 0) Qplus
           (fun a b => negb (Qle_bool a b)) (fun u z => Qmult u (inject_Z z)) Qmult
           (fun _ _ _ => inject_Z 1) (fun _ _ _ => inject_Z 1)
           (fun _ _ _ _ _ => inject_Z 1) (fun _ _ _ _ => inject_Z 1)
           unit_weight_options eq_refl
           three_store [0; 1; 2]%nat [0; 1]%nat pairs Hplace).
Defined.

(** C1 as it is stated fails.  A roster of one unlocked team with room for
    one member has capacity for the one student to place, but the team
    already holds a member: the loop finds no available team and returns
    with the student unassigned.  And with the weights left out of the
    options, the first utility computed multiplies by [None] and
    [generate] raises. *)
Lemma WeightAlgorithm_generate_places_all_counterexample :
  ([1%nat] <> []
   /\ (Z.of_nat (length [1%nat]) <= total_capacity singles [0%nat])%Z
   /\ is_locked full_store 0%nat = false
   /\ example_generate unit_weight_options 2 full_store [1%nat] [0%nat] singles
      = Returns full_store
   /\ is_added full_store 1%nat = false
   /\ memberships full_store [0%nat] 1%nat = 0%nat)
  /\ ([0%nat] <> []
      /\ (Z.of_nat (length [0%nat]) <= total_capacity singles [0%nat])%Z
      /\ is_locked fresh_store 0%nat = false
      /\ example_generate default_options 2 fresh_store [0%nat] [0%nat] singles
         = Raises TypeError).
Proof.
  split.
  - split; [discriminate|]. split; [vm_compute; discriminate|].
    repeat split; reflexivity.
  - split; [discriminate|]. split; [vm_compute; discriminate|].
    repeat split; reflexivity.
Qed.

(** ** Validation of the options *)

Lemma validate_ints_settles (l : list pyval) :
  settles (validate_ints l) (existsb bad_number l).
Proof.
  induction l as [|item rest IH]; cbn [validate_ints existsb]; [reflexivity|].
  unfold bad_number at 1.
  destruct (truthy item && negb (isinstance_int item)); cbn [orb].
  - split; [reflexivity | eexists; reflexivity].
  - exact IH.
Qed.

Lemma validate_strs_settles (l : list pyval) :
  settles (validate_strs l) (existsb (fun v => negb (in_behaviour_values v)) l).
Proof.
  induction l as [|item rest IH]; cbn [validate_strs existsb]; [reflexivity|].
  destruct (isinstance_str item) eqn:Hstr; cbn [negb].
  - destruct (in_behaviour_values item); cbn [negb orb].
    + exact IH.
    + split; [reflexivity | eexists; reflexivity].
  - assert (in_behaviour_values item = false) as ->.
    { destruct item; try reflexivity. discriminate. }
    split; [reflexivity | eexists; reflexivity].
Qed.

Lemma dict_get_present (d : list (pyval * pyval)) (k : string) :
  existsb (fun kv : pyval * pyval => py_eq_str (fst kv) k) d = true ->
  exists v : pyval, dict_get d k = Returns v.
Proof.
  induction d as [|[k' v'] d IH]; cbn [existsb dict_get fst]; [discriminate|].
  destruct (py_eq_str k' k); cbn [orb]; [eexists; reflexivity | exact IH].
Qed.

Lemma schema_dict_field (fields : list (string * (pyval -> bool))) (p : pyval)
    (k : string) (check : pyval -> bool) :
  schema_dict fields p = true ->
  In (k, check) fields ->
  exists v : pyval, py_getitem p k = Returns v /\ field p k = v.
Proof.
  intros Hschema Hin. destruct p; try discriminate. cbn [schema_dict] in Hschema.
  apply andb_true_iff in Hschema as [_ Hall].
  rewrite forallb_forall in Hall. specialize (Hall _ Hin). cbn [fst] in Hall.
  destruct (dict_get_present d k Hall) as [v Hv].
  exists v. unfold field. cbn [py_getitem]. rewrite Hv. split; reflexivity.
Qed.

Section ValidationFacts.
Variable bool_is_schema_int : bool.

Local Abbreviation priority_fields :=
  [("order"%string, schema_int bool_is_schema_int); ("type"%string, schema_str);
   ("id"%string, schema_int bool_is_schema_int);
   ("max_of"%string, schema_int bool_is_schema_int);
   ("min_of"%string, schema_int bool_is_schema_int);
   ("value"%string, schema_int bool_is_schema_int)].

Lemma conf_inner_settles (p : pyval) :
  schema_dict priority_fields p = true ->
  settles (conf_inner p) (both_limits p || limit_without_value p).
Proof.
  intros Hschema.
  destruct (schema_dict_field _ p "max_of" (schema_int bool_is_schema_int) Hschema)
    as (mx & Hmx & Fmx); [cbn; tauto|].
  destruct (schema_dict_field _ p "min_of" (schema_int bool_is_schema_int) Hschema)
    as (mn & Hmn & Fmn); [cbn; tauto|].
  destruct (schema_dict_field _ p "value" (schema_int bool_is_schema_int) Hschema)
    as (vl & Hvl & Fvl); [cbn; tauto|].
  unfold conf_inner, both_limits, limit_without_value, limit_set.
  rewrite Hmx, Hmn, Fmx, Fmn, Fvl. cbn [bind].
  destruct (py_eq_int mx (-1)), (py_eq_int mn (-1)); cbn [negb andb orb];
    try (split; [reflexivity | eexists; reflexivity]);
    rewrite Hvl; cbn [bind];
    destruct (py_eq_int vl (-1)); cbn [andb orb];
    first [reflexivity | split; [reflexivity | eexists; reflexivity]].
Qed.

Lemma conf_inner_all_settles (ps : list pyval) :
  forallb (schema_dict priority_fields) ps = true ->
  settles (conf_inner_all ps)
          (existsb (fun p => both_limits p || limit_without_value p) ps).
Proof.
  induction ps as [|p rest IH]; cbn [forallb conf_inner_all existsb]; [reflexivity|].
  intros Hall. apply andb_true_iff in Hall as [Hp Hrest].
  pose proof (conf_inner_settles p Hp) as Hsettle.
  destruct (conf_inner p) as [[]|e|]; cbn [bind settles] in *.
  - rewrite Hsettle. cbn [orb]. apply IH, Hrest.
  - destruct Hsettle as [-> Hmsg]. split; [reflexivity | exact Hmsg].
  - exact Hsettle.
Qed.

Lemma validate_settles
    (requirement_weight0 social_weight0 diversity_weight0 preference_weight0
     max_project_preferences0 blacklist_behaviour0 whitelist_behaviour0
     diversify_options0 concentrate_options0 priorities0 : pyval) :
  settles
    (validate bool_is_schema_int
       (stored_options requirement_weight0 social_weight0 diversity_weight0
          preference_weight0 max_project_preferences0 blacklist_behaviour0
          whitelist_behaviour0 diversify_options0 concentrate_options0 priorities0))
    (config_invalid bool_is_schema_int requirement_weight0 social_weight0
       diversity_weight0 preference_weight0 max_project_preferences0
       blacklist_behaviour0 whitelist_behaviour0 diversify_options0
       concentrate_options0 priorities0).
Proof.
  unfold validate, config_invalid, stored_options.
  cbn [diversity_weight preference_weight requirement_weight social_weight
       max_project_preferences blacklist_behaviour whitelist_behaviour
       diversify_options concentrate_options priorities].
  match goal with |- context [validate_ints ?l] =>
    pose proof (validate_ints_settles l) as Hints;
    destruct (validate_ints l) as [[]|e|]; cbn [bind settles] in *
  end; [|destruct Hints as [-> Hmsg]; split; [reflexivity | exact Hmsg]|exact Hints].
  rewrite Hints. cbn [orb].
  match goal with |- context [validate_strs ?l] =>
    pose proof (validate_strs_settles l) as Hstrs;
    destruct (validate_strs l) as [[]|e|]; cbn [bind settles] in *
  end.
  - cbn [existsb] in Hstrs. rewrite orb_false_r in Hstrs.
    apply orb_false_iff in Hstrs as [Hbl Hwl].
    unfold bad_behaviour. rewrite Hbl, Hwl. cbn [orb].
    unfold options_list_schema, bad_options_list.
    cbn [schema_list forallb].
    destruct (schema_list _ (py_or concentrate_options0 (PList []))); cbn [andb negb orb];
      [|split; [reflexivity | eexists; reflexivity]].
    destruct (schema_list _ (py_or diversify_options0 (PList []))); cbn [andb negb orb];
      [|split; [reflexivity | eexists; reflexivity]].
    destruct (priorities_schema bool_is_schema_int (py_or priorities0 (PList []))) eqn:Hp;
      cbn [bind negb orb]; [|split; [reflexivity | eexists; reflexivity]].
    destruct (py_or priorities0 (PList [])) as [| | | | |ps|]; try discriminate.
    cbn [items]. apply conf_inner_all_settles. exact Hp.
  - destruct Hstrs as [Hstrs Hmsg]. split; [|exact Hmsg].
    cbn [existsb] in Hstrs. rewrite orb_false_r in Hstrs.
    unfold bad_behaviour. rewrite <- !orb_assoc.
    apply orb_true_iff in Hstrs as [-> | ->]; cbn [orb];
      rewrite ?orb_true_r; reflexivity.
  - exact Hstrs.
Qed.

(** C7, as the code has it: constructing [AlgorithmOptions] either returns
    the option object or raises one [AlgorithmException], and it raises
    exactly when a weight or [max_project_preferences] is set (truthy) and
    not an integer, a behaviour that is set is not one of the three
    behaviour strings, a diversify or concentrate option list or the list of
    priorities does not have the required format, or a priority has both
    limits set or a limit set and no value. *)
Theorem AlgorithmOptions_init_raises_iff_invalid :
  forall requirement_weight0 social_weight0 diversity_weight0 preference_weight0
         max_project_preferences0 blacklist_behaviour0 whitelist_behaviour0
         diversify_options0 concentrate_options0 priorities0 : pyval,
    match AlgorithmOptions_init bool_is_schema_int requirement_weight0 social_weight0
            diversity_weight0 preference_weight0 max_project_preferences0
            blacklist_behaviour0 whitelist_behaviour0 diversify_options0
            concentrate_options0 priorities0 with
    | Returns self =>
        config_invalid bool_is_schema_int requirement_weight0 social_weight0
          diversity_weight0 preference_weight0 max_project_preferences0
          blacklist_behaviour0 whitelist_behaviour0 diversify_options0
          concentrate_options0 priorities0 = false
        /\ self = stored_options requirement_weight0 social_weight0 diversity_weight0
                    preference_weight0 max_project_preferences0 blacklist_behaviour0
                    whitelist_behaviour0 diversify_options0 concentrate_options0
                    priorities0
    | Raises e =>
        config_invalid bool_is_schema_int requirement_weight0 social_weight0
          diversity_weight0 preference_weight0 max_project_preferences0
          blacklist_behaviour0 whitelist_behaviour0 diversify_options0
          concentrate_options0 priorities0 = true
        /\ exists msg : string, e = AlgorithmException msg
    | OutOfFuel => False
    end.
Proof.
  intros.
  pose proof (validate_settles requirement_weight0 social_weight0 diversity_weight0
                preference_weight0 max_project_preferences0 blacklist_behaviour0
                whitelist_behaviour0 diversify_options0 concentrate_options0
                priorities0) as Hsettle.
  unfold AlgorithmOptions_init.
  change (mkOptions diversity_weight0 preference_weight0 requirement_weight0
            social_weight0 max_project_preferences0
            (py_or blacklist_behaviour0 (PStr IGNORE_value))
            (py_or whitelist_behaviour0 (PStr IGNORE_value))
            (py_or diversify_options0 (PList []))
            (py_or concentrate_options0 (PList []))
            (py_or priorities0 (PList [])))
    with (stored_options requirement_weight0 social_weight0 diversity_weight0
            preference_weight0 max_project_preferences0 blacklist_behaviour0
            whitelist_behaviour0 diversify_options0 concentrate_options0 priorities0).
  destruct (validate bool_is_schema_int _) as [[]|e|]; cbn [bind settles] in *.
  - split; [exact Hsettle | reflexivity].
  - exact Hsettle.
  - exact Hsettle.
Qed.
End ValidationFacts.

(** The construction the specification lists as a test: a priority with
    [min_of = 2] and [max_of = 3] is refused. *)
Example two_limits_refused (bool_is_schema_int : bool) :
  AlgorithmOptions_init bool_is_schema_int PNone PNone PNone PNone PNone PNone PNone
    PNone PNone (PList [two_limits_priority])
  = Raises (AlgorithmException msg_both_limits).
Proof. destruct bool_is_schema_int; reflexivity. Qed.

(** C7 as it is stated fails in both directions.  A weight of [0.0] is not
    an integer and a behaviour of [0] is not a behaviour value, yet the
    constructor returns an option object: only values that are set are
    checked.  And a priority without the entry [order] has neither two limits
    nor a limit without a value, yet the constructor raises. *)
Lemma AlgorithmOptions_init_counterexample :
  (isinstance_int (PFloat (inject_Z 0)) = false
   /\ in_behaviour_values (PInt 0) = false
   /\ AlgorithmOptions_init true (PFloat (inject_Z 0)) PNone PNone PNone PNone
        (PInt 0) PNone PNone PNone PNone
      = Returns (mkOptions PNone PNone (PFloat (inject_Z 0)) PNone PNone
                   (PStr "ignore") (PStr "ignore") (PList []) (PList []) (PList [])))
  /\ (both_limits short_priority = false
      /\ limit_without_value short_priority = false
      /\ AlgorithmOptions_init true PNone PNone PNone PNone PNone PNone PNone PNone PNone
           (PList [short_priority])
         = Raises (AlgorithmException "Invalid format for priorities")).
Proof. repeat split; reflexivity. Qed.

(** ** The choose-loop respects locks and sizes *)

Lemma size_assign_le (st : Store) (t s t' : nat) :
  (size (assign st t s) t' <= size st t' + if decide (t' = t) then 1 else 0)%Z.
Proof.
  destruct (decide (t' = t)) as [->|Hne].
  - unfold size. cbn. rewrite list_lookup_alter_eq.
    destruct (team_objs st !! t); cbn; [rewrite length_app; cbn|]; lia.
  - rewrite size_assign_other by exact Hne. lia.
Qed.

Lemma get_students_assign_locked (st : Store) (t s t' : nat) :
  is_locked st t' = true -> is_locked st t = false ->
  get_students (assign st t s) t' = get_students st t'.
Proof.
  intros Hl Hu. apply get_students_assign_other. intros ->. congruence.
Qed.

Section ChooseLoopLimits.
Variable R : Type.
Variable choose : R -> Store -> list nat -> list nat
                  -> outcome (R * (option nat * option nat)).
Hypothesis choose_ok : chooses_given_team R choose.

Variable students0 teams0 : list nat.
Variable tgo : TeamGenerationOption.

(** Whatever the strategy, as long as it picks one of the teams it is
    given: when the loop returns, locks are as before, a locked team has the
    members it had, and a team within the maximum size still is. *)
Lemma generate_with_choose_respects_teams (fuel : nat) :
  forall (r r' : R) (st st' : Store),
    _generate_with_choose R choose fuel r st students0 teams0 tgo = Returns (r', st') ->
    forall t : nat,
      is_locked st' t = is_locked st t
      /\ (is_locked st t = true -> get_students st' t = get_students st t)
      /\ ((size st t <= max_teams_size tgo)%Z -> (size st' t <= max_teams_size tgo)%Z).
Proof.
  induction fuel as [|fuel IH]; intros r r' st st' Hrun t; [discriminate|].
  cbn [_generate_with_choose] in Hrun.
  destruct (choose r st (get_available_teams st teams0 tgo None)
              (get_remaining_students st students0)) as [[r1 [[t0|] [s0|]]]|e|] eqn:Hch;
    cbn [bind] in Hrun; try discriminate;
    try (inversion Hrun; subst; tauto).
  apply choose_ok in Hch. apply available_is_open in Hch as (_ & Hroom & Hunlocked).
  destruct (IH _ _ _ _ Hrun t) as (Hlock & Hmem & Hsize).
  rewrite is_locked_assign in Hlock, Hmem.
  split; [exact Hlock|]. split.
  - intros Hl. rewrite (Hmem Hl). apply get_students_assign_locked; assumption.
  - intros Hle. apply Hsize. pose proof (size_assign_le st t0 s0 t) as Hstep.
    destruct (decide (t = t0)) as [->|Hne]; lia.
Qed.
End ChooseLoopLimits.

Lemma random_choose_given_team : chooses_given_team (nat -> nat) random_choose.
Proof.
  intros r r' st teams0 students0 t s. unfold random_choose, RandomAlgorithm_choose.
  pose proof (smallest_team_from_spec st teams0 None) as Hsm.
  destruct (smallest_team_from st None teams0) as [t'|]; cbn [bind]; [|discriminate].
  destruct Hsm as [Hsm|Hsm]; [discriminate|].
  destruct (Nat.eqb (length students0) 0); cbn [bind]; [discriminate|].
  destruct (students0 !! _); cbn [bind]; [|discriminate].
  intros Heq. inversion Heq; subst. exact Hsm.
Qed.

Lemma weight_choose_given_team (U : Type) (U_zero : U) (U_add : U -> U -> U)
    (U_gt : U -> U -> bool) (U_mul_int : U -> Z -> U) (U_mul_float : U -> Q -> U)
    (get_requirement_utility get_social_utility : Store -> nat -> nat -> U)
    (get_diversity_utility : Store -> nat -> nat -> pyval -> pyval -> U)
    (get_preference_utility : Store -> nat -> nat -> pyval -> U)
    (self : AlgorithmOptions) :
  chooses_given_team unit
    (weight_choose U U_zero U_add U_gt U_mul_int U_mul_float get_requirement_utility
       get_social_utility get_diversity_utility get_preference_utility self).
Proof.
  intros r r' st teams0 students0 t s. unfold weight_choose, WeightAlgorithm_choose.
  pose proof (smallest_team_from_spec st teams0 None) as Hsm.
  destruct (smallest_team_from st None teams0) as [t'|]; cbn [bind]; [|discriminate].
  destruct Hsm as [Hsm|Hsm]; [discriminate|].
  destruct (greatest_utility_from _ _ _ _ _ _ _ _ _ _ _ _ _ _ _ _); cbn [bind];
    try discriminate.
  intros Heq. inversion Heq; subst. exact Hsm.
Qed.

(** The random strategy never adds to a locked team and never takes a team
    beyond the maximum size. *)
Lemma RandomAlgorithm_generate_respects_teams (fuel : nat) (r : nat -> nat)
    (st st' : Store) (students0 teams0 : list nat) (tgo : TeamGenerationOption) :
  RandomAlgorithm_generate fuel r st students0 teams0 tgo = Returns st' ->
  forall t : nat,
    is_locked st' t = is_locked st t
    /\ (is_locked st t = true -> get_students st' t = get_students st t)
    /\ ((size st t <= max_teams_size tgo)%Z -> (size st' t <= max_teams_size tgo)%Z).
Proof.
  unfold RandomAlgorithm_generate. intros Hrun.
  destruct (_generate_with_choose _ _ _ _ _ _ _ _) as [[r' st1]|e|] eqn:Hloop;
    cbn [bind snd] in Hrun; try discriminate.
  inversion Hrun; subst.
  exact (generate_with_choose_respects_teams _ _ random_choose_given_team
           _ _ _ _ _ _ _ _ Hloop).
Qed.

(** So does the weight strategy, and with it the priority strategy, whose
    search does not touch the teams. *)
Lemma WeightAlgorithm_generate_respects_teams (U : Type) (U_zero : U)
    (U_add : U -> U -> U) (U_gt : U -> U -> bool) (U_mul_int : U -> Z -> U)
    (U_mul_float : U -> Q -> U)
    (get_requirement_utility get_social_utility : Store -> nat -> nat -> U)
    (get_diversity_utility : Store -> nat -> nat -> pyval -> pyval -> U)
    (get_preference_utility : Store -> nat -> nat -> pyval -> U)
    (self : AlgorithmOptions) (fuel : nat)
    (st st' : Store) (students0 teams0 : list nat) (tgo : TeamGenerationOption) :
  WeightAlgorithm_generate U U_zero U_add U_gt U_mul_int U_mul_float
    get_requirement_utility get_social_utility get_diversity_utility
    get_preference_utility self fuel st students0 teams0 tgo = Returns st' ->
  forall t : nat,
    is_locked st' t = is_locked st t
    /\ (is_locked st t = true -> get_students st' t = get_students st t)
    /\ ((size st t <= max_teams_size tgo)%Z -> (size st' t <= max_teams_size tgo)%Z).
Proof.
  unfold WeightAlgorithm_generate. intros Hrun.
  destruct (_generate_with_choose _ _ _ _ _ _ _ _) as [[r' st1]|e|] eqn:Hloop;
    cbn [bind snd] in Hrun; try discriminate.
  inversion Hrun; subst.
  exact (generate_with_choose_respects_teams _ _
           (weight_choose_given_team U U_zero U_add U_gt U_mul_int U_mul_float
              get_requirement_utility get_social_utility get_diversity_utility
              get_preference_utility self)
           _ _ _ _ _ _ _ _ Hloop).
Qed.

(** ** Step 4 of the social strategy reaches every available team *)

Lemma get_students_assign_grows (st : Store) (t s t' x : nat) :
  x ∈ get_students st t' -> x ∈ get_students (assign st t s) t'.
Proof.
  intros Hx. destruct (decide (t' = t)) as [->|Hne].
  - unfold get_students in *. cbn. rewrite list_lookup_alter_eq.
    destruct (team_objs st !! t); cbn; [apply elem_of_app; left|]; exact Hx.
  - rewrite get_students_assign_other by exact Hne. exact Hx.
Qed.

Lemma save_each_grows (student x t' : nat) (l : list nat) :
  forall st : Store,
    x ∈ get_students st t' ->
    x ∈ get_students
          (fold_left (fun st' team => save_students_to_team st' team [student]) l st) t'.
Proof.
  induction l as [|a l IH]; intros st Hx; [exact Hx|].
  cbn [fold_left]. apply IH. cbn. apply get_students_assign_grows, Hx.
Qed.

Lemma save_each_reaches (student t : nat) (l : list nat) :
  forall st : Store,
    t ∈ l -> (t < length (team_objs st))%nat ->
    student ∈ get_students
                (fold_left (fun st' team => save_students_to_team st' team [student]) l st) t.
Proof.
  induction l as [|a l IH]; intros st Hin Hvalid.
  - apply elem_of_nil in Hin. destruct Hin.
  - cbn [fold_left]. destruct (decide (t = a)) as [->|Hne].
    + apply save_each_grows. cbn.
      rewrite get_students_assign_same by exact Hvalid.
      apply elem_of_app. right. apply list_elem_of_here.
    + apply elem_of_cons in Hin as [Heq|Hin]; [congruence|].
      apply IH; [exact Hin|]. cbn. rewrite length_alter. exact Hvalid.
Qed.

(** A student placed by step 4 becomes a member of every team that is
    available at that moment, not of the first one only. *)
Lemma place_single_reaches_every_available_team (st : Store) (teams0 : list nat)
    (tgo : TeamGenerationOption) (student t : nat) :
  t ∈ get_available_teams st teams0 tgo None ->
  (t < length (team_objs st))%nat ->
  student ∈ get_students (place_single teams0 tgo st student) t.
Proof.
  intros Hin Hvalid. unfold place_single. apply save_each_reaches; assumption.
Qed.

(** ** Fresh rosters *)

Lemma memberships_fresh (st : Store) (teams0 : list nat) (s : nat) :
  (forall t : nat, t ∈ teams0 -> get_students st t = []) ->
  memberships st teams0 s = 0%nat.
Proof.
  unfold memberships. induction teams0 as [|t l IH]; intros Hempty; [reflexivity|].
  sum_step. rewrite (Hempty t) by apply list_elem_of_here.
  rewrite IH; [reflexivity|]. intros t' Ht'. apply Hempty, list_elem_of_further, Ht'.
Qed.

Lemma total_spare_fresh (st : Store) (tgo : TeamGenerationOption) (teams0 : list nat) :
  (forall t : nat, t ∈ teams0 -> get_students st t = []) ->
  Forall (fun team => (team < length (team_objs st))%nat) teams0 ->
  Z.of_nat (total_spare st tgo teams0) = Z.max 0 (total_capacity tgo teams0).
Proof.
  unfold total_spare, total_capacity.
  induction teams0 as [|t l IH]; intros Hempty Hvalid; [reflexivity|].
  apply Forall_cons in Hvalid as [Ht Hvalid].
  sum_step. cbn [length].
  assert (size st t = 0%Z) as Hsize.
  { pose proof (Hempty t (list_elem_of_here _ _)) as He.
    unfold size, get_students in *.
    destruct (team_objs st !! t); [rewrite He|]; reflexivity. }
  unfold spare at 1. rewrite Hsize.
  specialize (IH (fun t' Ht' => Hempty t' (list_elem_of_further _ _ _ Ht')) Hvalid).
  nia.
Qed.

Lemma fresh_placeable (st : Store) (students0 teams0 : list nat)
    (tgo : TeamGenerationOption) :
  valid_refs st students0 teams0 ->
  NoDup teams0 ->
  (forall t : nat, t ∈ teams0 -> is_locked st t = false) ->
  fresh st students0 teams0 ->
  (Z.of_nat (length students0) <= total_capacity tgo teams0)%Z ->
  placeable st students0 teams0 tgo.
Proof.
  intros Hvalid Hnd Hunlocked [Hempty Hfree] Hcap.
  split; [exact Hvalid|]. split; [exact Hnd|]. split; [exact Hunlocked|]. split.
  - intros s Hs. rewrite (Hfree s Hs). apply memberships_fresh, Hempty.
  - pose proof (total_spare_fresh st tgo teams0 Hempty (proj2 Hvalid)) as Hsp.
    unfold get_remaining_students.
    pose proof (length_filter (fun student => is_added st student = false) students0).
    lia.
Qed.

(** On a fresh roster of distinct, unlocked teams whose capacity (the number
    of teams times [max_teams_size]) is at least the number of students, and
    with weights that are numbers, the weight strategy places every student
    in exactly one team. *)
Lemma WeightAlgorithm_generate_fresh_roster (U : Type) (U_zero : U)
    (U_add : U -> U -> U) (U_gt : U -> U -> bool) (U_mul_int : U -> Z -> U)
    (U_mul_float : U -> Q -> U)
    (get_requirement_utility get_social_utility : Store -> nat -> nat -> U)
    (get_diversity_utility : Store -> nat -> nat -> pyval -> pyval -> U)
    (get_preference_utility : Store -> nat -> nat -> pyval -> U)
    (self : AlgorithmOptions)
    (st : Store) (students0 teams0 : list nat) (tgo : TeamGenerationOption) :
  numeric_weights self = true ->
  valid_refs st students0 teams0 ->
  NoDup teams0 ->
  (forall t : nat, t ∈ teams0 -> is_locked st t = false) ->
  fresh st students0 teams0 ->
  (Z.of_nat (length students0) <= total_capacity tgo teams0)%Z ->
  exists (fuel : nat) (st' : Store),
    WeightAlgorithm_generate U U_zero U_add U_gt U_mul_int U_mul_float
      get_requirement_utility get_social_utility get_diversity_utility
      get_preference_utility self fuel st students0 teams0 tgo
    = Returns st'
    /\ all_assigned_once st' students0 teams0.
Proof.
  intros Hw Hvalid Hnd Hunlocked Hfresh Hcap.
  pose proof (fresh_placeable st students0 teams0 tgo Hvalid Hnd Hunlocked Hfresh Hcap)
    as Hplace.
  unfold WeightAlgorithm_generate.
  destruct (generate_with_choose_places_all unit _
              (weight_choose_from_lists U U_zero U_add U_gt U_mul_int U_mul_float
                 get_requirement_utility get_social_utility get_diversity_utility
                 get_preference_utility self Hw)
              students0 teams0 tgo (S (length students0)) tt st Hplace)
    as (r' & st' & Hrun & Hall).
  - unfold get_remaining_students.
    pose proof (length_filter (fun student => is_added st student = false) students0).
    lia.
  - exists (S (length students0)), st'. rewrite Hrun. split; [reflexivity | exact Hall].
Qed.

(** The random strategy chooses from the lists it is given, whatever the
    numbers drawn, and so places every student as well. *)
Lemma random_choose_from_lists : chooses_from_lists (nat -> nat) random_choose.
Proof.
  intros r st teams0 students0. unfold random_choose, RandomAlgorithm_choose.
  pose proof (smallest_team_from_spec st teams0 None) as Hsm.
  destruct (smallest_team_from st None teams0) as [t|].
  - destruct Hsm as [Hsm|Hsm]; [discriminate|].
    destruct students0 as [|s0 rest].
    + cbn. eexists _, None, None. split; [reflexivity|]. right. reflexivity.
    + cbn [length Nat.eqb].
      destruct (lookup_lt_is_Some_2 (s0 :: rest) (r 0%nat mod length (s0 :: rest))%nat)
        as [s Hs].
      { apply Nat.mod_upper_bound. cbn. lia. }
      cbn [length] in Hs. rewrite Hs. cbn [bind].
      eexists _, (Some t), (Some s). split; [reflexivity|].
      split; [exact Hsm|]. apply list_elem_of_lookup. eauto.
  - destruct Hsm as [_ ->]. cbn [bind].
    eexists _, None, None. split; [reflexivity|]. left. reflexivity.
Qed.

Lemma RandomAlgorithm_generate_places_all (r : nat -> nat)
    (st : Store) (students0 teams0 : list nat) (tgo : TeamGenerationOption) :
  placeable st students0 teams0 tgo ->
  exists st' : Store,
    RandomAlgorithm_generate (S (length students0)) r st students0 teams0 tgo
    = Returns st'
    /\ all_assigned_once st' students0 teams0.
Proof.
  intros Hplace. unfold RandomAlgorithm_generate.
  destruct (generate_with_choose_places_all (nat -> nat) _ random_choose_from_lists
              students0 teams0 tgo (S (length students0)) r st Hplace)
    as (r' & st' & -> & Hall).
  - unfold get_remaining_students.
    pose proof (length_filter (fun student => is_added st student = false) students0).
    lia.
  - exists st'. split; [reflexivity | exact Hall].
Qed.

(** The priority strategy returns the store the weight strategy left. *)
Lemma PriorityAlgorithm_generate_respects_teams
    (TeamSet Score : Type) (score : TeamSet -> Score)
    (score_lt : Score -> Score -> bool) (clone : TeamSet -> TeamSet)
    (PriorityTeamSet_init : Store -> list nat -> pyval -> TeamSet)
    (teamset_teams : TeamSet -> list nat)
    (U : Type) (U_zero : U)
    (U_add : U -> U -> U) (U_gt : U -> U -> bool) (U_mul_int : U -> Z -> U)
    (U_mul_float : U -> Q -> U)
    (get_requirement_utility get_social_utility : Store -> nat -> nat -> U)
    (get_diversity_utility : Store -> nat -> nat -> pyval -> pyval -> U)
    (get_preference_utility : Store -> nat -> nat -> pyval -> U)
    (self : AlgorithmOptions) (fuel rounds : nat)
    (st st' : Store) (students0 teams0 result : list nat) (tgo : TeamGenerationOption) :
  PriorityAlgorithm_generate TeamSet Score score score_lt clone PriorityTeamSet_init
    teamset_teams U U_zero U_add U_gt U_mul_int U_mul_float
    get_requirement_utility get_social_utility get_diversity_utility
    get_preference_utility self fuel rounds st students0 teams0 tgo
  = Returns (st', result) ->
  forall t : nat,
    is_locked st' t = is_locked st t
    /\ (is_locked st t = true -> get_students st' t = get_students st t)
    /\ ((size st t <= max_teams_size tgo)%Z -> (size st' t <= max_teams_size tgo)%Z).
Proof.
  unfold PriorityAlgorithm_generate, generate_initial_teams. intros Hrun.
  destruct (WeightAlgorithm_generate _ _ _ _ _ _ _ _ _ _ _ _ _ _ _ _) as [st1|e|] eqn:Hw;
    cbn [bind fst snd] in Hrun; try discriminate.
  destruct (priority_search _ _ _ _ _ _ _) as [best|e|]; cbn [bind] in Hrun;
    try discriminate.
  inversion Hrun; subst.
  exact (WeightAlgorithm_generate_respects_teams _ _ _ _ _ _ _ _ _ _ _ _ _ _ _ _ _ Hw).
Qed.


(** * Properties beyond the claims *)

(** ** The option object *)

(** X1: the flag returned beside the table tells whether any relationship
    is adjusted: it is false exactly when both behaviours are ENFORCE. *)
Theorem get_adjusted_relationships_is_modified :
  forall (o : AlgorithmOptions) (whitelist blacklist : RelationshipBehaviour),
    snd (get_adjusted_relationships (with_behaviours o whitelist blacklist))
    = match whitelist, blacklist with
      | ENFORCE, ENFORCE => false
      | _, _ => true
      end.
Proof. intros o [] []; reflexivity. Qed.

Lemma in_behaviour_values_behaviour_of (v : pyval) :
  in_behaviour_values v = true ->
  exists b : RelationshipBehaviour,
    v = PStr (behaviour_value b) /\ behaviour_of v = Some b.
Proof.
  unfold in_behaviour_values, BEHAVIOUR_OPTIONS_values. cbn [existsb].
  destruct v as [| | | |s| |]; try discriminate. cbn [py_eq_str].
  intros H. unfold behaviour_of. cbn [py_eq_str].
  destruct (String.eqb s ENFORCE_value) eqn:He.
  { apply String.eqb_eq in He. subst. exists ENFORCE. split; reflexivity. }
  destruct (String.eqb s INVERT_value) eqn:Hi.
  { apply String.eqb_eq in Hi. subst. exists INVERT. split; reflexivity. }
  destruct (String.eqb s IGNORE_value) eqn:Hg.
  { apply String.eqb_eq in Hg. subst. exists IGNORE. split; reflexivity. }
  discriminate.
Qed.

(** X2: an option object that was constructed has two of the three
    behaviour strings stored, a behaviour left out being IGNORE; its
    adjusted-relationship table therefore is the one of the specification
    for these two behaviours. *)
Theorem constructed_options_adjust_by_table :
  forall (bool_is_schema_int : bool)
         (requirement_weight0 social_weight0 diversity_weight0 preference_weight0
          max_project_preferences0 blacklist_behaviour0 whitelist_behaviour0
          diversify_options0 concentrate_options0 priorities0 : pyval)
         (self : AlgorithmOptions),
    AlgorithmOptions_init bool_is_schema_int requirement_weight0 social_weight0
      diversity_weight0 preference_weight0 max_project_preferences0
      blacklist_behaviour0 whitelist_behaviour0 diversify_options0
      concentrate_options0 priorities0 = Returns self ->
    exists whitelist blacklist : RelationshipBehaviour,
      behaviour_of (py_or whitelist_behaviour0 (PStr IGNORE_value)) = Some whitelist
      /\ behaviour_of (py_or blacklist_behaviour0 (PStr IGNORE_value)) = Some blacklist
      /\ whitelist_behaviour self = PStr (behaviour_value whitelist)
      /\ blacklist_behaviour self = PStr (behaviour_value blacklist)
      /\ forall r : Relationship,
           rel_dict_get (fst (get_adjusted_relationships self)) r
           = Some (spec_adjusted whitelist blacklist r).
Proof.
  intros b rw sw dw pw mpp bl wl dopt copt prio self Hinit.
  pose proof (validate_settles b rw sw dw pw mpp bl wl dopt copt prio) as Hsettle.
  unfold AlgorithmOptions_init in Hinit.
  change (mkOptions dw pw rw sw mpp (py_or bl (PStr IGNORE_value))
            (py_or wl (PStr IGNORE_value)) (py_or dopt (PList []))
            (py_or copt (PList [])) (py_or prio (PList [])))
    with (stored_options rw sw dw pw mpp bl wl dopt copt prio) in Hinit.
  destruct (validate b _) as [[]|e|]; cbn [bind settles] in *; try discriminate.
  inversion Hinit; subst self; clear Hinit.
  unfold config_invalid in Hsettle.
  repeat (apply orb_false_iff in Hsettle as [Hsettle ?]).
  match goal with H : bad_behaviour bl = false |- _ =>
    unfold bad_behaviour in H; apply negb_false_iff in H;
    destruct (in_behaviour_values_behaviour_of _ H) as (bb & Hb & Hbof) end.
  match goal with H : bad_behaviour wl = false |- _ =>
    unfold bad_behaviour in H; apply negb_false_iff in H;
    destruct (in_behaviour_values_behaviour_of _ H) as (wb & Hw & Hwof) end.
  exists wb, bb. cbn [stored_options whitelist_behaviour blacklist_behaviour].
  split; [exact Hwof|]. split; [exact Hbof|]. split; [exact Hw|]. split; [exact Hb|].
  intros r. unfold get_adjusted_relationships, stored_options.
  cbn [whitelist_behaviour blacklist_behaviour]. rewrite Hw, Hb.
  destruct wb, bb, r; reflexivity.
Qed.

Lemma constructed_options_adjust_by_table_witness :
  AlgorithmOptions_init true (PInt 2) (PInt 1) PNone PNone PNone
    (PStr "invert") PNone PNone PNone PNone
  = Returns (mkOptions PNone PNone (PInt 2) (PInt 1) PNone (PStr "invert") (PStr "ignore")
               (PList []) (PList []) (PList []))
  /\ exists whitelist blacklist : RelationshipBehaviour,
       behaviour_of (py_or PNone (PStr IGNORE_value)) = Some whitelist
       /\ behaviour_of (py_or (PStr "invert") (PStr IGNORE_value)) = Some blacklist
       /\ whitelist_behaviour
            (mkOptions PNone PNone (PInt 2) (PInt 1) PNone (PStr "invert") (PStr "ignore")
               (PList []) (PList []) (PList []))
          = PStr (behaviour_value whitelist)
       /\ blacklist_behaviour
            (mkOptions PNone PNone (PInt 2) (PInt 1) PNone (PStr "invert") (PStr "ignore")
               (PList []) (PList []) (PList []))
          = PStr (behaviour_value blacklist)
       /\ forall r : Relationship,
            rel_dict_get
              (fst (get_adjusted_relationships
                      (mkOptions PNone PNone (PInt 2) (PInt 1) PNone (PStr "invert")
                         (PStr "ignore") (PList []) (PList []) (PList [])))) r
            = Some (spec_adjusted whitelist blacklist r).
Proof.
  split; [reflexivity|].
  apply (constructed_options_adjust_by_table true (PInt 2) (PInt 1) PNone PNone PNone
           (PStr "invert") PNone PNone PNone PNone).
  reflexivity.
Defined.

Lemma invalid_configuration_raises (b : bool)
    (rw sw dw pw mpp bl wl dopt copt prio : pyval) :
  config_invalid b rw sw dw pw mpp bl wl dopt copt prio = true ->
  exists msg : String.string,
    AlgorithmOptions_init b rw sw dw pw mpp bl wl dopt copt prio
    = Raises (AlgorithmException msg).
Proof.
  intros Hinv.
  pose proof (validate_settles b rw sw dw pw mpp bl wl dopt copt prio) as Hsettle.
  unfold AlgorithmOptions_init.
  change (mkOptions dw pw rw sw mpp (py_or bl (PStr IGNORE_value))
            (py_or wl (PStr IGNORE_value)) (py_or dopt (PList []))
            (py_or copt (PList [])) (py_or prio (PList [])))
    with (stored_options rw sw dw pw mpp bl wl dopt copt prio).
  destruct (validate b _) as [[]|e|]; cbn [bind settles] in *.
  - congruence.
  - destruct Hsettle as [_ [msg ->]]. exists msg. reflexivity.
  - destruct Hsettle.
Qed.

Lemma foreign_key_fails_schema (b : bool) (d : list (pyval * pyval))
    (k : String.string) (v : pyval) :
  In (PStr k, v) d -> ~ In k priority_keys ->
  schema_dict [("order"%string, schema_int b); ("type"%string, schema_str);
               ("id"%string, schema_int b); ("max_of"%string, schema_int b);
               ("min_of"%string, schema_int b); ("value"%string, schema_int b)]
              (PDict d) = false.
Proof.
  intros Hin Hforeign. cbn [schema_dict]. apply andb_false_iff. left.
  apply not_true_is_false. intros Hall. rewrite forallb_forall in Hall.
  specialize (Hall _ Hin). cbn [existsb fst snd py_eq_str] in Hall.
  apply Hforeign. unfold priority_keys.
  repeat match type of Hall with
         | (String.eqb k ?name && _ || _) = true =>
             let E := fresh "E" in
             destruct (String.eqb k name) eqn:E;
             [apply String.eqb_eq in E; subst k; cbn; tauto | cbn [andb orb] in Hall]
         end.
  discriminate.
Qed.

(** X3: a priority with an entry whose key is not one of [order], [type],
    [id], [max_of], [min_of], [value] makes the construction raise an
    [AlgorithmException], whatever the other arguments are.  The priorities
    that [test_priority.py] and [scenario_1.py] pass have the keys
    [constraint], [skill_id], [limit_option] and [limit]. *)
Theorem foreign_priority_key_rejected :
  forall (bool_is_schema_int : bool)
         (requirement_weight0 social_weight0 diversity_weight0 preference_weight0
          max_project_preferences0 blacklist_behaviour0 whitelist_behaviour0
          diversify_options0 concentrate_options0 : pyval)
         (ps : list pyval) (d : list (pyval * pyval)) (k : String.string) (v : pyval),
    In (PDict d) ps -> In (PStr k, v) d -> ~ In k priority_keys ->
    exists msg : String.string,
      AlgorithmOptions_init bool_is_schema_int requirement_weight0 social_weight0
        diversity_weight0 preference_weight0 max_project_preferences0
        blacklist_behaviour0 whitelist_behaviour0 diversify_options0
        concentrate_options0 (PList ps)
      = Raises (AlgorithmException msg).
Proof.
  intros b rw sw dw pw mpp bl wl dopt copt ps d k v Hp Hk Hforeign.
  apply invalid_configuration_raises. unfold config_invalid.
  assert (py_or (PList ps) (PList []) = PList ps) as ->.
  { destruct ps; [destruct Hp | reflexivity]. }
  assert (priorities_schema b (PList ps) = false) as ->.
  { unfold priorities_schema. cbn [schema_list].
    apply not_true_is_false. intros Hall. rewrite forallb_forall in Hall.
    specialize (Hall _ Hp).
    rewrite (foreign_key_fails_schema b d k v Hk Hforeign) in Hall. discriminate. }
  cbn [negb]. rewrite orb_true_r. reflexivity.
Qed.

Lemma foreign_priority_key_rejected_witness :
  In (caller_priority (PStr "diversify") (PInt 73) (PStr "min_of") (PInt 2) (PInt 3))
     [caller_priority (PStr "diversify") (PInt 73) (PStr "min_of") (PInt 2) (PInt 3)]
  /\ ~ In "constraint"%string priority_keys
  /\ exists msg : String.string,
       AlgorithmOptions_init true PNone PNone PNone PNone PNone PNone PNone
         (PList [PDict [(PStr "id", PInt 73)]]) PNone
         (PList [caller_priority (PStr "diversify") (PInt 73) (PStr "min_of") (PInt 2) (PInt 3)])
       = Raises (AlgorithmException msg).
Proof.
  assert (~ In "constraint"%string priority_keys) as Hforeign.
  { cbn. intros H. repeat (destruct H as [H|H]; [discriminate|]). exact H. }
  split; [left; reflexivity|]. split; [exact Hforeign|].
  apply (foreign_priority_key_rejected true PNone PNone PNone PNone PNone PNone PNone
           (PList [PDict [(PStr "id", PInt 73)]]) PNone
           [caller_priority (PStr "diversify") (PInt 73) (PStr "min_of") (PInt 2) (PInt 3)]
           [(PStr "order", PInt 1); (PStr "constraint", PStr "diversify");
            (PStr "skill_id", PInt 73); (PStr "limit_option", PStr "min_of");
            (PStr "limit", PInt 2); (PStr "value", PInt 3)]
           "constraint"%string (PStr "diversify")).
  - left. reflexivity.
  - right. left. reflexivity.
  - exact Hforeign.
Defined.

(** ** What the strategies choose *)

Lemma smallest_team_from_acc (st : Store) (rest : list nat) :
  forall sm : nat,
    exists r : nat,
      smallest_team_from st (Some sm) rest = Some r
      /\ (size st r <= size st sm)%Z
      /\ (forall t' : nat, t' ∈ rest -> (size st r <= size st t')%Z)
      /\ (r = sm
          \/ exists i : nat,
               rest !! i = Some r
               /\ (size st r < size st sm)%Z
               /\ forall (j t' : nat), (j < i)%nat -> rest !! j = Some t' ->
                    (size st r < size st t')%Z).
Proof.
  induction rest as [|team rest IH]; intros sm; cbn [smallest_team_from].
  - exists sm. split; [reflexivity|]. split; [lia|]. split; [|left; reflexivity].
    intros t' Ht'. apply elem_of_nil in Ht'. destruct Ht'.
  - destruct (Z.ltb (size st team) (size st sm)) eqn:Hlt.
    + apply Z.ltb_lt in Hlt.
      destruct (IH team) as (r & Hr & Hle & Hmin & Hpos).
      exists r. split; [exact Hr|]. split; [lia|]. split.
      { intros t' Ht'. apply elem_of_cons in Ht' as [->|Ht']; [exact Hle | auto]. }
      right. destruct Hpos as [->|(i & Hi & Hsmaller & Hbefore)].
      * exists 0%nat. split; [reflexivity|]. split; [exact Hlt|]. intros j t' Hj. lia.
      * exists (S i). split; [exact Hi|]. split; [lia|].
        intros [|j] t' Hj Ht'.
        -- cbn in Ht'. inversion Ht'; subst. exact Hsmaller.
        -- cbn in Ht'. apply (Hbefore j); [lia | exact Ht'].
    + apply Z.ltb_ge in Hlt.
      destruct (IH sm) as (r & Hr & Hle & Hmin & Hpos).
      exists r. split; [exact Hr|]. split; [exact Hle|]. split.
      { intros t' Ht'. apply elem_of_cons in Ht' as [->|Ht']; [lia | auto]. }
      destruct Hpos as [->|(i & Hi & Hsmaller & Hbefore)]; [left; reflexivity|].
      right. exists (S i). split; [exact Hi|]. split; [exact Hsmaller|].
      intros [|j] t' Hj Ht'.
      * cbn in Ht'. inversion Ht'; subst. lia.
      * cbn in Ht'. apply (Hbefore j); [lia | exact Ht'].
Qed.

Lemma smallest_team_from_first (st : Store) (team : nat) (rest : list nat) :
  exists t : nat,
    smallest_team_from st None (team :: rest) = Some t
    /\ first_smallest st (team :: rest) t.
Proof.
  cbn [smallest_team_from].
  destruct (smallest_team_from_acc st rest team) as (r & Hr & Hle & Hmin & Hpos).
  exists r. split; [exact Hr|].
  destruct Hpos as [->|(i & Hi & Hsmaller & Hbefore)].
  - exists 0%nat. split; [reflexivity|]. split.
    + intros t' Ht'. apply elem_of_cons in Ht' as [->|Ht']; [lia | auto].
    + intros j t' Hj. lia.
  - exists (S i). split; [exact Hi|]. split.
    + intros t' Ht'. apply elem_of_cons in Ht' as [->|Ht']; [lia | auto].
    + intros [|j] t' Hj Ht'.
      * cbn in Ht'. inversion Ht'; subst. exact Hsmaller.
      * cbn in Ht'. apply (Hbefore j); [lia | exact Ht'].
Qed.

(** X4: [RandomAlgorithm.choose] never raises, whatever number is drawn.
    Given at least one team and one student it returns the first team of
    least size together with one of the students; otherwise it returns
    [(None, None)]. *)
Theorem RandomAlgorithm_choose_spec :
  forall (draw : nat) (st : Store) (teams0 students0 : list nat),
    match teams0, students0 with
    | _ :: _, _ :: _ =>
        exists t s : nat,
          RandomAlgorithm_choose draw st teams0 students0 = Returns (Some t, Some s)
          /\ first_smallest st teams0 t
          /\ s ∈ students0
    | _, _ => RandomAlgorithm_choose draw st teams0 students0 = Returns (None, None)
    end.
Proof.
  intros draw st teams0 students0. unfold RandomAlgorithm_choose.
  destruct teams0 as [|team rest]; [destruct students0; reflexivity|].
  destruct (smallest_team_from_first st team rest) as (t & -> & Hfirst).
  destruct students0 as [|s0 students']; [reflexivity|].
  cbn [length Nat.eqb].
  destruct (lookup_lt_is_Some_2 (s0 :: students') (draw mod S (length students'))%nat)
    as [s Hs].
  { apply Nat.mod_upper_bound. cbn. lia. }
  rewrite Hs. exists t, s. split; [reflexivity|]. split; [exact Hfirst|].
  apply list_elem_of_lookup. eauto.
Qed.

Section WeightChoice.
Variable U : Type.
Variable U_zero : U.
Variable U_add : U -> U -> U.
Variable U_gt : U -> U -> bool.
Variable U_mul_int : U -> Z -> U.
Variable U_mul_float : U -> Q -> U.
Variable get_requirement_utility : Store -> nat -> nat -> U.
Variable get_social_utility : Store -> nat -> nat -> U.
Variable get_diversity_utility : Store -> nat -> nat -> pyval -> pyval -> U.
Variable get_preference_utility : Store -> nat -> nat -> pyval -> U.
Variable self : AlgorithmOptions.
Hypothesis weights_ok : numeric_weights self = true.

(** [>] on utilities is a strict weak order. *)
Hypothesis U_gt_asym : forall a b : U, U_gt a b = true -> U_gt b a = false.
Hypothesis U_le_trans :
  forall a b c : U, U_gt a b = false -> U_gt b c = false -> U_gt a c = false.

Local Abbreviation utility :=
  (_get_utility U U_zero U_add U_mul_int U_mul_float get_requirement_utility
     get_social_utility get_diversity_utility get_preference_utility self).
Local Abbreviation greatest :=
  (greatest_utility_from U U_zero U_add U_gt U_mul_int U_mul_float
     get_requirement_utility get_social_utility get_diversity_utility
     get_preference_utility self).
Local Abbreviation value st team :=
  (fun student => utility_value U (utility st team student) U_zero).

Lemma U_gt_above (a b c : U) :
  U_gt a b = true -> U_gt c b = false -> U_gt a c = true.
Proof using U_le_trans.
  intros Hab Hcb. destruct (U_gt a c) eqn:Hac; [reflexivity|].
  rewrite (U_le_trans a c b Hac Hcb) in Hab. discriminate.
Qed.

Lemma greatest_utility_from_acc (st : Store) (team : nat) (rest : list nat) :
  forall g : nat,
    exists r : nat,
      greatest st team (value st team g) (Some g) rest = Returns (Some r)
      /\ U_gt (value st team g) (value st team r) = false
      /\ (forall y : nat, y ∈ rest -> U_gt (value st team y) (value st team r) = false)
      /\ (r = g
          \/ exists i : nat,
               rest !! i = Some r
               /\ U_gt (value st team r) (value st team g) = true
               /\ forall (j y : nat), (j < i)%nat -> rest !! j = Some y ->
                    U_gt (value st team r) (value st team y) = true).
Proof using weights_ok U_gt_asym U_le_trans.
  induction rest as [|x rest IH]; intros g; cbn [greatest_utility_from].
  - exists g. split; [reflexivity|].
    assert (U_gt (value st team g) (value st team g) = false) as Hrefl.
    { destruct (U_gt (value st team g) (value st team g)) eqn:E; [|reflexivity].
      rewrite <- E. apply U_gt_asym. exact E. }
    split; [exact Hrefl|]. split; [|left; reflexivity].
    intros y Hy. apply elem_of_nil in Hy. destruct Hy.
  - destruct (get_utility_returns U U_zero U_add U_mul_int U_mul_float
                get_requirement_utility get_social_utility get_diversity_utility
                get_preference_utility self weights_ok st team x) as [u Hu].
    assert (value st team x = u) as Hx by (cbn beta; rewrite Hu; reflexivity).
    rewrite Hu. cbn [bind orb]. rewrite <- Hx.
    destruct (U_gt (value st team x) (value st team g)) eqn:Hgt.
    + destruct (IH x) as (r & Hr & Hle & Hmax & Hpos).
      exists r. split; [exact Hr|].
      pose proof (U_gt_asym _ _ Hgt) as Hgx.
      split; [apply U_le_trans with (value st team x); assumption|]. split.
      { intros y Hy. apply elem_of_cons in Hy as [->|Hy]; [exact Hle | auto]. }
      right. destruct Hpos as [->|(i & Hi & Hbig & Hbefore)].
      * exists 0%nat. split; [reflexivity|]. split; [exact Hgt|]. intros j y Hj. lia.
      * exists (S i). split; [exact Hi|].
        split; [apply U_gt_above with (value st team x); assumption|].
        intros [|j] y Hj Hy.
        -- cbn in Hy. inversion Hy; subst. exact Hbig.
        -- cbn in Hy. apply (Hbefore j); [lia | exact Hy].
    + destruct (IH g) as (r & Hr & Hle & Hmax & Hpos).
      exists r. split; [exact Hr|]. split; [exact Hle|]. split.
      { intros y Hy. apply elem_of_cons in Hy as [->|Hy]; [|auto].
        apply U_le_trans with (value st team g); assumption. }
      destruct Hpos as [->|(i & Hi & Hbig & Hbefore)]; [left; reflexivity|].
      right. exists (S i). split; [exact Hi|]. split; [exact Hbig|].
      intros [|j] y Hj Hy.
      * cbn in Hy. inversion Hy; subst.
        apply U_gt_above with (value st team g); assumption.
      * cbn in Hy. apply (Hbefore j); [lia | exact Hy].
Qed.

(** X5: with weights that are numbers and utilities ordered by a strict
    weak order, [WeightAlgorithm.choose] returns the first team of least
    size and, for that team, the first student of greatest utility: no
    student has a greater utility and every student before the chosen one
    has a lesser one.  Without teams it returns [(None, None)], without
    students the team and [None]. *)
Theorem WeightAlgorithm_choose_spec (st : Store) (teams0 students0 : list nat) :
  match teams0 with
  | [] =>
      WeightAlgorithm_choose U U_zero U_add U_gt U_mul_int U_mul_float
        get_requirement_utility get_social_utility get_diversity_utility
        get_preference_utility self st teams0 students0 = Returns (None, None)
  | _ :: _ =>
      exists t : nat,
        first_smallest st teams0 t
        /\ match students0 with
           | [] =>
               WeightAlgorithm_choose U U_zero U_add U_gt U_mul_int U_mul_float
                 get_requirement_utility get_social_utility get_diversity_utility
                 get_preference_utility self st teams0 students0
               = Returns (Some t, None)
           | _ :: _ =>
               exists s : nat,
                 WeightAlgorithm_choose U U_zero U_add U_gt U_mul_int U_mul_float
                   get_requirement_utility get_social_utility get_diversity_utility
                   get_preference_utility self st teams0 students0
                 = Returns (Some t, Some s)
                 /\ first_greatest U_gt (value st t) students0 s
           end
  end.
Proof using weights_ok U_gt_asym U_le_trans.
  unfold WeightAlgorithm_choose.
  destruct teams0 as [|team rest]; [reflexivity|].
  destruct (smallest_team_from_first st team rest) as (t & -> & Hfirst).
  exists t. split; [exact Hfirst|].
  destruct students0 as [|s0 students']; [reflexivity|].
  cbn [greatest_utility_from].
  destruct (get_utility_returns U U_zero U_add U_mul_int U_mul_float
              get_requirement_utility get_social_utility get_diversity_utility
              get_preference_utility self weights_ok st t s0) as [u Hu].
  assert (value st t s0 = u) as Hs0 by (cbn beta; rewrite Hu; reflexivity).
  rewrite Hu. cbn [bind orb]. rewrite <- Hs0.
  destruct (greatest_utility_from_acc st t students' s0) as (r & Hr & Hle & Hmax & Hpos).
  rewrite Hr. cbn [bind]. exists r. split; [reflexivity|].
  destruct Hpos as [->|(i & Hi & Hbig & Hbefore)].
  - exists 0%nat. split; [reflexivity|]. split.
    + intros y Hy. apply elem_of_cons in Hy as [->|Hy]; [exact Hle | auto].
    + intros j y Hj. lia.
  - exists (S i). split; [exact Hi|]. split.
    + intros y Hy. apply elem_of_cons in Hy as [->|Hy]; [exact Hle | auto].
    + intros [|j] y Hj Hy.
      * cbn in Hy. inversion Hy; subst. exact Hbig.
      * cbn in Hy. apply (Hbefore j); [lia | exact Hy].
Qed.
End WeightChoice.

Lemma WeightAlgorithm_choose_spec_witness :
  numeric_weights unit_weight_options = true
  /\ exists t : nat,
       first_smallest three_store [0; 1]%nat t
       /\ exists s : nat,
            id_choose unit_weight_options three_store [0; 1]%nat [0; 1; 2]%nat
            = Returns (Some t, Some s)
            /\ first_greatest Z.gtb
                 (fun student =>
                    utility_value Z
                      (_get_utility Z 0%Z Z.add Z.mul (fun u q => (u * Qnum q)%Z)
                         (fun st' _ student' => student_id st' student') (fun _ _ _ => 0%Z)
                         (fun _ _ _ _ _ => 0%Z) (fun _ _ _ _ => 0%Z) unit_weight_options
                         three_store t student) 0%Z)
                 [0; 1; 2]%nat s.
Proof.
  assert (forall a b : Z, Z.gtb a b = true -> Z.gtb b a = false) as Hasym.
  { intros a b H. apply Z.gtb_lt in H. rewrite Z.gtb_ltb. apply Z.ltb_ge. lia. }
  assert (forall a b c : Z, Z.gtb a b = false -> Z.gtb b c = false -> Z.gtb a c = false)
    as Htrans.
  { intros a b c Hab Hbc. rewrite Z.gtb_ltb in *.
    apply Z.ltb_ge in Hab, Hbc. apply Z.ltb_ge. lia. }
  split; [reflexivity|].
  exact (WeightAlgorithm_choose_spec Z 0%Z Z.add Z.gtb Z.mul (fun u q => (u * Qnum q)%Z)
           (fun st' _ student' => student_id st' student') (fun _ _ _ => 0%Z)
           (fun _ _ _ _ _ => 0%Z) (fun _ _ _ _ => 0%Z) unit_weight_options eq_refl
           Hasym Htrans three_store [0; 1]%nat [0; 1; 2]%nat).
Defined.

(** ** The choose-loop always ends *)

Lemma chosen_from_lists (R : Type)
    (choose : R -> Store -> list nat -> list nat
              -> outcome (R * (option nat * option nat))) :
  chooses_from_lists R choose ->
  forall (r r' : R) (st : Store) (teams0 students0 : list nat) (t s : nat),
    choose r st teams0 students0 = Returns (r', (Some t, Some s)) ->
    t ∈ teams0 /\ s ∈ students0.
Proof.
  intros Hok r r' st teams0 students0 t s Hch.
  destruct (Hok r st teams0 students0) as (r1 & ot & os & Heq & Hpick).
  rewrite Heq in Hch. inversion Hch; subst. exact Hpick.
Qed.

Section ChooseLoopTotal.
Variable R : Type.
Variable choose : R -> Store -> list nat -> list nat
                  -> outcome (R * (option nat * option nat)).
Hypothesis choose_ok : chooses_from_lists R choose.

Variable students0 teams0 : list nat.
Variable tgo : TeamGenerationOption.

Lemma generate_with_choose_stops (fuel : nat) :
  forall (r : R) (st : Store),
    valid_refs st students0 teams0 ->
    (length (get_remaining_students st students0) < fuel)%nat ->
    exists (r' : R) (st' : Store),
      _generate_with_choose R choose fuel r st students0 teams0 tgo = Returns (r', st')
      /\ stopped st' students0 teams0 tgo.
Proof using choose_ok.
  induction fuel as [|fuel IH]; intros r st Hvalid Hfuel; [lia|].
  cbn [_generate_with_choose].
  destruct (choose_ok r st (get_available_teams st teams0 tgo None)
              (get_remaining_students st students0))
    as (r' & team & student & Hchoose & Hpicked).
  rewrite Hchoose. cbn [bind].
  destruct team as [t|], student as [s|];
    try (exists r', st; split; [reflexivity | exact Hpicked]).
  destruct Hpicked as [Ht Hs].
  apply IH; [apply valid_refs_assign, Hvalid|].
  assert (s < length (student_objs st))%nat as Hsv.
  { destruct Hvalid as (Hv & _). rewrite Forall_forall in Hv.
    apply Hv. apply (remaining_is_unassigned _ _ _ Hs). }
  assert (t < length (team_objs st))%nat as Htv.
  { destruct Hvalid as (_ & Hv). rewrite Forall_forall in Hv.
    apply Hv. apply (available_is_open _ _ _ _ Ht). }
  pose proof (remaining_assign_lt st t s Htv Hsv students0 Hs). lia.
Qed.
End ChooseLoopTotal.

Lemma chooses_from_lists_given_team (R : Type)
    (choose : R -> Store -> list nat -> list nat
              -> outcome (R * (option nat * option nat))) :
  chooses_from_lists R choose -> chooses_given_team R choose.
Proof.
  intros Hok r r' st teams0 students0 t s Hch.
  apply (chosen_from_lists R choose Hok _ _ _ _ _ _ _ Hch).
Qed.

Lemma remaining_le_all (st : Store) (students0 : list nat) :
  (length (get_remaining_students st students0) < S (length students0))%nat.
Proof.
  unfold get_remaining_students.
  pose proof (length_filter (fun student => is_added st student = false) students0).
  lia.
Qed.

(** X6: [RandomAlgorithm.generate] returns on every roster, whatever numbers
    are drawn, after at most one round per student.  It stops with no team
    available or no student remaining, and it respects the teams: no lock
    changes, a locked team keeps exactly its members, and a team within the
    maximum size stays within it. *)
Theorem RandomAlgorithm_generate_total :
  forall (r : nat -> nat) (st : Store) (students0 teams0 : list nat)
         (tgo : TeamGenerationOption),
    valid_refs st students0 teams0 ->
    exists st' : Store,
      RandomAlgorithm_generate (S (length students0)) r st students0 teams0 tgo
      = Returns st'
      /\ stopped st' students0 teams0 tgo
      /\ respects_teams st st' tgo.
Proof.
  intros r st students0 teams0 tgo Hvalid. unfold RandomAlgorithm_generate.
  destruct (generate_with_choose_stops (nat -> nat) _ random_choose_from_lists
              students0 teams0 tgo (S (length students0)) r st Hvalid
              (remaining_le_all st students0))
    as (r' & st' & Hrun & Hstop).
  rewrite Hrun. exists st'. split; [reflexivity|]. split; [exact Hstop|].
  exact (generate_with_choose_respects_teams _ _ random_choose_given_team
           _ _ _ _ _ _ _ _ Hrun).
Qed.

Lemma RandomAlgorithm_generate_total_witness :
  valid_refs locked_fragment_store [0; 1]%nat [0%nat]
  /\ exists st' : Store,
       RandomAlgorithm_generate 3 (fun k => (5 * k + 2)%nat) locked_fragment_store
         [0; 1]%nat [0%nat] pairs = Returns st'
       /\ stopped st' [0; 1]%nat [0%nat] pairs
       /\ respects_teams locked_fragment_store st' pairs.
Proof.
  assert (valid_refs locked_fragment_store [0; 1]%nat [0%nat]) as Hvalid.
  { split; repeat constructor. }
  split; [exact Hvalid|].
  apply (RandomAlgorithm_generate_total (fun k => (5 * k + 2)%nat) locked_fragment_store
           [0; 1]%nat [0%nat] pairs Hvalid).
Defined.

(** X7: with weights that are numbers, [WeightAlgorithm.generate] returns on
    every roster after at most one round per student, stops with no team
    available or no student remaining, and respects locks and sizes. *)
Theorem WeightAlgorithm_generate_total :
  forall (U : Type) (U_zero : U) (U_add : U -> U -> U) (U_gt : U -> U -> bool)
         (U_mul_int : U -> Z -> U) (U_mul_float : U -> Q -> U)
         (get_requirement_utility get_social_utility : Store -> nat -> nat -> U)
         (get_diversity_utility : Store -> nat -> nat -> pyval -> pyval -> U)
         (get_preference_utility : Store -> nat -> nat -> pyval -> U)
         (self : AlgorithmOptions)
         (st : Store) (students0 teams0 : list nat) (tgo : TeamGenerationOption),
    numeric_weights self = true ->
    valid_refs st students0 teams0 ->
    exists st' : Store,
      WeightAlgorithm_generate U U_zero U_add U_gt U_mul_int U_mul_float
        get_requirement_utility get_social_utility get_diversity_utility
        get_preference_utility self (S (length students0)) st students0 teams0 tgo
      = Returns st'
      /\ stopped st' students0 teams0 tgo
      /\ respects_teams st st' tgo.
Proof.
  intros U U_zero U_add U_gt U_mul_int U_mul_float gr gs gd gp self st students0 teams0
         tgo Hw Hvalid.
  unfold WeightAlgorithm_generate.
  destruct (generate_with_choose_stops unit _
              (weight_choose_from_lists U U_zero U_add U_gt U_mul_int U_mul_float
                 gr gs gd gp self Hw)
              students0 teams0 tgo (S (length students0)) tt st Hvalid
              (remaining_le_all st students0))
    as (r' & st' & Hrun & Hstop).
  rewrite Hrun. exists st'. split; [reflexivity|]. split; [exact Hstop|].
  exact (generate_with_choose_respects_teams _ _
           (weight_choose_given_team U U_zero U_add U_gt U_mul_int U_mul_float
              gr gs gd gp self)
           _ _ _ _ _ _ _ _ Hrun).
Qed.

Lemma WeightAlgorithm_generate_total_witness :
  numeric_weights unit_weight_options = true
  /\ valid_refs full_store [1%nat] [0%nat]
  /\ exists st' : Store,
       example_generate unit_weight_options 2 full_store [1%nat] [0%nat] singles
       = Returns st'
       /\ stopped st' [1%nat] [0%nat] singles
       /\ respects_teams full_store st' singles.
Proof.
  assert (valid_refs full_store [1%nat] [0%nat]) as Hvalid.
  { split; repeat constructor. }
  split; [reflexivity|]. split; [exact Hvalid|].
  apply (WeightAlgorithm_generate_total Q (inject_Z 0) Qplus
           (fun a b => negb (Qle_bool a b)) (fun u z => Qmult u (inject_Z z)) Qmult
           (fun _ _ _ => inject_Z 1) (fun _ _ _ => inject_Z 1)
           (fun _ _ _ _ _ => inject_Z 1) (fun _ _ _ _ => inject_Z 1)
           unit_weight_options full_store [1%nat] [0%nat] singles eq_refl Hvalid).
Defined.

(** ** The choose-loop only adds *)

Lemma is_added_team_of (st : Store) (s : nat) :
  is_added st s = true <-> is_Some (team_of st s).
Proof.
  unfold is_added, team_of. destruct (student_objs st !! s) as [obj|].
  - apply bool_decide_eq_true.
  - split; [discriminate | intros [x Hx]; discriminate].
Qed.

Lemma team_of_assign_other (st : Store) (t s s' : nat) :
  s' <> s -> team_of (assign st t s) s' = team_of st s'.
Proof.
  intros Hne. unfold team_of. cbn. rewrite list_lookup_alter_ne by congruence.
  reflexivity.
Qed.

Lemma get_students_assign_prefix (st : Store) (t s t' : nat) :
  get_students st t' `prefix_of` get_students (assign st t s) t'.
Proof.
  destruct (decide (t' = t)) as [->|Hne].
  - unfold get_students. cbn. rewrite list_lookup_alter_eq.
    destruct (team_objs st !! t); cbn; [apply prefix_app_r|]; reflexivity.
  - rewrite get_students_assign_other by exact Hne. reflexivity.
Qed.

Lemma only_adds_refl (st : Store) (students0 : list nat) : only_adds st st students0.
Proof. split; [|split]; intros; reflexivity. Qed.

Lemma only_adds_trans (st1 st2 st3 : Store) (students0 : list nat) :
  only_adds st1 st2 students0 -> only_adds st2 st3 students0 ->
  only_adds st1 st3 students0.
Proof.
  intros (Hp1 & Ha1 & Ho1) (Hp2 & Ha2 & Ho2). split; [|split].
  - intros t. etransitivity; [apply Hp1 | apply Hp2].
  - intros s Hs. rewrite Ha2; [apply Ha1, Hs|].
    apply is_added_team_of. rewrite (Ha1 s Hs). apply is_added_team_of, Hs.
  - intros s Hs. rewrite (Ho2 s Hs). apply Ho1, Hs.
Qed.

Lemma only_adds_assign (st : Store) (students0 : list nat) (t s : nat) :
  s ∈ get_remaining_students st students0 ->
  only_adds st (assign st t s) students0.
Proof.
  intros Hs. apply remaining_is_unassigned in Hs as [Hin Hfree].
  split; [|split].
  - intros t'. apply get_students_assign_prefix.
  - intros s' Hs'. apply team_of_assign_other. intros ->. congruence.
  - intros s' Hs'. apply team_of_assign_other. intros ->. contradiction.
Qed.

Section ChooseLoopOnlyAdds.
Variable R : Type.
Variable choose : R -> Store -> list nat -> list nat
                  -> outcome (R * (option nat * option nat)).
Hypothesis choose_ok : chooses_from_lists R choose.

Variable students0 teams0 : list nat.
Variable tgo : TeamGenerationOption.

Lemma generate_with_choose_adds (fuel : nat) :
  forall (r r' : R) (st st' : Store),
    _generate_with_choose R choose fuel r st students0 teams0 tgo = Returns (r', st') ->
    only_adds st st' students0.
Proof using choose_ok.
  induction fuel as [|fuel IH]; intros r r' st st' Hrun; [discriminate|].
  cbn [_generate_with_choose] in Hrun.
  destruct (choose r st (get_available_teams st teams0 tgo None)
              (get_remaining_students st students0)) as [[r1 [[t0|] [s0|]]]|e|] eqn:Hch;
    cbn [bind] in Hrun; try discriminate;
    try (inversion Hrun; subst; apply only_adds_refl).
  apply (chosen_from_lists R choose choose_ok) in Hch as [_ Hs].
  apply only_adds_trans with (assign st t0 s0).
  - apply only_adds_assign, Hs.
  - apply (IH _ _ _ _ Hrun).
Qed.

(** X8: the loop shared by the strategies only adds.  For a strategy that
    chooses from the lists it is given, the loop returns, and afterwards
    every team has its former members, in order, in front of the new ones,
    a student who had a team has the same team, and a student outside the
    list passed in is untouched. *)
Theorem generate_with_choose_only_adds (r : R) (st : Store) :
  valid_refs st students0 teams0 ->
  exists (r' : R) (st' : Store),
    _generate_with_choose R choose (S (length students0)) r st students0 teams0 tgo
    = Returns (r', st')
    /\ only_adds st st' students0.
Proof using choose_ok.
  intros Hvalid.
  destruct (generate_with_choose_stops R choose choose_ok students0 teams0 tgo
              (S (length students0)) r st Hvalid (remaining_le_all st students0))
    as (r' & st' & Hrun & _).
  exists r', st'. split; [exact Hrun|]. apply (generate_with_choose_adds _ _ _ _ _ Hrun).
Qed.
End ChooseLoopOnlyAdds.

Lemma generate_with_choose_only_adds_witness :
  chooses_from_lists (nat -> nat) random_choose
  /\ valid_refs fragment_store [0; 1]%nat [0%nat]
  /\ exists (r' : nat -> nat) (st' : Store),
       _generate_with_choose (nat -> nat) random_choose 3 (fun k => k) fragment_store
         [0; 1]%nat [0%nat] teams_of_three = Returns (r', st')
       /\ only_adds fragment_store st' [0; 1]%nat.
Proof.
  assert (valid_refs fragment_store [0; 1]%nat [0%nat]) as Hvalid.
  { split; repeat constructor. }
  split; [exact random_choose_from_lists|]. split; [exact Hvalid|].
  exact (generate_with_choose_only_adds (nat -> nat) random_choose
           random_choose_from_lists [0; 1]%nat [0%nat] teams_of_three (fun k => k)
           fragment_store Hvalid).
Defined.

(** X9: on a roster of distinct, unlocked teams in a consistent state with
    at least as many spare places as students without a team,
    [RandomAlgorithm.generate] places every student in exactly one team,
    whatever numbers are drawn. *)
Theorem RandomAlgorithm_generate_assigns_all :
  forall (r : nat -> nat) (st : Store) (students0 teams0 : list nat)
         (tgo : TeamGenerationOption),
    placeable st students0 teams0 tgo ->
    exists st' : Store,
      RandomAlgorithm_generate (S (length students0)) r st students0 teams0 tgo
      = Returns st'
      /\ all_assigned_once st' students0 teams0.
Proof.
  intros r st students0 teams0 tgo Hplace.
  exact (RandomAlgorithm_generate_places_all r st students0 teams0 tgo Hplace).
Qed.

Lemma RandomAlgorithm_generate_assigns_all_witness :
  placeable three_store [0; 1; 2]%nat [0; 1]%nat pairs
  /\ exists st' : Store,
       RandomAlgorithm_generate 4 (fun k => (7 * k + 1)%nat) three_store
         [0; 1; 2]%nat [0; 1]%nat pairs = Returns st'
       /\ all_assigned_once st' [0; 1; 2]%nat [0; 1]%nat.
Proof.
  assert (placeable three_store [0; 1; 2]%nat [0; 1]%nat pairs) as Hplace.
  { split; [split; repeat constructor|].
    split; [apply NoDup_ListNoDup; repeat constructor; cbn; intuition congruence|].
    split.
    { intros t Ht. repeat (apply elem_of_cons in Ht as [->|Ht]; [reflexivity|]).
      apply elem_of_nil in Ht. destruct Ht. }
    split.
    { intros s Hs. repeat (apply elem_of_cons in Hs as [->|Hs]; [reflexivity|]).
      apply elem_of_nil in Hs. destruct Hs. }
    vm_compute. lia. }
  split; [exact Hplace|].
  exact (RandomAlgorithm_generate_assigns_all (fun k => (7 * k + 1)%nat) three_store
           [0; 1; 2]%nat [0; 1]%nat pairs Hplace).
Defined.



(** ** The population of the priority search *)

Section PopulationFacts.
Variable TeamSet : Type.
Variable Score : Type.
Variable score : TeamSet -> Score.
Variable score_lt : Score -> Score -> bool.
Variable clone : TeamSet -> TeamSet.

Local Abbreviation sorted := (sort_reverse TeamSet Score score score_lt).
Local Abbreviation round := (search_round TeamSet Score score score_lt clone).
Local Abbreviation rounds_of := (search_rounds TeamSet Score score score_lt clone).
Local Abbreviation insert := (insert_reverse TeamSet Score score score_lt).
Local Abbreviation at_least := (at_least TeamSet Score score score_lt).

Lemma insert_reverse_perm (x : TeamSet) (l : list TeamSet) : insert x l ≡ₚ x :: l.
Proof.
  induction l as [|y l IH]; cbn [insert_reverse]; [reflexivity|].
  destruct (teamset_lt TeamSet Score score score_lt x y); [|reflexivity].
  rewrite IH. apply Permutation_swap.
Qed.

Lemma sort_reverse_perm (l : list TeamSet) : sorted l ≡ₚ l.
Proof.
  induction l as [|x l IH]; [reflexivity|].
  cbn [sort_reverse foldr]. rewrite insert_reverse_perm.
  apply Permutation_skip, IH.
Qed.

Lemma mutate_all (l : list TeamSet) : flat_map (mutate TeamSet clone) l = map clone l.
Proof. induction l as [|x l IH]; [reflexivity|]. cbn. rewrite IH. reflexivity. Qed.

Lemma search_round_length (l : list TeamSet) :
  length (round l) = Nat.min 3 (2 * length l).
Proof.
  unfold search_round, NUM_KEPT_TEAM_SETS.
  rewrite length_take, (Permutation_length (sort_reverse_perm _)).
  rewrite length_app, mutate_all, length_map. lia.
Qed.

Lemma search_rounds_length_from (rounds : nat) :
  forall l : list TeamSet,
    (length l <= 3)%nat ->
    length (rounds_of rounds l) = Nat.min 3 (2 ^ rounds * length l).
Proof.
  induction rounds as [|n IH]; intros l Hl.
  - cbn [search_rounds Nat.pow]. lia.
  - cbn [search_rounds]. rewrite IH by (rewrite search_round_length; lia).
    rewrite search_round_length, Nat.pow_succ_r'.
    pose proof (Nat.pow_nonzero 2 n ltac:(lia)). nia.
Qed.


(** The fitness order is a strict weak order. *)
Hypothesis score_lt_asym :
  forall a b : Score, score_lt a b = true -> score_lt b a = false.
Hypothesis score_ge_trans :
  forall a b c : Score,
    score_lt a b = false -> score_lt b c = false -> score_lt a c = false.

Lemma StronglySorted_app_parts (R0 : TeamSet -> TeamSet -> Prop) (l1 l2 : list TeamSet) :
  StronglySorted R0 (l1 ++ l2) ->
  StronglySorted R0 l1 /\ forall x y : TeamSet, x ∈ l1 -> y ∈ l2 -> R0 x y.
Proof.
  induction l1 as [|a l1 IH]; cbn [app]; intros Hs.
  - split; [constructor|]. intros x y Hx. apply elem_of_nil in Hx. destruct Hx.
  - apply StronglySorted_inv in Hs as [Hs Hall]. destruct (IH Hs) as [Hs1 Hrel].
    rewrite Forall_forall in Hall. split.
    + constructor; [exact Hs1|]. rewrite Forall_forall. intros z Hz.
      apply Hall, elem_of_app. left. exact Hz.
    + intros x y Hx Hy. apply elem_of_cons in Hx as [->|Hx]; [|auto].
      apply Hall, elem_of_app. right. exact Hy.
Qed.

Lemma insert_reverse_sorted (x : TeamSet) (l : list TeamSet) :
  StronglySorted at_least l -> StronglySorted at_least (insert x l).
Proof using score_lt_asym score_ge_trans.
  induction l as [|y l IH]; intros Hs; cbn [insert_reverse].
  - repeat constructor.
  - destruct (teamset_lt TeamSet Score score score_lt x y) eqn:E.
    + apply StronglySorted_inv in Hs as [Hs Hall]. constructor; [apply IH, Hs|].
      rewrite Forall_forall in *. intros z Hz.
      apply (elem_of_Permutation_proper z _ _ (insert_reverse_perm x l)) in Hz.
      apply elem_of_cons in Hz as [->|Hz]; [|apply Hall, Hz].
      apply score_lt_asym. exact E.
    + constructor; [exact Hs|]. apply StronglySorted_inv in Hs as [Hs Hall].
      rewrite Forall_forall in *. intros z Hz.
      apply elem_of_cons in Hz as [->|Hz]; [exact E|].
      apply (score_ge_trans _ (score y)); [exact E | apply Hall, Hz].
Qed.

Lemma sort_reverse_sorted (l : list TeamSet) : StronglySorted at_least (sorted l).
Proof using score_lt_asym score_ge_trans.
  induction l as [|x l IH]; [constructor|].
  cbn [sort_reverse foldr]. apply insert_reverse_sorted, IH.
Qed.


(** [clone] returns a team-set that is not fitter than the original, as a
    copy is. *)
Hypothesis clone_not_fitter :
  forall a : TeamSet, score_lt (score a) (score (clone a)) = false.

Lemma insert_reverse_front (x : TeamSet) (l : list TeamSet) :
  Forall (fun y => score_lt (score x) (score y) = false) l ->
  insert x l = x :: l.
Proof.
  intros Hall. destruct l as [|y l]; [reflexivity|].
  cbn [insert_reverse]. apply Forall_cons in Hall as [Hy _].
  unfold teamset_lt. rewrite Hy. reflexivity.
Qed.

Lemma search_round_keeps_first (x : TeamSet) (l : list TeamSet) :
  Forall (fun y => score_lt (score x) (score y) = false) l ->
  exists l' : list TeamSet,
    round (x :: l) = x :: l'
    /\ Forall (fun y => score_lt (score x) (score y) = false) l'.
Proof using score_ge_trans clone_not_fitter.
  intros Hall. unfold search_round.
  set (rest := (l ++ flat_map (mutate TeamSet clone) (x :: l))%list).
  change ((x :: l) ++ flat_map (mutate TeamSet clone) (x :: l))%list with (x :: rest).
  assert (Forall (fun y => score_lt (score x) (score y) = false) rest) as Hrest.
  { unfold rest. rewrite mutate_all. apply Forall_app. split; [exact Hall|].
    cbn [map]. constructor; [apply clone_not_fitter|].
    rewrite Forall_forall in *. intros y Hy.
    apply list_elem_of_fmap in Hy as (z & -> & Hz).
    apply (score_ge_trans _ (score z)); [apply Hall, Hz | apply clone_not_fitter]. }
  change (sorted (x :: rest)) with (insert x (sorted rest)).
  assert (Forall (fun y => score_lt (score x) (score y) = false) (sorted rest)) as Hs.
  { rewrite Forall_forall in *. intros y Hy. apply Hrest.
    apply (elem_of_Permutation_proper y _ _ (sort_reverse_perm rest)). exact Hy. }
  rewrite (insert_reverse_front x _ Hs). cbn [NUM_KEPT_TEAM_SETS take].
  exists (take 2 (sorted rest)). split; [reflexivity|]. apply Forall_take, Hs.
Qed.

End PopulationFacts.



(** ** The helpers of the social strategy *)

Lemma largest_fragment_from_acc (st : Store) (tgo : TeamGenerationOption)
    (rest : list nat) :
  forall (ls : Z) (lf : option nat),
    match largest_fragment_from st tgo ls lf rest with
    | None =>
        lf = None
        /\ forall t : nat, t ∈ rest -> (size st t < min_team_size tgo)%Z ->
             (size st t <= ls)%Z
    | Some r =>
        (lf = Some r
         /\ forall t : nat, t ∈ rest -> (size st t < min_team_size tgo)%Z ->
              (size st t <= ls)%Z)
        \/ exists i : nat,
             rest !! i = Some r
             /\ (ls < size st r < min_team_size tgo)%Z
             /\ (forall t : nat, t ∈ rest -> (size st t < min_team_size tgo)%Z ->
                   (size st t <= size st r)%Z)
             /\ (forall (j t' : nat), (j < i)%nat -> rest !! j = Some t' ->
                   (size st t' < min_team_size tgo)%Z -> (size st t' < size st r)%Z)
    end.
Proof.
  induction rest as [|team rest IH]; intros ls lf; cbn [largest_fragment_from].
  - destruct lf as [g|].
    + left. split; [reflexivity|]. intros t Ht. apply elem_of_nil in Ht. destruct Ht.
    + split; [reflexivity|]. intros t Ht. apply elem_of_nil in Ht. destruct Ht.
  - destruct (Z.geb (size st team) (min_team_size tgo)) eqn:Hge.
    { rewrite Z.geb_leb in Hge. apply Z.leb_le in Hge. specialize (IH ls lf).
      destruct (largest_fragment_from st tgo ls lf rest) as [r|].
      - destruct IH as [[Hlf Hall]|(i & Hi & Hr & Hall & Hbefore)].
        + left. split; [exact Hlf|]. intros t Ht Hsmall.
          apply elem_of_cons in Ht as [->|Ht]; [lia | auto].
        + right. exists (S i). split; [exact Hi|]. split; [exact Hr|]. split.
          * intros t Ht Hsmall. apply elem_of_cons in Ht as [->|Ht]; [lia | auto].
          * intros [|j] t' Hj Ht' Hsmall; cbn in Ht'.
            -- inversion Ht'; subst. lia.
            -- apply (Hbefore j); [lia | exact Ht' | exact Hsmall].
      - destruct IH as [Hlf Hall]. split; [exact Hlf|]. intros t Ht Hsmall.
        apply elem_of_cons in Ht as [->|Ht]; [lia | auto]. }
    rewrite Z.geb_leb in Hge. apply Z.leb_gt in Hge.
    destruct (Z.gtb (size st team) ls) eqn:Hgt.
    { rewrite Z.gtb_ltb in Hgt. apply Z.ltb_lt in Hgt.
      specialize (IH (size st team) (Some team)).
      destruct (largest_fragment_from st tgo (size st team) (Some team) rest) as [r|].
      - right. destruct IH as [[Hlf Hall]|(i & Hi & Hr & Hall & Hbefore)].
        + inversion Hlf; subst r. exists 0%nat. split; [reflexivity|].
          split; [lia|]. split.
          * intros t Ht Hsmall. apply elem_of_cons in Ht as [->|Ht]; [lia | auto].
          * intros j t' Hj. lia.
        + exists (S i). split; [exact Hi|]. split; [lia|]. split.
          * intros t Ht Hsmall. apply elem_of_cons in Ht as [->|Ht]; [lia | auto].
          * intros [|j] t' Hj Ht' Hsmall; cbn in Ht'.
            -- inversion Ht'; subst. lia.
            -- apply (Hbefore j); [lia | exact Ht' | exact Hsmall].
      - destruct IH as [Hlf _]. discriminate. }
    rewrite Z.gtb_ltb in Hgt. apply Z.ltb_ge in Hgt. specialize (IH ls lf).
    destruct (largest_fragment_from st tgo ls lf rest) as [r|].
    + destruct IH as [[Hlf Hall]|(i & Hi & Hr & Hall & Hbefore)].
      * left. split; [exact Hlf|]. intros t Ht Hsmall.
        apply elem_of_cons in Ht as [->|Ht]; [lia | auto].
      * right. exists (S i). split; [exact Hi|]. split; [exact Hr|]. split.
        -- intros t Ht Hsmall. apply elem_of_cons in Ht as [->|Ht]; [lia | auto].
        -- intros [|j] t' Hj Ht' Hsmall; cbn in Ht'.
           ++ inversion Ht'; subst. lia.
           ++ apply (Hbefore j); [lia | exact Ht' | exact Hsmall].
    + destruct IH as [Hlf Hall]. split; [exact Hlf|]. intros t Ht Hsmall.
      apply elem_of_cons in Ht as [->|Ht]; [lia | auto].
Qed.

(** X14: [get_largest_fragment_team] returns the first team of greatest size
    among the teams that have members and are below [min_team_size], and
    [None] exactly when there is no such team; an empty team is never
    returned. *)
Theorem get_largest_fragment_team_spec :
  forall (st : Store) (teams0 : list nat) (tgo : TeamGenerationOption),
    match get_largest_fragment_team st teams0 tgo with
    | Some t => first_largest_fragment st tgo teams0 t
    | None => forall t : nat, t ∈ teams0 -> ~ is_fragment st tgo t
    end.
Proof.
  intros st teams0 tgo. unfold get_largest_fragment_team.
  pose proof (largest_fragment_from_acc st tgo teams0 0%Z None) as H.
  destruct (largest_fragment_from st tgo 0 None teams0) as [r|].
  - destruct H as [[Hlf _]|(i & Hi & Hr & Hall & Hbefore)]; [discriminate|].
    exists i. split; [exact Hi|]. split; [exact Hr|]. split.
    + intros t' Ht' [_ Hsmall]. apply Hall; assumption.
    + intros j t' Hj Ht' [_ Hsmall]. apply (Hbefore j); assumption.
  - destruct H as [_ Hall]. intros t Ht [Hpos Hsmall].
    specialize (Hall t Ht Hsmall). lia.
Qed.

Lemma save_students_to_team_snoc (st : Store) (team : nat) (l : list nat) (s : nat) :
  save_students_to_team st team (l ++ [s]) = assign (save_students_to_team st team l) team s.
Proof. unfold save_students_to_team. rewrite fold_left_app. reflexivity. Qed.

Lemma save_students_to_team_length (st : Store) (team : nat) (l : list nat) :
  length (team_objs (save_students_to_team st team l)) = length (team_objs st)
  /\ length (student_objs (save_students_to_team st team l)) = length (student_objs st).
Proof.
  induction l as [|s l IH] using rev_ind; [split; reflexivity|].
  rewrite save_students_to_team_snoc, assign_team_objs_length,
    assign_student_objs_length. exact IH.
Qed.

Lemma team_of_assign_same (st : Store) (t s : nat) :
  (s < length (student_objs st))%nat -> team_of (assign st t s) s = Some t.
Proof.
  intros Hlt. unfold team_of. cbn. rewrite list_lookup_alter_eq.
  destruct (lookup_lt_is_Some_2 _ _ Hlt) as [obj Hobj]. rewrite Hobj. reflexivity.
Qed.

(** X15: [save_students_to_team] appends the students to the members of the
    team, in order, and sets the back-reference of each to the team, also
    for a student who had another team; other teams, other students and
    the locks are as before. *)
Theorem save_students_to_team_spec :
  forall (st : Store) (team : nat) (student_list : list nat),
    (team < length (team_objs st))%nat ->
    get_students (save_students_to_team st team student_list) team
    = get_students st team ++ student_list
    /\ (forall t : nat, t <> team ->
          get_students (save_students_to_team st team student_list) t
          = get_students st t)
    /\ (forall t : nat,
          is_locked (save_students_to_team st team student_list) t = is_locked st t)
    /\ (forall s : nat, s ∈ student_list -> (s < length (student_objs st))%nat ->
          team_of (save_students_to_team st team student_list) s = Some team)
    /\ (forall s : nat, s ∉ student_list ->
          team_of (save_students_to_team st team student_list) s = team_of st s).
Proof.
  intros st team l Hvalid. induction l as [|x l IH] using rev_ind.
  - cbn. rewrite app_nil_r. split; [reflexivity|]. split; [reflexivity|].
    split; [reflexivity|]. split; [|reflexivity].
    intros s Hs. apply elem_of_nil in Hs. destruct Hs.
  - destruct IH as (Hmem & Hother & Hlock & Hset & Hkeep).
    destruct (save_students_to_team_length st team l) as [Hlt Hls].
    rewrite save_students_to_team_snoc.
    split; [rewrite get_students_assign_same by lia; rewrite Hmem, app_assoc;
            reflexivity|].
    split; [intros t Ht; rewrite get_students_assign_other by exact Ht;
            apply Hother, Ht|].
    split; [intros t; rewrite is_locked_assign; apply Hlock|].
    split.
    + intros s Hs Hsv. destruct (decide (s = x)) as [->|Hne].
      * apply team_of_assign_same. lia.
      * rewrite team_of_assign_other by exact Hne. apply Hset; [|exact Hsv].
        apply elem_of_app in Hs as [Hs|Hs]; [exact Hs|].
        apply list_elem_of_singleton in Hs. contradiction.
    + intros s Hs. apply not_elem_of_app in Hs as [Hs Hx].
      rewrite team_of_assign_other; [apply Hkeep, Hs|].
      intros ->. apply Hx, list_elem_of_here.
Qed.

Lemma save_students_to_team_spec_witness :
  (0 < length (team_objs fragment_store))%nat
  /\ get_students (save_students_to_team fragment_store 0%nat [1; 0]%nat) 0%nat
     = get_students fragment_store 0%nat ++ [1; 0]%nat
  /\ (forall t : nat, t <> 0%nat ->
        get_students (save_students_to_team fragment_store 0%nat [1; 0]%nat) t
        = get_students fragment_store t)
  /\ (forall t : nat,
        is_locked (save_students_to_team fragment_store 0%nat [1; 0]%nat) t
        = is_locked fragment_store t)
  /\ (forall s : nat, s ∈ [1; 0]%nat -> (s < length (student_objs fragment_store))%nat ->
        team_of (save_students_to_team fragment_store 0%nat [1; 0]%nat) s = Some 0%nat)
  /\ (forall s : nat, s ∉ [1; 0]%nat ->
        team_of (save_students_to_team fragment_store 0%nat [1; 0]%nat) s
        = team_of fragment_store s).
Proof.
  assert (0 < length (team_objs fragment_store))%nat as Hvalid by (cbn; lia).
  split; [exact Hvalid|].
  exact (save_students_to_team_spec fragment_store 0%nat [1; 0]%nat Hvalid).
Defined.

Lemma next_empty_team_is_empty (st : Store) (teams0 : list nat) (e : nat) :
  next_empty_team st teams0 = Some e -> size st e = 0%Z /\ e ∈ teams0.
Proof.
  induction teams0 as [|t l IH]; cbn [next_empty_team]; [discriminate|].
  destruct (Z.eqb (size st t) 0) eqn:E.
  - intros Heq. inversion Heq; subst. apply Z.eqb_eq in E.
    split; [exact E | apply list_elem_of_here].
  - intros Heq. destruct (IH Heq) as [Hsize Hin].
    split; [exact Hsize | apply list_elem_of_further, Hin].
Qed.

Lemma save_students_to_team_other (st : Store) (team t : nat) (l : list nat) :
  t <> team -> get_students (save_students_to_team st team l) t = get_students st t.
Proof.
  intros Hne. induction l as [|x l IH] using rev_ind; [reflexivity|].
  rewrite save_students_to_team_snoc, get_students_assign_other by exact Hne.
  exact IH.
Qed.

Lemma size_get_students (st : Store) (t : nat) :
  size st t = Z.of_nat (length (get_students st t)).
Proof. unfold size, get_students. destruct (team_objs st !! t); reflexivity. Qed.

(** X16: step 1 of the social strategy only fills empty teams: a team that
    has members when the step starts has the same members when it ends,
    whatever cliques are found. *)
Theorem phase1_keeps_filled_teams :
  forall (teams0 : list nat) (clique_student_lists : list (list nat))
         (st : Store) (t : nat),
    size st t <> 0%Z ->
    get_students (phase1 teams0 st clique_student_lists) t = get_students st t.
Proof.
  intros teams0 lists. induction lists as [|student_list rest IH]; intros st t Hfilled;
    cbn [phase1]; [reflexivity|].
  destruct (next_empty_team st teams0) as [e|] eqn:He; [|reflexivity].
  apply next_empty_team_is_empty in He as [Hempty _].
  assert (t <> e) as Hne by (intros ->; contradiction).
  rewrite IH.
  - apply save_students_to_team_other, Hne.
  - rewrite size_get_students, save_students_to_team_other by exact Hne.
    rewrite <- size_get_students. exact Hfilled.
Qed.

Lemma phase1_keeps_filled_teams_witness :
  size fragment_store 0%nat <> 0%Z
  /\ get_students (phase1 [0%nat] fragment_store [[1%nat]; [0; 1]%nat]) 0%nat
     = get_students fragment_store 0%nat.
Proof.
  assert (size fragment_store 0%nat <> 0%Z) as Hfilled by (cbn; lia).
  split; [exact Hfilled|].
  exact (phase1_keeps_filled_teams [0%nat] [[1%nat]; [0; 1]%nat] fragment_store 0%nat
           Hfilled).
Defined.

(** ** Step 4 of the social strategy *)

Lemma respects_teams_refl (st : Store) (tgo : TeamGenerationOption) :
  respects_teams st st tgo.
Proof. intros t. split; [reflexivity|]. split; [reflexivity | tauto]. Qed.

Lemma respects_teams_trans (st1 st2 st3 : Store) (tgo : TeamGenerationOption) :
  respects_teams st1 st2 tgo -> respects_teams st2 st3 tgo ->
  respects_teams st1 st3 tgo.
Proof.
  intros H12 H23 t. destruct (H12 t) as (Hl1 & Hm1 & Hs1).
  destruct (H23 t) as (Hl2 & Hm2 & Hs2).
  split; [congruence|]. split.
  - intros Hl. rewrite Hm2 by congruence. apply Hm1, Hl.
  - intros Hle. apply Hs2, Hs1, Hle.
Qed.

Lemma respects_teams_assign (st : Store) (tgo : TeamGenerationOption) (t s : nat) :
  (size st t < max_teams_size tgo)%Z -> is_locked st t = false ->
  respects_teams st (assign st t s) tgo.
Proof.
  intros Hroom Hunlocked t'. split; [apply is_locked_assign|]. split.
  - intros Hl. apply get_students_assign_locked; assumption.
  - intros Hle. pose proof (size_assign_le st t s t') as Hstep.
    destruct (decide (t' = t)) as [->|Hne]; lia.
Qed.

Lemma save_each_respects (student : nat) (tgo : TeamGenerationOption) (av : list nat) :
  forall st : Store,
    NoDup av ->
    (forall t : nat, t ∈ av ->
       (size st t < max_teams_size tgo)%Z /\ is_locked st t = false) ->
    respects_teams st
      (fold_left (fun st' team => save_students_to_team st' team [student]) av st) tgo.
Proof.
  induction av as [|a av IH]; intros st Hnd Hopen; [apply respects_teams_refl|].
  cbn [fold_left]. apply NoDup_cons in Hnd as [Hnotin Hnd].
  destruct (Hopen a (list_elem_of_here _ _)) as [Hroom Hunlocked].
  apply respects_teams_trans with (assign st a student).
  - apply respects_teams_assign; assumption.
  - apply IH; [exact Hnd|]. intros t Ht.
    assert (t <> a) as Hne by (intros ->; contradiction).
    change (save_students_to_team st a [student]) with (assign st a student).
    rewrite size_assign_other by exact Hne. rewrite is_locked_assign.
    apply Hopen, list_elem_of_further, Ht.
Qed.

Lemma place_single_respects (teams0 : list nat) (tgo : TeamGenerationOption)
    (st : Store) (student : nat) :
  NoDup teams0 -> respects_teams st (place_single teams0 tgo st student) tgo.
Proof.
  intros Hnd. unfold place_single. apply save_each_respects.
  - unfold get_available_teams. apply NoDup_filter, Hnd.
  - intros t Ht. apply available_is_open in Ht as (_ & Hroom & Hunlocked).
    split; assumption.
Qed.

(** X17: on a roster of distinct teams, step 4 of the social strategy
    respects locks and sizes: the remaining students are saved to available
    teams only, and to each at most once per student, so no lock changes,
    a locked team keeps exactly its members, and a team within the maximum
    size stays within it. *)
Theorem phase4_respects_teams :
  forall (students0 teams0 : list nat) (tgo : TeamGenerationOption) (st : Store),
    NoDup teams0 ->
    respects_teams st (phase4 students0 teams0 tgo st) tgo.
Proof.
  intros students0 teams0 tgo st Hnd. unfold phase4.
  generalize (get_remaining_students st students0) as l. intros l. revert st.
  induction l as [|s l IH]; intros st; [apply respects_teams_refl|].
  cbn [fold_left]. apply respects_teams_trans with (place_single teams0 tgo st s).
  - apply place_single_respects, Hnd.
  - apply IH.
Qed.

Lemma phase4_respects_teams_witness :
  NoDup [0; 1]%nat
  /\ respects_teams stragglers_store
       (phase4 [0; 1; 2; 3; 4]%nat [0; 1]%nat two_to_three stragglers_store) two_to_three.
Proof.
  assert (NoDup [0; 1]%nat) as Hnd.
  { apply NoDup_ListNoDup; repeat constructor; cbn; intuition congruence. }
  split; [exact Hnd|].
  exact (phase4_respects_teams [0; 1; 2; 3; 4]%nat [0; 1]%nat two_to_three
           stragglers_store Hnd).
Defined.

Lemma place_single_reaches_every_available_team_witness :
  0%nat ∈ get_available_teams five_store [0; 1]%nat two_to_three None
  /\ (0 < length (team_objs five_store))%nat
  /\ 4%nat ∈ get_students (place_single [0; 1]%nat two_to_three five_store 4%nat) 0%nat.
Proof.
  assert (0%nat ∈ get_available_teams five_store [0; 1]%nat two_to_three None) as Hin.
  { vm_compute. apply list_elem_of_here. }
  assert (0 < length (team_objs five_store))%nat as Hvalid by (cbn; lia).
  split; [exact Hin|]. split; [exact Hvalid|].
  exact (place_single_reaches_every_available_team five_store [0; 1]%nat two_to_three
           4%nat 0%nat Hin Hvalid).
Defined.

Lemma phase3_inner_raises_witness :
  (size short_store 0%nat < min_team_size teams_of_three)%Z
  /\ spec_find_cliques_lte_size (spec_SocialGraph short_store [0; 1]%nat) short_store
       (get_remaining_students short_store [0; 1]%nat)
       (min_team_size teams_of_three - size short_store 0%nat) = []
  /\ phase3_inner (list (Z * Z)) spec_find_cliques_lte_size [0; 1]%nat teams_of_three
       (spec_SocialGraph short_store [0; 1]%nat) 1 short_store 0%nat
     = Raises IndexError.
Proof.
  assert (size short_store 0%nat < min_team_size teams_of_three)%Z as Hlt
    by (cbn; lia).
  split; [exact Hlt|]. split; [reflexivity|].
  exact (phase3_inner_raises (list (Z * Z)) spec_find_cliques_lte_size [0; 1]%nat
           teams_of_three (spec_SocialGraph short_store [0; 1]%nat) short_store 0%nat
           0%nat Hlt eq_refl).
Defined.

(** ** Scores of team-sets *)

Section CalculateScoreFacts.
Variable Priorities : Type.
Variable StudentDict : Type.
Variable get_priority_satisfaction_array :
  list PriorityTeam.t -> Priorities -> StudentDict -> list Q.
Variable get_multipliers : Priorities -> list Q.

(** X20: the score of a clone can never be calculated.  Whatever team-set
    [clone] is called on, it raises or returns an object without
    [priority_teams] and without a score, and [calculate_score] on that
    object raises [AttributeError] for every list of priorities and every
    student dictionary. *)
Theorem calculate_score_of_clone_raises :
  forall (self : PriorityTeamSet.t) (priorities0 : Priorities)
         (student_dict : StudentDict),
    match PriorityTeamSet.clone self with
    | Returns cloned =>
        calculate_score Priorities StudentDict get_priority_satisfaction_array
          get_multipliers cloned priorities0 student_dict
        = Raises AttributeError
    | Raises e => e = AttributeError
    | OutOfFuel => False
    end.
Proof.
  intros [[pts|] sc] priorities0 student_dict; cbn; reflexivity.
Qed.

End CalculateScoreFacts.


(** ** The response envelope *)

(** X23: the envelope holds the error under [error], the metadata under
    [metadata] and the data under the label, [data] when no label is given.
    A label of [error] or [metadata] loses the data: the later entry of the
    dict takes its place. *)
Theorem ResponseWithMetadata_data_lookup :
  forall (data_label : option String.string) (data timestamp error now : pyval)
         (k : String.string),
    ResponseWithMetadata_data data_label data timestamp error now !! k
    = if decide (k = "error"%string) then Some error
      else if decide (k = "metadata"%string)
           then Some (PDict [(PStr "version", PStr "v0.1.0");
                             (PStr "timestamp", py_or timestamp now)])
           else if decide (k = effective_label data_label) then Some data
                else None.
Proof.
  intros data_label data timestamp error now k. unfold ResponseWithMetadata_data.
  fold (effective_label data_label).
  destruct (decide (k = "error"%string)) as [->|Hne].
  { apply lookup_insert_eq. }
  rewrite lookup_insert_ne by congruence.
  destruct (decide (k = "metadata"%string)) as [->|Hnm].
  { apply lookup_insert_eq. }
  rewrite lookup_insert_ne by congruence.
  destruct (decide (k = effective_label data_label)) as [->|Hnl].
  - apply lookup_singleton_eq.
  - apply lookup_singleton_ne. congruence.
Qed.

(** ** The priority strategy from construction to result *)

Lemma priority_search_returns (TeamSet Score : Type) (score : TeamSet -> Score)
    (score_lt : Score -> Score -> bool) (clone : TeamSet -> TeamSet)
    (rounds : nat) (seed : TeamSet) :
  exists best : TeamSet,
    priority_search TeamSet Score score score_lt clone rounds seed = Returns best.
Proof.
  unfold priority_search.
  pose proof (search_rounds_length_from TeamSet Score score score_lt clone rounds [seed])
    as Hlen.
  destruct (search_rounds TeamSet Score score score_lt clone rounds [seed]) as [|b l].
  - cbn [length] in Hlen. pose proof (Nat.pow_nonzero 2 rounds ltac:(lia)).
    specialize (Hlen ltac:(lia)). lia.
  - exists b. reflexivity.
Qed.


